(** * Deep researcher: configuration resolution and the research workflow

    A shallow embedding of
    - [src/claude_deep_researcher/configuration.py] and
      [src/openai_deep_researcher/configuration.py] (module [Resolver],
      [Groq], [OpenAI]),
    - [src/claude_deep_researcher/graph.py] (module [Graph]),
    - [app.py] (module [App]),
    together with the properties the specification states about them.

    Conventions.  A Python [str] is a [string]; a character stands for the
    code point of the same number, so the strings covered are those whose
    code points are below 256.  A Python [float] is a binary64 [float].
    A [dict] with string keys is a [gmap string _]; the [dict]s inside a
    decoded JSON document are association lists with distinct keys. *)

From Stdlib Require Import ZArith String Ascii List Lia PrimFloat.
From stdpp Require Import base option gmap strings list fin_maps.

Import ListNotations.

Local Open Scope Z_scope.
Set Warnings "-inexact-float".

(** ** Python values, strings and exceptions *)

Module Py.

(** The values that configuration maps and decoded JSON documents hold. *)
#[warnings="-register-all"]
Inductive value : Type :=
| VNone
| VBool (b : bool)
| VInt (z : Z)
| VFloat (f : float)
| VStr (s : string)
| VList (l : list value)
| VDict (d : list (string * value)).

(** [v is None] *)
Definition is_none (v : value) : bool :=
  match v with VNone => true | _ => false end.

(** [bool(v)]: the truth value Python's [not]/[if] use. *)
Definition truthy (v : value) : bool :=
  match v with
  | VNone => false
  | VBool b => b
  | VInt z => negb (z =? 0)
  | VFloat f => negb (PrimFloat.eqb f 0%float)
  | VStr s => negb (String.eqb s "")
  | VList l => match l with [] => false | _ => true end
  | VDict d => match d with [] => false | _ => true end
  end.

(** [isinstance(v, dict)] *)
Definition is_dict (v : value) : bool :=
  match v with VDict _ => true | _ => false end.

(** [type(v).__name__] *)
Definition type_name (v : value) : string :=
  match v with
  | VNone => "NoneType"
  | VBool _ => "bool"
  | VInt _ => "int"
  | VFloat _ => "float"
  | VStr _ => "str"
  | VList _ => "list"
  | VDict _ => "dict"
  end.

(** [d.get(k)] on a decoded JSON object: the first binding of [k]. *)
Fixpoint assoc_get (k : string) (d : list (string * value)) : option value :=
  match d with
  | [] => None
  | (k', v) :: d' => if String.eqb k k' then Some v else assoc_get k d'
  end.

(** [c.isspace()] for a code point below 256. *)
Definition isspace (c : ascii) : bool :=
  let n := Z.of_nat (nat_of_ascii c) in
  ((9 <=? n) && (n <=? 13)) || ((28 <=? n) && (n <=? 32))
  || (n =? 133) || (n =? 160).

(** [s.lstrip()] *)
Fixpoint lstrip (s : string) : string :=
  match s with
  | EmptyString => EmptyString
  | String c s' => if isspace c then lstrip s' else s
  end.

(** [s.rstrip()] *)
Fixpoint rstrip (s : string) : string :=
  match s with
  | EmptyString => EmptyString
  | String c s' =>
      match rstrip s' with
      | EmptyString => if isspace c then EmptyString else String c EmptyString
      | r => String c r
      end
  end.

(** [s.strip()] *)
Definition strip (s : string) : string := rstrip (lstrip s).

(** [bool(s)] for a string. *)
Definition nonempty (s : string) : bool :=
  match s with EmptyString => false | _ => true end.

(** [s.split(sep)] for a one-character separator: never the empty list,
    [''.split(sep) = ['']]. *)
Fixpoint split (sep : ascii) (s : string) : list string :=
  match s with
  | EmptyString => [EmptyString]
  | String c s' =>
      if Ascii.eqb c sep then EmptyString :: split sep s'
      else match split sep s' with
           | [] => [String c EmptyString]
           | w :: ws => String c w :: ws
           end
  end.

(** [sep.join(l)] *)
Fixpoint join (sep : string) (l : list string) : string :=
  match l with
  | [] => EmptyString
  | [x] => x
  | x :: l' => (x ++ sep ++ join sep l')%string
  end.

(** [c.upper()] for an ASCII character. *)
Definition upper_ascii (c : ascii) : ascii :=
  let n := nat_of_ascii c in
  if ((97 <=? n) && (n <=? 122))%nat then ascii_of_nat (n - 32) else c.

(** [s.upper()], for the ASCII identifiers it is applied to. *)
Fixpoint upper (s : string) : string :=
  match s with
  | EmptyString => EmptyString
  | String c s' => String (upper_ascii c) (upper s')
  end.

(** [s.startswith(p)] *)
Fixpoint startswith (p s : string) : bool :=
  match p, s with
  | EmptyString, _ => true
  | String a p', String b s' => Ascii.eqb a b && startswith p' s'
  | String _ _, EmptyString => false
  end.

(** [p in s] for strings. *)
Fixpoint contains (p s : string) : bool :=
  startswith p s ||
  match s with
  | EmptyString => false
  | String _ s' => contains p s'
  end.

(** The newline character. *)
Definition nl : ascii := "010"%char.
Definition NL : string := String nl EmptyString.

(** Exception classes the programs raise, catch or let through. *)
Inductive exn_class : Type :=
| ValueError
| TypeError
| KeyError
| AttributeError
| IndexError
| JSONDecodeError
| ValidationError
| ProviderError
| GraphRecursionError
| RecursionError
| UnicodeEncodeError
| Exception
| KeyboardInterrupt
| SystemExit.

(** [issubclass(c, Exception)]: what [except Exception] catches.
    [KeyboardInterrupt] and [SystemExit] derive from [BaseException]
    only. *)
Definition is_Exception (c : exn_class) : bool :=
  match c with KeyboardInterrupt | SystemExit => false | _ => true end.

(** A raised exception: its class and [str(e)].  The text is the source's
    where the source writes it; for an exception raised by the interpreter
    or by a library it is indicative, and no statement rests on it. *)
Record exn : Type := Exn { exn_cls : exn_class; exn_str : string }.

Inductive result (A : Type) : Type :=
| Ok (a : A)
| Raise (e : exn).
Arguments Ok {A} a.
Arguments Raise {A} e.

#[global] Instance result_ret : MRet result := @Ok.
#[global] Instance result_bind : MBind result :=
  fun A B f r => match r with Ok a => f a | Raise e => Raise e end.
#[global] Instance result_fmap : FMap result :=
  fun A B f r => match r with Ok a => Ok (f a) | Raise e => Raise e end.

End Py.
Export Py.

(** ** The settings layer

    [Configuration] is a pydantic [BaseModel].  Constructing it validates
    every supplied value against the declared type of its field and ignores
    keys that are not fields.  The validators are the library's; what the
    development relies on is that a value already of the declared type is
    accepted unchanged. *)

Class Validation : Type := {
  validate_int : value -> option Z;
  validate_str : value -> option string;
  validate_bool : value -> option bool;
  validate_float : value -> option float;
  validate_int_int : forall z, validate_int (VInt z) = Some z;
  validate_str_str : forall s, validate_str (VStr s) = Some s;
  validate_bool_bool : forall b, validate_bool (VBool b) = Some b;
  validate_float_float : forall f, validate_float (VFloat f) = Some f
}.

(** [RunnableConfig]: of its keys only ["configurable"] is read. *)
Record RunnableConfig : Type := {
  configurable : option (gmap string value)
}.

(** [os.environ] *)
Abbreviation environ := (gmap string string).

Module Resolver.

(** [config["configurable"] if config and "configurable" in config else {}] *)
Definition configurable_of (config : option RunnableConfig)
  : gmap string value :=
  match config with
  | Some c => match configurable c with Some d => d | None => ∅ end
  | None => ∅
  end.

(** [os.environ.get(k, default)] *)
Definition environ_get (env : environ) (k : string) (default : value)
  : value :=
  match env !! k with Some s => VStr s | None => default end.

(** [d.get(k)] *)
Definition dict_get (d : gmap string value) (k : string) : value :=
  match d !! k with Some v => v | None => VNone end.

(** [{name: os.environ.get(name.upper(), configurable.get(name))
      for name in cls.model_fields.keys()}] *)
Definition raw_values (model_fields : list string) (env : environ)
    (cfg : gmap string value) : gmap string value :=
  foldl (fun raw name =>
           <[name := environ_get env (upper name) (dict_get cfg name)]> raw)
        ∅ model_fields.

(** [if raw_values.get("openai_api_key") is None:
        raw_values["openai_api_key"] = os.environ.get("OPENAI_API_KEY")] *)
Definition openai_key_fallback (env : environ) (raw : gmap string value)
  : gmap string value :=
  if is_none (dict_get raw "openai_api_key")
  then <["openai_api_key" := environ_get env "OPENAI_API_KEY" VNone]> raw
  else raw.

(** [{k: v for k, v in raw_values.items() if v is not None}] *)
Definition drop_none (raw : gmap string value) : gmap string value :=
  filter (fun kv => is_none kv.2 = false) raw.

(** The keyword arguments [from_runnable_config] hands to [cls]. *)
Definition values (model_fields : list string) (env : environ)
    (config : option RunnableConfig) : gmap string value :=
  drop_none
    (openai_key_fallback env
       (raw_values model_fields env (configurable_of config))).

Definition validation_error {A} : result A :=
  Raise (Exn ValidationError "validation error for Configuration").

(** One field of the constructor call: the default when the key is absent,
    the validated value otherwise. *)
Definition field {A} (validate : value -> option A) (default : A)
    (kwargs : gmap string value) (name : string) : result A :=
  match kwargs !! name with
  | None => Ok default
  | Some v => match validate v with
              | Some a => Ok a
              | None => validation_error
              end
  end.

(** [Optional[T]] *)
Definition validate_optional {A} (validate : value -> option A) (v : value)
  : option (option A) :=
  if is_none v then Some None else Some <$> validate v.

(** [Literal[lit]] for a string literal. *)
Definition validate_literal (lit : string) (v : value) : option string :=
  match v with
  | VStr s => if String.eqb s lit then Some s else None
  | _ => None
  end.

End Resolver.

(** ** [claude_deep_researcher/configuration.py] *)

Module Groq.
Import Resolver.

Record Configuration : Type := {
  max_web_research_loops : Z;
  groq_model : string;
  groq_api_key : option string;
  search_api : string;
  fetch_full_page : bool;
  temperature : float;
  strip_thinking_tokens : bool
}.

(** [cls.model_fields.keys()] *)
Definition model_fields : list string :=
  ["max_web_research_loops"; "groq_model"; "groq_api_key"; "search_api";
   "fetch_full_page"; "temperature"; "strip_thinking_tokens"].

Section Groq.
Context `{Validation}.

(** [cls] applied to the keyword arguments [kwargs]. *)
Definition construct (kwargs : gmap string value) : result Configuration :=
  a ← field validate_int 3 kwargs "max_web_research_loops";
  b ← field validate_str "llama-3.3-70b-versatile" kwargs "groq_model";
  c ← field (validate_optional validate_str) None kwargs "groq_api_key";
  d ← field (validate_literal "tavily") "tavily" kwargs "search_api";
  e ← field validate_bool true kwargs "fetch_full_page";
  f ← field validate_float 0%float kwargs "temperature";
  g ← field validate_bool true kwargs "strip_thinking_tokens";
  Ok {| max_web_research_loops := a; groq_model := b; groq_api_key := c;
        search_api := d; fetch_full_page := e; temperature := f;
        strip_thinking_tokens := g |}.

Definition from_runnable_config (env : environ)
    (config : option RunnableConfig) : result Configuration :=
  construct (values model_fields env config).

End Groq.
End Groq.

(** ** [openai_deep_researcher/configuration.py] *)

Module OpenAI.
Import Resolver.

Record Configuration : Type := {
  max_web_research_loops : Z;
  openai_model : string;
  openai_api_key : option string;
  search_api : string;
  fetch_full_page : bool;
  temperature : float;
  strip_thinking_tokens : bool
}.

Definition model_fields : list string :=
  ["max_web_research_loops"; "openai_model"; "openai_api_key"; "search_api";
   "fetch_full_page"; "temperature"; "strip_thinking_tokens"].

Section OpenAI.
Context `{Validation}.

Definition construct (kwargs : gmap string value) : result Configuration :=
  a ← field validate_int 3 kwargs "max_web_research_loops";
  b ← field validate_str "gpt-4" kwargs "openai_model";
  c ← field (validate_optional validate_str) None kwargs "openai_api_key";
  d ← field (validate_literal "tavily") "tavily" kwargs "search_api";
  e ← field validate_bool true kwargs "fetch_full_page";
  f ← field validate_float 0%float kwargs "temperature";
  g ← field validate_bool true kwargs "strip_thinking_tokens";
  Ok {| max_web_research_loops := a; openai_model := b; openai_api_key := c;
        search_api := d; fetch_full_page := e; temperature := f;
        strip_thinking_tokens := g |}.

Definition from_runnable_config (env : environ)
    (config : option RunnableConfig) : result Configuration :=
  construct (values model_fields env config).

End OpenAI.
End OpenAI.

(** ** [claude_deep_researcher/graph.py] *)

Module Graph.

(** One chat-completion request: [model], [temperature], the
    [(role, content)] messages, and whether
    [response_format={"type": "json_object"}] is passed. *)
Record ChatRequest : Type := {
  model : string;
  req_temperature : float;
  messages : list (string * string);
  json_mode : bool
}.

(** The calls that leave the process. *)
Inductive event : Type :=
| ChatCall (r : ChatRequest)
| SearchCall (query : value) (fetch_full_page : bool) (max_results : Z).

(** What the workflow imports and this repository does not define, or
    defines in [utils.py] and [prompts.py]: the JSON decoder, the two
    providers, the formatting helpers and the prompt templates.  A provider's
    answer may depend on every call made before it. *)
Class Externals : Type := {
  (** [json.loads]: the decoded document, or the exception raised.  Text
      that is not JSON raises [JSONDecodeError]; the decoder also raises
      [ValueError] for an integer literal beyond the interpreter's digit
      limit and [RecursionError] for nesting beyond its stack. *)
  json_loads : string -> result value;
  (** [client.chat.completions.create(...).choices[0].message.content] *)
  chat_completions_create : list event -> ChatRequest -> result string;
  tavily_search : list event -> value -> bool -> Z -> result value;
  deduplicate_and_format_sources : value -> Z -> bool -> string;
  format_sources : value -> string;
  strip_thinking_tokens : string -> string;
  get_current_date : string;
  (** [query_writer_instructions.format(current_date=d, research_topic=t)] *)
  query_writer_instructions : string -> string -> string;
  summarizer_instructions : string;
  (** [reflection_instructions.format(research_topic=t)] *)
  reflection_instructions : string -> string
}.

(** Computations that call the providers: the calls made so far are threaded
    through, and an exception ends the computation. *)
Definition M (A : Type) : Type := list event -> result A * list event.

#[global] Instance M_ret : MRet M := fun A a tr => (Ok a, tr).
#[global] Instance M_bind : MBind M :=
  fun A B f m tr =>
    match m tr with
    | (Ok a, tr') => f a tr'
    | (Raise e, tr') => (Raise e, tr')
    end.

Definition lift {A} (r : result A) : M A := fun tr => (r, tr).

(** [try: body  except classes: handler], for a body without calls. *)
Definition try_except {A} (body : result A) (caught : exn_class -> bool)
    (handler : M A) : M A :=
  match body with
  | Ok a => mret a
  | Raise e => if caught (exn_cls e) then handler else lift (Raise e)
  end.

(** [str(v)] inside an f-string, for an optional string. *)
Definition format_opt (o : option string) : string :=
  match o with Some s => s | None => "None" end.

(** Modelled from the spec: [state.py] is not among the sources.  The record
    threaded through the workflow, with the field defaults of section 4.2:
    the counter starts at 0, the two sequences start empty, the summary
    starts absent. *)
Record SummaryState : Type := {
  research_topic : string;
  search_query : value;
  web_research_results : list string;
  sources_gathered : list string;
  research_loop_count : Z;
  running_summary : option string
}.

(** [SummaryStateInput(research_topic=topic)] seen as a fresh state. *)
Definition initial_state (topic : string) : SummaryState :=
  {| research_topic := topic; search_query := VNone;
     web_research_results := []; sources_gathered := [];
     research_loop_count := 0; running_summary := None |}.

(** The dictionary a node returns: the keys it sets. *)
Record Update : Type := {
  u_search_query : option value;
  u_web_research_results : option (list string);
  u_sources_gathered : option (list string);
  u_research_loop_count : option Z;
  u_running_summary : option string
}.

(** Modelled from the spec: the merge contract of section 3, which
    [state.py] declares and the engine applies.  Sequence fields are
    appended to, scalar fields are replaced. *)
Definition merge (s : SummaryState) (u : Update) : SummaryState :=
  {| research_topic := research_topic s;
     search_query := default (search_query s) (u_search_query u);
     web_research_results :=
       web_research_results s ++ default [] (u_web_research_results u);
     sources_gathered :=
       sources_gathered s ++ default [] (u_sources_gathered u);
     research_loop_count :=
       default (research_loop_count s) (u_research_loop_count u);
     running_summary :=
       match u_running_summary u with
       | Some r => Some r
       | None => running_summary s
       end |}.

(** [v[key]] for a string key. *)
Definition subscript (v : value) (key : string) : result value :=
  match v with
  | VDict d =>
      match assoc_get key d with
      | Some x => Ok x
      | None => Raise (Exn KeyError ("'" ++ key ++ "'"))
      end
  | VList _ =>
      Raise (Exn TypeError "list indices must be integers or slices, not str")
  | VStr _ =>
      Raise (Exn TypeError "string indices must be integers, not 'str'")
  | _ =>
      Raise (Exn TypeError ("'" ++ type_name v ++ "' object is not subscriptable"))
  end.

(** [v.get(key)] *)
Definition get_method (v : value) (key : string) : result value :=
  match v with
  | VDict d => Ok (default VNone (assoc_get key d))
  | _ =>
      Raise (Exn AttributeError
               ("'" ++ type_name v ++ "' object has no attribute 'get'"))
  end.

(** [l[-1]] *)
Definition last_item (l : list string) : result string :=
  match last l with
  | Some x => Ok x
  | None => Raise (Exn IndexError "list index out of range")
  end.

Section Nodes.
Context `{Validation} `{Externals}.
Variable env : environ.
Variable config : option RunnableConfig.

(** [client.chat.completions.create(...)], recorded. *)
Definition chat (r : ChatRequest) : M string :=
  fun tr => (chat_completions_create tr r, tr ++ [ChatCall r]).

(** [tavily_search(query, fetch_full_page=b, max_results=n)], recorded. *)
Definition search (query : value) (b : bool) (n : Z) : M value :=
  fun tr => (tavily_search tr query b n, tr ++ [SearchCall query b n]).

(** The request [generate_query] sends. *)
Definition query_writer_request (configurable : Groq.Configuration)
    (state : SummaryState) : ChatRequest :=
  let current_date := get_current_date in
  let formatted_prompt :=
    query_writer_instructions current_date (research_topic state) in
  {| model := Groq.groq_model configurable;
     req_temperature := Groq.temperature configurable;
     messages := [("system", formatted_prompt);
                  ("user", "Generate a query for web search:")];
     json_mode := true |}.

Definition generate_query (state : SummaryState) : M Update :=
  configurable ← lift (Groq.from_runnable_config env config);
  content ← chat (query_writer_request configurable state);
  search_query ←
    try_except
      (query ← json_loads content;
       subscript query "query")
      (fun c => match c with JSONDecodeError | KeyError => true | _ => false end)
      (let content :=
         if Groq.strip_thinking_tokens configurable
         then strip_thinking_tokens content else content in
       mret (VStr content));
  mret {| u_search_query := Some search_query;
          u_web_research_results := None; u_sources_gathered := None;
          u_research_loop_count := None; u_running_summary := None |}.

Definition web_research (state : SummaryState) : M Update :=
  configurable ← lift (Groq.from_runnable_config env config);
  search_results ←
    search (search_query state) (Groq.fetch_full_page configurable) 3;
  let search_str :=
    deduplicate_and_format_sources search_results 1000
      (Groq.fetch_full_page configurable) in
  mret {| u_search_query := None;
          u_web_research_results := Some [search_str];
          u_sources_gathered := Some [format_sources search_results];
          u_research_loop_count := Some (research_loop_count state + 1);
          u_running_summary := None |}.

(** The user message of [summarize_sources]. *)
Definition human_message_content (state : SummaryState)
    (most_recent_web_research : string) : string :=
  let existing_summary := running_summary state in
  if match existing_summary with Some e => nonempty e | None => false end
  then
    ("<Existing Summary> " ++ NL ++ " " ++ format_opt existing_summary
     ++ " " ++ NL ++ " <Existing Summary>" ++ NL ++ NL
     ++ "<New Context> " ++ NL ++ " " ++ most_recent_web_research
     ++ " " ++ NL ++ " <New Context>"
     ++ "Update the Existing Summary with the New Context on this topic: "
     ++ NL ++ " <User Input> " ++ NL ++ " " ++ research_topic state
     ++ " " ++ NL ++ " <User Input>" ++ NL ++ NL)%string
  else
    ("<Context> " ++ NL ++ " " ++ most_recent_web_research ++ " " ++ NL
     ++ " <Context>"
     ++ "Create a Summary using the Context on this topic: "
     ++ NL ++ " <User Input> " ++ NL ++ " " ++ research_topic state
     ++ " " ++ NL ++ " <User Input>" ++ NL ++ NL)%string.

Definition summarize_sources (state : SummaryState) : M Update :=
  most_recent_web_research ← lift (last_item (web_research_results state));
  configurable ← lift (Groq.from_runnable_config env config);
  content ← chat {| model := Groq.groq_model configurable;
                    req_temperature := Groq.temperature configurable;
                    messages :=
                      [("system", summarizer_instructions);
                       ("user",
                        human_message_content state most_recent_web_research)];
                    json_mode := false |};
  let running_summary :=
    if Groq.strip_thinking_tokens configurable
    then strip_thinking_tokens content else content in
  mret {| u_search_query := None; u_web_research_results := None;
          u_sources_gathered := None; u_research_loop_count := None;
          u_running_summary := Some running_summary |}.

(** [{"search_query": f"Tell me more about {state.research_topic}"}] *)
Definition fallback_query (state : SummaryState) : Update :=
  {| u_search_query :=
       Some (VStr ("Tell me more about " ++ research_topic state)%string);
     u_web_research_results := None; u_sources_gathered := None;
     u_research_loop_count := None; u_running_summary := None |}.

(** The request [reflect_on_summary] sends. *)
Definition reflection_request (configurable : Groq.Configuration)
    (state : SummaryState) : ChatRequest :=
  {| model := Groq.groq_model configurable;
     req_temperature := Groq.temperature configurable;
     messages :=
       [("system", reflection_instructions (research_topic state));
        ("user",
         ("Reflect on our existing knowledge: " ++ NL
          ++ " === " ++ NL ++ " "
          ++ format_opt (running_summary state) ++ ", " ++ NL
          ++ " === " ++ NL
          ++ " And now identify a knowledge gap and generate a follow-up web search query:")%string)];
     json_mode := true |}.

Definition reflect_on_summary (state : SummaryState) : M Update :=
  configurable ← lift (Groq.from_runnable_config env config);
  content ← chat (reflection_request configurable state);
  try_except
    (reflection_content ← json_loads content;
     query ← get_method reflection_content "follow_up_query";
     if negb (truthy query) then Ok (fallback_query state)
     else Ok {| u_search_query := Some query;
                u_web_research_results := None; u_sources_gathered := None;
                u_research_loop_count := None; u_running_summary := None |})
    (fun c => match c with
              | JSONDecodeError | KeyError | AttributeError => true
              | _ => false
              end)
    (mret (fallback_query state)).

End Nodes.

(** The inner loop of [finalize_summary] over the lines of one block: the
    pair is [(seen_sources, unique_sources)]. *)
Definition scan_lines (acc : gset string * list string) (lines : list string)
  : gset string * list string :=
  foldl (fun '(seen_sources, unique_sources) line =>
           if nonempty (strip line) && bool_decide (line ∉ seen_sources)
           then ({[line]} ∪ seen_sources, unique_sources ++ [line])
           else (seen_sources, unique_sources))
        acc lines.

(** The outer loop over [state.sources_gathered]. *)
Definition scan_sources (sources : list string) : gset string * list string :=
  foldl (fun acc source => scan_lines acc (split nl source)) (∅, []) sources.

(** [finalize_summary]: the state after the assignment to
    [state.running_summary], and the returned dictionary. *)
Definition finalize_summary (state : SummaryState) : SummaryState * Update :=
  let unique_sources := (scan_sources (sources_gathered state)).2 in
  let all_sources := join NL unique_sources in
  let report :=
    ("## Summary" ++ NL ++ format_opt (running_summary state) ++ NL ++ NL
     ++ " ### Sources:" ++ NL ++ all_sources)%string in
  ({| research_topic := research_topic state;
      search_query := search_query state;
      web_research_results := web_research_results state;
      sources_gathered := sources_gathered state;
      research_loop_count := research_loop_count state;
      running_summary := Some report |},
   {| u_search_query := None; u_web_research_results := None;
      u_sources_gathered := None; u_research_loop_count := None;
      u_running_summary := Some report |}).

(** The nodes registered with [builder.add_node]. *)
Inductive node : Type :=
| generate_query_node
| web_research_node
| summarize_sources_node
| reflect_on_summary_node
| finalize_summary_node.

#[global] Instance node_eq_dec : EqDecision node.
Proof. solve_decision. Defined.

Definition node_of_name (name : string) : option node :=
  if String.eqb name "generate_query" then Some generate_query_node
  else if String.eqb name "web_research" then Some web_research_node
  else if String.eqb name "summarize_sources" then Some summarize_sources_node
  else if String.eqb name "reflect_on_summary" then Some reflect_on_summary_node
  else if String.eqb name "finalize_summary" then Some finalize_summary_node
  else None.

Section Engine.
Context `{Validation} `{Externals}.
Variable env : environ.
Variable config : option RunnableConfig.

Definition route_research (state : SummaryState) : result string :=
  configurable ← Groq.from_runnable_config env config;
  if research_loop_count state <=? Groq.max_web_research_loops configurable
  then Ok "web_research"
  else Ok "finalize_summary".

(** The function registered under each node name. *)
Definition run_node (n : node) (state : SummaryState) : M Update :=
  match n with
  | generate_query_node => generate_query env config state
  | web_research_node => web_research env config state
  | summarize_sources_node => summarize_sources env config state
  | reflect_on_summary_node => reflect_on_summary env config state
  | finalize_summary_node => mret (finalize_summary state).2
  end.

(** The edges added to [builder]; [None] is [END].  The conditional edge
    after [reflect_on_summary] reads the state that node has just updated. *)
Definition next_node (n : node) (state : SummaryState)
  : result (option node) :=
  match n with
  | generate_query_node => Ok (Some web_research_node)
  | web_research_node => Ok (Some summarize_sources_node)
  | summarize_sources_node => Ok (Some reflect_on_summary_node)
  | reflect_on_summary_node =>
      name ← route_research state;
      match node_of_name name with
      | Some n' => Ok (Some n')
      | None => Raise (Exn KeyError ("'" ++ name ++ "'"))
      end
  | finalize_summary_node => Ok None
  end.

(** One step of the compiled graph: run the node, merge what it returns
    into the state, follow the outgoing edge. *)
Definition step (n : node) (state : SummaryState)
  : M (option node * SummaryState) :=
  u ← run_node n state;
  let state' := merge state u in
  nx ← lift (next_node n state');
  mret (nx, state').

(** The driver, with [limit] the engine's recursion limit (25 unless
    configured).  The engine checks its step count after each node, before
    it looks for what to run next: the node that runs as number [limit] is
    the last one allowed, and the engine raises after it even when nothing
    is left to run.  A run of [k] nodes therefore needs a limit of [k + 1].
    The history lists each node run with the state it left. *)
Fixpoint run (limit : nat) (n : node) (state : SummaryState)
    (history : list (node * SummaryState))
  : M (SummaryState * list (node * SummaryState)) :=
  match limit with
  | O => lift (Raise (Exn GraphRecursionError "Recursion limit reached"))
  | S limit' =>
      r ← step n state;
      let history' := history ++ [(n, r.2)] in
      match limit' with
      | O => lift (Raise (Exn GraphRecursionError "Recursion limit reached"))
      | S _ =>
          match r.1 with
          | None => mret (r.2, history')
          | Some n' => run limit' n' r.2 history'
          end
      end
  end.

(** [graph.invoke(SummaryStateInput(research_topic=topic), config)], with
    the history kept.  The engine refuses a limit below 1 before it
    starts. *)
Definition invoke (limit : nat) (topic : string)
  : M (SummaryState * list (node * SummaryState)) :=
  match limit with
  | O => lift (Raise (Exn ValueError "recursion_limit must be at least 1"))
  | S _ => run limit generate_query_node (initial_state topic) []
  end.

(** The states of a run: a node about to run ([None] once the run ended),
    the state it sees, and the calls made so far. *)
Inductive reachable (topic : string)
  : option node -> SummaryState -> list event -> Prop :=
| reachable_start :
    reachable topic (Some generate_query_node) (initial_state topic) []
| reachable_step n state tr nx state' tr' :
    reachable topic (Some n) state tr ->
    step n state tr = (Ok (nx, state'), tr') ->
    reachable topic nx state' tr'.

End Engine.

(** The loop counts the history shows for [web_research]. *)
Definition web_research_counts (history : list (node * SummaryState))
  : list Z :=
  (fun p => research_loop_count p.2)
    <$> filter (fun p => p.1 = web_research_node) history.

End Graph.

(** ** [app.py] *)

Module App.
Import Graph.

(** [load_dotenv()]: variables of the environment file are added to the
    process environment, those already set are kept. *)
Definition load_dotenv (dotenv env : environ) : environ := env ∪ dotenv.

(** [not os.getenv(name)] *)
Definition getenv_missing (env : environ) (name : string) : bool :=
  match env !! name with
  | Some s => negb (nonempty s)
  | None => true
  end.

(** The [config] literal of [run_research]. *)
Definition app_config : RunnableConfig :=
  {| configurable :=
       Some (list_to_map
               [("groq_model", VStr "llama-3.3-70b-versatile");
                ("temperature", VFloat 0.1%float);
                ("max_web_research_loops", VInt 3);
                ("fetch_full_page", VBool true);
                ("strip_thinking_tokens", VBool true)]) |}.

Section App.
(** [graph.invoke] of [src.openai_deep_researcher.graph], which is not
    among the sources: any computation over the providers, returning the
    output dictionary. *)
Variable graph_invoke :
  environ -> string -> option RunnableConfig -> M (gmap string value).

Definition run_research (dotenv env : environ) (research_topic : string)
  : M value :=
  fun tr =>
    let env := load_dotenv dotenv env in
    if getenv_missing env "GROQ_API_KEY" then
      (Raise (Exn ValueError
                "GROQ_API_KEY environment variable is not set. Please set your Groq API key."),
       tr)
    else if getenv_missing env "TAVILY_API_KEY" then
      (Raise (Exn ValueError
                "TAVILY_API_KEY environment variable is not set. Please set your Tavily API key."),
       tr)
    else
      let body : M value :=
        result ← graph_invoke env research_topic (Some app_config);
        match result !! "running_summary" with
        | Some v => mret v
        | None => lift (Raise (Exn KeyError "'running_summary'"))
        end in
      match body tr with
      | (Ok v, tr') => (Ok v, tr')
      | (Raise e, tr') =>
          if is_Exception (exn_cls e)
          then (Raise (Exn Exception ("Research failed: " ++ exn_str e)), tr')
          else (Raise e, tr')
      end.

End App.
End App.

(** ** Instances of the two interfaces

    Concrete stand-ins for the libraries, so that every statement below can
    be run on an input: a decoder for a fragment of JSON, validators that
    also read numbers and booleans from their usual spellings, and providers
    that answer from a script. *)

Module Json.

Definition DQ : ascii := "034"%char.

(** [quote s] is [s] between double quotes. *)
Definition quote (s : string) : string :=
  String DQ (s ++ String DQ EmptyString).

Definition is_ws (c : ascii) : bool :=
  let n := nat_of_ascii c in
  ((n =? 32) || (n =? 9) || (n =? 10) || (n =? 13))%nat.

Fixpoint skip_ws (s : string) : string :=
  match s with
  | String c s' => if is_ws c then skip_ws s' else s
  | EmptyString => s
  end.

Definition digit (c : ascii) : option Z :=
  let n := nat_of_ascii c in
  if ((48 <=? n) && (n <=? 57))%nat then Some (Z.of_nat (n - 48)) else None.

Definition unescape (c : ascii) : option ascii :=
  if Ascii.eqb c DQ then Some DQ
  else if Ascii.eqb c "\" then Some "\"%char
  else if Ascii.eqb c "/" then Some "/"%char
  else if Ascii.eqb c "n" then Some "010"%char
  else if Ascii.eqb c "t" then Some "009"%char
  else if Ascii.eqb c "r" then Some "013"%char
  else None.

(** The text after an opening quote: the decoded string and what follows
    the closing quote. *)
Fixpoint string_body (s : string) : option (string * string) :=
  match s with
  | EmptyString => None
  | String c s' =>
      if Ascii.eqb c DQ then Some (EmptyString, s')
      else if Ascii.eqb c "\" then
        match s' with
        | String e s'' =>
            match unescape e, string_body s'' with
            | Some x, Some (r, rest) => Some (String x r, rest)
            | _, _ => None
            end
        | EmptyString => None
        end
      else if (nat_of_ascii c <? 32)%nat then None
      else match string_body s' with
           | Some (r, rest) => Some (String c r, rest)
           | None => None
           end
  end.

(** [sys.int_info.default_max_str_digits]: [int] refuses a longer run of
    digits, and so does the decoder, which converts with [int]. *)
Definition max_str_digits : nat := 4300.

(** The nesting the decoder gets through before the interpreter's stack
    runs out.  The interpreter allows 1000 frames; what is left of them
    depends on where the decoder is called from, and 900 stands for it
    here. *)
Definition nesting_limit : nat := 900.

Definition not_json {A} : result A :=
  Raise (Exn JSONDecodeError "Expecting value").

Definition too_many_digits {A} : result A :=
  Raise (Exn ValueError
           "Exceeds the limit (4300 digits) for integer string conversion").

Definition too_deep {A} : result A :=
  Raise (Exn RecursionError
           "maximum recursion depth exceeded while decoding a JSON document").

(** A run of digits read onto [acc], with the number of digits read. *)
Fixpoint digits (s : string) (acc : Z) (count : nat) : Z * nat * string :=
  match s with
  | String c s' =>
      match digit c with
      | Some d => digits s' (10 * acc + d) (S count)
      | None => (acc, count, s)
      end
  | EmptyString => (acc, count, s)
  end.

(** An integer literal; a fraction or an exponent is outside the fragment.
    A literal of more than [max_str_digits] digits is well-formed JSON, and
    its conversion raises [ValueError]. *)
Definition integer (s : string) : result (Z * string) :=
  let '(sign, body) :=
    match s with
    | String "-" s' => (-1, s')
    | _ => (1, s)
    end in
  let '(n, count, rest) := digits body 0 0 in
  let leading_zero :=
    match body with
    | String "0" (String c _) =>
        match digit c with Some _ => true | None => false end
    | _ => false
    end in
  if (count =? 0)%nat || leading_zero then not_json
  else match rest with
       | String "." _ | String "e" _ | String "E" _ => not_json
       | _ => if (max_str_digits <? count)%nat then too_many_digits
              else Ok (sign * n, rest)
       end.

(** [d[k] = v] on an association list. *)
Fixpoint assoc_set (k : string) (v : value) (d : list (string * value))
  : list (string * value) :=
  match d with
  | [] => [(k, v)]
  | (k', v') :: d' =>
      if String.eqb k k' then (k, v) :: d' else (k', v') :: assoc_set k v d'
  end.

Fixpoint parse_value (fuel depth : nat) (s : string)
  : result (value * string) :=
  match fuel with
  | O => not_json
  | S fuel' =>
      let s := skip_ws s in
      if startswith "null" s then Ok (VNone, String.substring 4 (String.length s) s)
      else if startswith "true" s then Ok (VBool true, String.substring 4 (String.length s) s)
      else if startswith "false" s then Ok (VBool false, String.substring 5 (String.length s) s)
      else
        match s with
        | EmptyString => not_json
        | String c s' =>
            if Ascii.eqb c DQ then
              match string_body s' with
              | Some (r, rest) => Ok (VStr r, rest)
              | None => not_json
              end
            else if Ascii.eqb c "[" then
              match depth with
              | O => too_deep
              | S depth' =>
                  match skip_ws s' with
                  | String "]" rest => Ok (VList [], rest)
                  | _ => parse_elements fuel' depth' s' []
                  end
              end
            else if Ascii.eqb c "{" then
              match depth with
              | O => too_deep
              | S depth' =>
                  match skip_ws s' with
                  | String "}" rest => Ok (VDict [], rest)
                  | _ => parse_members fuel' depth' s' []
                  end
              end
            else
              match integer s with
              | Ok (n, rest) => Ok (VInt n, rest)
              | Raise e => Raise e
              end
        end
  end
with parse_elements (fuel depth : nat) (s : string) (acc : list value)
  : result (value * string) :=
  match fuel with
  | O => not_json
  | S fuel' =>
      match parse_value fuel' depth s with
      | Ok (v, rest) =>
          match skip_ws rest with
          | String "," rest' => parse_elements fuel' depth rest' (acc ++ [v])
          | String "]" rest' => Ok (VList (acc ++ [v]), rest')
          | _ => not_json
          end
      | Raise e => Raise e
      end
  end
with parse_members (fuel depth : nat) (s : string)
    (acc : list (string * value))
  : result (value * string) :=
  match fuel with
  | O => not_json
  | S fuel' =>
      match skip_ws s with
      | String c s' =>
          if Ascii.eqb c DQ then
            match string_body s' with
            | Some (k, rest) =>
                match skip_ws rest with
                | String ":" rest' =>
                    match parse_value fuel' depth rest' with
                    | Ok (v, rest'') =>
                        match skip_ws rest'' with
                        | String "," r =>
                            parse_members fuel' depth r (assoc_set k v acc)
                        | String "}" r => Ok (VDict (assoc_set k v acc), r)
                        | _ => not_json
                        end
                    | Raise e => Raise e
                    end
                | _ => not_json
                end
            | None => not_json
            end
          else not_json
      | EmptyString => not_json
      end
  end.

(** The decoder: one value, surrounded by white space only. *)
Definition loads (s : string) : result value :=
  match parse_value (2 * String.length s + 2) nesting_limit s with
  | Ok (v, rest) =>
      match skip_ws rest with
      | EmptyString => Ok v
      | _ => not_json
      end
  | Raise e => Raise e
  end.

End Json.

Module Demo.
Import Graph.

(** A decimal literal [ddd] or [ddd.ddd] as the quotient of two exactly
    represented integers. *)
Definition float_digit (c : ascii) : option float :=
  match Json.digit c with
  | Some 0 => Some 0%float | Some 1 => Some 1%float | Some 2 => Some 2%float
  | Some 3 => Some 3%float | Some 4 => Some 4%float | Some 5 => Some 5%float
  | Some 6 => Some 6%float | Some 7 => Some 7%float | Some 8 => Some 8%float
  | Some 9 => Some 9%float | _ => None
  end.

Fixpoint decimal (s : string) (num den : float) (frac seen : bool)
  : option float :=
  match s with
  | EmptyString => if seen then Some (num / den)%float else None
  | String c s' =>
      if Ascii.eqb c "." then
        if frac then None else decimal s' num den true seen
      else match float_digit c with
           | Some d =>
               decimal s' (num * 10 + d)%float
                 (if frac then (den * 10)%float else den) frac true
           | None => None
           end
  end.

Definition float_of_str (s : string) : option float :=
  decimal s 0%float 1%float false false.

Definition int_of_str (s : string) : option Z :=
  match Json.integer s with
  | Ok (n, EmptyString) => Some n
  | _ => None
  end.

Definition bool_of_str (s : string) : option bool :=
  if String.eqb s "true" || String.eqb s "True" || String.eqb s "1"
  then Some true
  else if String.eqb s "false" || String.eqb s "False" || String.eqb s "0"
  then Some false
  else None.

Definition lax_validation : Validation.
Proof.
  refine {|
    validate_int v :=
      match v with VInt z => Some z | VStr s => int_of_str s | _ => None end;
    validate_str v := match v with VStr s => Some s | _ => None end;
    validate_bool v :=
      match v with VBool b => Some b | VStr s => bool_of_str s | _ => None end;
    validate_float v :=
      match v with VFloat f => Some f | VStr s => float_of_str s | _ => None end
  |}; reflexivity.
Defined.

(** Modelled from the spec: [strip_thinking_tokens] of [utils.py]
    (section 4.3) removes every span from an opening to the next closing
    thinking marker and trims the white space around what remains. *)
Fixpoint after_close (s : string) : option string :=
  if startswith "</think>" s
  then Some (String.substring 8 (String.length s) s)
  else match s with
       | EmptyString => None
       | String _ s' => after_close s'
       end.

Fixpoint remove_spans (fuel : nat) (s : string) : string :=
  match fuel with
  | O => s
  | S fuel' =>
      match s with
      | EmptyString => EmptyString
      | String c s' =>
          if startswith "<think>" s then
            match after_close s' with
            | Some rest => remove_spans fuel' rest
            | None => s
            end
          else String c (remove_spans fuel' s')
      end
  end.

Definition demo_strip_thinking_tokens (s : string) : string :=
  strip (remove_spans (String.length s) s).

(** One search result, as the search provider returns it. *)
Definition demo_result (title url : string) : value :=
  VDict [("title", VStr title); ("url", VStr url); ("content", VStr "text")].

(** A citation line per result: [* title : url]. *)
Definition demo_format_sources (results : value) : string :=
  match results with
  | VDict d =>
      match assoc_get "results" d with
      | Some (VList l) =>
          join NL
            ((fun r =>
                match r with
                | VDict f =>
                    match assoc_get "title" f, assoc_get "url" f with
                    | Some (VStr t), Some (VStr u) =>
                        ("* " ++ t ++ " : " ++ u)%string
                    | _, _ => EmptyString
                    end
                | _ => EmptyString
                end) <$> l)
      | _ => EmptyString
      end
  | _ => EmptyString
  end.

(** Providers that answer from a script: the [n]-th call of the run gets
    [replies n] from the model, and every search finds the same two pages. *)
Definition scripted (replies : nat -> string) : Externals := {|
  json_loads := Json.loads;
  chat_completions_create tr _ := Ok (replies (length tr));
  tavily_search _ _ _ _ :=
    Ok (VDict [("results", VList [demo_result "A" "url1"; demo_result "B" "url2"])]);
  deduplicate_and_format_sources results _ _ := demo_format_sources results;
  format_sources := demo_format_sources;
  strip_thinking_tokens := demo_strip_thinking_tokens;
  get_current_date := "November 03, 2026";
  query_writer_instructions d t := ("Today is " ++ d ++ ". Topic: " ++ t)%string;
  summarizer_instructions := "Summarize the context.";
  reflection_instructions t := ("Find a knowledge gap about " ++ t)%string
|}.

(** A run of [n] nines. *)
Fixpoint nines (n : nat) : string :=
  match n with
  | O => EmptyString
  | S n' => String "9" (nines n')
  end.

(** A reflection reply that is a JSON object, with a number of 4301 digits
    under ['follow_up_query']. *)
Definition long_number_reply : string :=
  ("{" ++ Json.quote "follow_up_query" ++ ": " ++ nines 4301 ++ "}")%string.

(** A reflection reply that is a JSON object with a follow-up query. *)
Definition follow_up_reply : string :=
  ("{" ++ Json.quote "follow_up_query" ++ ": "
   ++ Json.quote "qubit error rates" ++ "}")%string.

(** A query-writer reply that is a JSON object with an empty ['query']. *)
Definition empty_query_reply : string :=
  ("{" ++ Json.quote "query" ++ ": " ++ Json.quote EmptyString ++ "}")%string.

(** What the Groq-style resolver gives for the configuration of [app.py]
    in an environment without overrides. *)
Definition demo_configuration : Groq.Configuration :=
  {| Groq.max_web_research_loops := 3;
     Groq.groq_model := "llama-3.3-70b-versatile";
     Groq.groq_api_key := None;
     Groq.search_api := "tavily";
     Groq.fetch_full_page := true;
     Groq.temperature := 0.1%float;
     Groq.strip_thinking_tokens := true |}.

(** A stand-in for the OpenAI-style graph: one model call, then the reply
    as the summary. *)
Definition demo_graph_invoke (env : environ) (topic : string)
    (config : option RunnableConfig) : M (gmap string value) :=
  fun tr =>
    (Ok {["running_summary" := VStr ("About " ++ topic)%string]},
     tr ++ [SearchCall (VStr topic) true 3]).

End Demo.

(** ** Vocabulary of the statements *)

Module Spec.
Import Graph.

(** The explicit override for [name]; an override of [None] counts as
    absent. *)
Definition override (cfg : gmap string value) (name : string)
  : option value :=
  match cfg !! name with
  | Some v => if is_none v then None else Some v
  | None => None
  end.

(** Deduplication by exact text, keeping first occurrences in their order:
    the head stays, its later copies go. *)
Fixpoint dedup_first (l : list string) : list string :=
  match l with
  | [] => []
  | x :: l' => x :: filter (fun y => y ≠ x) (dedup_first l')
  end.

(** A line that is not blank once white space is stripped. *)
Definition not_blank (line : string) : Prop := nonempty (strip line) = true.

#[global] Instance not_blank_dec line : Decision (not_blank line).
Proof. unfold not_blank. apply _. Defined.

(** The lines of all citation blocks, in order. *)
Definition all_lines (blocks : list string) : list string :=
  concat (split nl <$> blocks).

(** The source lines the report lists. *)
Definition source_lines (blocks : list string) : list string :=
  dedup_first (filter not_blank (all_lines blocks)).

(** What decoding a query-writer reply gave has no ['query'] field to
    read: the decoder reported text that is not JSON, or the document is an
    object that lacks the key. *)
Inductive no_query : result value -> Prop :=
| no_query_unparseable e :
    exn_cls e = JSONDecodeError -> no_query (Raise e)
| no_query_absent d : assoc_get "query" d = None -> no_query (Ok (VDict d)).

(** What decoding a reflection reply gave holds no follow-up query: the
    decoder reported text that is not JSON, or the document is not an
    object, or the object lacks the key, or the value under the key is
    empty ([None], the empty string, [0], [[]], ...). *)
Inductive no_follow_up : result value -> Prop :=
| no_follow_up_unparseable e :
    exn_cls e = JSONDecodeError -> no_follow_up (Raise e)
| no_follow_up_not_object v : is_dict v = false -> no_follow_up (Ok v)
| no_follow_up_absent d :
    assoc_get "follow_up_query" d = None -> no_follow_up (Ok (VDict d))
| no_follow_up_empty d q :
    assoc_get "follow_up_query" d = Some q -> truthy q = false ->
    no_follow_up (Ok (VDict d)).

(** The update that sets [search_query] and nothing else. *)
Definition set_search_query (q : value) : Update :=
  {| u_search_query := Some q; u_web_research_results := None;
     u_sources_gathered := None; u_research_loop_count := None;
     u_running_summary := None |}.

(** The text [generate_query] falls back to: the reply, stripped of
    thinking tokens when that is enabled. *)
Definition fallback_text `{Externals} (c : Groq.Configuration)
    (reply : string) : string :=
  if Groq.strip_thinking_tokens c then strip_thinking_tokens reply else reply.

(** The question [reflect_on_summary] falls back to. *)
Definition tell_me_more (topic : string) : value :=
  VStr ("Tell me more about " ++ topic)%string.

(** The query a decoded reflection reply stands for: the value under
    ['follow_up_query'] when the document is an object that holds a
    non-empty one, the question about the topic otherwise. *)
Definition follow_up_query (topic : string) (decoded : result value) : value :=
  match decoded with
  | Ok (VDict d) =>
      match assoc_get "follow_up_query" d with
      | Some q => if truthy q then q else tell_me_more topic
      | None => tell_me_more topic
      end
  | _ => tell_me_more topic
  end.

(** The exception classes the handler of [reflect_on_summary] names. *)
Definition reflection_handles (c : exn_class) : bool :=
  match c with
  | JSONDecodeError | KeyError | AttributeError => true
  | _ => false
  end.

(** The outcome of a node is an update with a non-empty [search_query]. *)
Definition yields_nonempty_query (r : result Update * list event) : Prop :=
  exists u q, r.1 = Ok u /\ u_search_query u = Some q /\ truthy q = true.

(** The update that sets [running_summary] and nothing else. *)
Definition set_running_summary (r : string) : Update :=
  {| u_search_query := None; u_web_research_results := None;
     u_sources_gathered := None; u_research_loop_count := None;
     u_running_summary := Some r |}.

(** The providers answer every call, and the model, asked for a JSON
    object, never answers with JSON of another kind: what it answers is a
    JSON object the decoder returns, or text the decoder reports as not
    being JSON. *)
Definition providers_answer `{Externals} : Prop :=
  (forall tr r, exists reply, chat_completions_create tr r = Ok reply)
  /\ (forall tr q b n, exists results, tavily_search tr q b n = Ok results)
  /\ (forall tr r reply v,
         chat_completions_create tr r = Ok reply ->
         json_loads reply = Ok v -> is_dict v = true)
  /\ (forall tr r reply e,
         chat_completions_create tr r = Ok reply ->
         json_loads reply = Raise e -> exn_cls e = JSONDecodeError).

(** One pass of the research loop. *)
Definition research_pass : list node :=
  [web_research_node; summarize_sources_node; reflect_on_summary_node].

(** The nodes of a complete run with [passes] passes, in order. *)
Definition node_sequence (passes : nat) : list node :=
  generate_query_node
    :: concat (replicate passes research_pass) ++ [finalize_summary_node].

End Spec.

(** ** [app.py] and [example_usage.py]: the scripts *)

(** [int] applied to a string, the interpreter's.  What is relied on: a
    string of at most 4300 ASCII digits is read as the decimal number it
    writes. *)
Module PyInt.

(** [c.isdigit()] for a code point below 256: the ten ASCII digits and the
    superscripts one, two and three. *)
Definition isdigit_char (c : ascii) : bool :=
  let n := nat_of_ascii c in
  (((48 <=? n) && (n <=? 57)) || (n =? 178) || (n =? 179) || (n =? 185))%nat.

Fixpoint all_chars (p : ascii -> bool) (s : string) : bool :=
  match s with
  | EmptyString => true
  | String c s' => p c && all_chars p s'
  end.

(** [s.isdigit()]: at least one character, and all of them digits. *)
Definition isdigit (s : string) : bool := nonempty s && all_chars isdigit_char s.

Definition ascii_digit (c : ascii) : bool :=
  let n := nat_of_ascii c in ((48 <=? n) && (n <=? 57))%nat.

(** A non-empty string of ASCII digits. *)
Definition ascii_digits (s : string) : bool :=
  nonempty s && all_chars ascii_digit s.

(** The number a string of ASCII digits writes, read onto [acc]. *)
Fixpoint decimal_from (acc : Z) (s : string) : Z :=
  match s with
  | EmptyString => acc
  | String c s' => decimal_from (10 * acc + (Z.of_nat (nat_of_ascii c) - 48)) s'
  end.

Definition decimal (s : string) : Z := decimal_from 0 s.

Class Builtins : Type := {
  py_int : string -> result Z;
  py_int_decimal :
    forall s, ascii_digits s = true -> (String.length s <= 4300)%nat ->
         py_int s = Ok (decimal s)
}.

End PyInt.

Module Cli.
Import Graph App PyInt.

(** What [example_usage.py] prints, message by message; the texts
    themselves hold characters beyond the strings modelled here. *)
Inductive printed : Type :=
| Banner
| MissingKey (name : string)
| Menu
| NoTopicEntered
| InvalidChoice
| Starting (topic : string)
| ResearchComplete (summary : value)
| ErrorDuringResearch (msg : string)
| ResearchCancelled.


(** [issubclass(c, ValueError)] *)
Definition is_ValueError (c : exn_class) : bool :=
  match c with
  | ValueError | JSONDecodeError | ValidationError | UnicodeEncodeError => true
  | _ => false
  end.

(** The lines [main] of [app.py] prints, one per [print] statement; their
    texts hold characters beyond the strings modelled here, the emoji of
    the banner and of the notices among them. *)
Inductive app_line : Type :=
| Title
| DoubleRule
| NoTopic
| StartingOn (topic : string)
| MayTakeMinutes
| SingleRule
| Complete
| Summary (summary : value)
| ConfigurationErrorLine (msg : string)
| CheckVariables
| ResearchErrorLine (msg : string)
| CheckKeys
| Cancelled.

(** A script that prints and calls: the lines shown and the calls made so
    far are threaded through, and an exception ends the computation. *)
Definition script (A : Type) : Type :=
  list app_line * list event -> result A * (list app_line * list event).

#[global] Instance script_ret : MRet script := fun A a st => (Ok a, st).
#[global] Instance script_bind : MBind script :=
  fun A B f m st =>
    match m st with
    | (Ok a, st') => f a st'
    | (Raise e, st') => (Raise e, st')
    end.

(** A computation over the providers, run inside a script. *)
Definition call {A} (m : M A) : script A :=
  fun st => let '(r, tr') := m st.2 in (r, (st.1, tr')).

(** [try: body  except ...: handler], the handler choosing by class. *)
Definition try_script {A} (body : script A) (handler : exn -> script A)
  : script A :=
  fun st =>
    match body st with
    | (Ok a, st') => (Ok a, st')
    | (Raise e, st') => handler e st'
    end.

Section Scripts.
Context `{Validation} `{Externals} `{Builtins}.
(** [input(...)]: what the [n]-th prompt of the script gets, a line or the
    exception raised while waiting for it. *)
Variable stdin : nat -> result string.
Variable dotenv env : environ.

(** *** [app.py], [main] *)

Section AppMain.
Variable graph_invoke :
  environ -> string -> option RunnableConfig -> M (gmap string value).
(** [print(text)]: what the console does with a line, given the lines it
    has shown.  It takes the line, or raises: [UnicodeEncodeError] when its
    encoding has no code for a character of the text, as for the emoji of
    the banner on a console that is not UTF-8, or for a lone surrogate in a
    summary on one that is. *)
Variable console : list app_line -> app_line -> result unit.

Definition print (l : app_line) : script unit :=
  fun st =>
    match console st.1 l with
    | Ok _ => (Ok tt, (st.1 ++ [l], st.2))
    | Raise e => (Raise e, st)
    end.

(** [input(...)] at the first prompt. *)
Definition input : script string := fun st => (stdin 0, st).

(** The body of the [try] block of [main]. *)
Definition app_body : script unit :=
  line ← input;
  let research_topic := strip line in
  if negb (nonempty research_topic) then print NoTopic
  else
    print (StartingOn research_topic);;
    print MayTakeMinutes;;
    print SingleRule;;
    summary ← call (run_research graph_invoke dotenv env research_topic);
    print Complete;;
    print DoubleRule;;
    print (Summary summary).

(** The three [except] clauses of [main], in order; an exception that none
    of them names goes on, and so does one raised inside a clause. *)
Definition app_handlers (e : exn) : script unit :=
  if is_ValueError (exn_cls e)
  then print (ConfigurationErrorLine (exn_str e));; print CheckVariables
  else if is_Exception (exn_cls e)
  then print (ResearchErrorLine (exn_str e));; print CheckKeys
  else match exn_cls e with
       | KeyboardInterrupt => print Cancelled
       | _ => fun st => (Raise e, st)
       end.

Definition app_main : script unit :=
  print Title;;
  print DoubleRule;;
  try_script app_body app_handlers.

(** An exception that a [print] raised. *)
Definition from_console (e : exn) : Prop :=
  exists out l, console out l = Raise e.

End AppMain.

(** *** [example_usage.py], [main] *)

Definition research_topics : list string :=
  ["Latest developments in artificial intelligence and machine learning in 2024";
   "Impact of renewable energy adoption on global climate change";
   "Current state of quantum computing technology and its applications";
   "Emerging trends in cybersecurity and data privacy"].

(** The [config] literal of [main]. *)
Definition example_config : RunnableConfig :=
  {| configurable :=
       Some (list_to_map
               [("groq_model", VStr "llama-3.3-70b-versatile");
                ("temperature", VFloat 0.1%float);
                ("max_web_research_loops", VInt 3);
                ("fetch_full_page", VBool true);
                ("strip_thinking_tokens", VBool true)]) |}.

(** How the first [try] block ends: with a topic, or with a message and a
    return. *)
Inductive selection : Type :=
| Chosen (topic : string)
| Stopped (message : printed).

(** The [elif] and [else] branches of the menu. *)
Definition select_other (choice : string) : result selection :=
  if String.eqb choice "5" then
    line ← stdin 1;
    let research_topic := strip line in
    if negb (nonempty research_topic) then Ok (Stopped NoTopicEntered)
    else Ok (Chosen research_topic)
  else Ok (Stopped InvalidChoice).

(** The body of the first [try] block. *)
Definition select_topic : result selection :=
  line ← stdin 0;
  let choice := strip line in
  if isdigit choice then
    n ← py_int choice;
    if (1 <=? n) && (n <=? Z.of_nat (length research_topics)) then
      match research_topics !! Z.to_nat (n - 1) with
      | Some topic => Ok (Chosen topic)
      | None => Raise (Exn IndexError "list index out of range")
      end
    else select_other choice
  else select_other choice.



End Scripts.
End Cli.

(** ** More instances, for the statements about failures and scripts *)

Module Fixtures.
Import Graph App PyInt Cli Demo.

(** Providers that fail every call with [e]. *)
Definition failing (e : exn) : Externals := {|
  json_loads := Json.loads;
  chat_completions_create _ _ := Raise e;
  tavily_search _ _ _ _ := Raise e;
  deduplicate_and_format_sources results _ _ := demo_format_sources results;
  format_sources := demo_format_sources;
  strip_thinking_tokens := demo_strip_thinking_tokens;
  get_current_date := "November 03, 2026";
  query_writer_instructions d t := ("Today is " ++ d ++ ". Topic: " ++ t)%string;
  summarizer_instructions := "Summarize the context.";
  reflection_instructions t := ("Find a knowledge gap about " ++ t)%string
|}.

Definition rate_limited : exn := Exn ProviderError "rate limit exceeded".

(** [int] on the strings of ASCII digits, a [ValueError] elsewhere. *)
Definition decimal_builtins : Builtins.
Proof.
  refine {|
    py_int s :=
      if ascii_digits s then Ok (PyInt.decimal s)
      else Raise (Exn ValueError "invalid literal for int() with base 10")
  |}.
  intros s Hd _. by rewrite Hd.
Defined.

(** An environment with both keys and nothing else. *)
Definition both_keys : environ :=
  {["GROQ_API_KEY" := "gsk-key"; "TAVILY_API_KEY" := "tvly-key"]}.

(** What [example_usage.py] resolves to in that environment. *)
Definition example_configuration : Groq.Configuration :=
  {| Groq.max_web_research_loops := 3;
     Groq.groq_model := "llama-3.3-70b-versatile";
     Groq.groq_api_key := Some "gsk-key";
     Groq.search_api := "tavily";
     Groq.fetch_full_page := true;
     Groq.temperature := 0.1%float;
     Groq.strip_thinking_tokens := true |}.

(** A console that takes every line. *)
Definition utf8_console : list app_line -> app_line -> result unit :=
  fun _ _ => Ok tt.

(** A console that takes every line but the summary, whose text it cannot
    encode. *)
Definition surrogates_refused : exn :=
  Exn UnicodeEncodeError "'utf-8' codec can't encode character: surrogates not allowed".

Definition summary_refusing_console
  : list app_line -> app_line -> result unit :=
  fun _ l => match l with Summary _ => Raise surrogates_refused | _ => Ok tt end.

(** A console that cannot show the banner. *)
Definition emoji_refused : exn :=
  Exn UnicodeEncodeError "'ascii' codec can't encode character: ordinal not in range(128)".

Definition ascii_console : list app_line -> app_line -> result unit :=
  fun _ l => match l with Title => Raise emoji_refused | _ => Ok tt end.

(** A prompt at which the interpreter is told to exit. *)
Definition exits : nat -> result string :=
  fun _ => Raise (Exn SystemExit EmptyString).

(** A user who types the same line at every prompt. *)
Definition types (line : string) : nat -> result string := fun _ => Ok line.


End Fixtures.

(** ** Vocabulary for the calls a run makes *)

Module Calls.
Import Graph.

Definition is_search (e : event) : bool :=
  match e with SearchCall _ _ _ => true | ChatCall _ => false end.

Definition is_chat (e : event) : bool :=
  match e with ChatCall _ => true | SearchCall _ _ _ => false end.

(** The search calls, respectively the model calls, among the calls made. *)
Definition searches (tr : list event) : list event :=
  filter (fun e => is_search e = true) tr.

Definition chats (tr : list event) : list event :=
  filter (fun e => is_chat e = true) tr.

(** The model calls made when [next] is about to run ([None]: the run has
    ended) and the loop counter stands at [count]: one for the first query,
    and two for each pass, the summary and the reflection. *)
Definition chats_before (next : option node) (count : Z) : Z :=
  match next with
  | Some generate_query_node => 0
  | Some web_research_node => 2 * count + 1
  | Some summarize_sources_node => 2 * count - 1
  | Some reflect_on_summary_node => 2 * count
  | Some finalize_summary_node | None => 2 * count + 1
  end.

(** The report [finalize_summary] writes for the summary [r] over the
    citation blocks [blocks]. *)
Definition report (r : string) (blocks : list string) : string :=
  ("## Summary" ++ NL ++ r ++ NL ++ NL ++ " ### Sources:" ++ NL
   ++ join NL (Spec.source_lines blocks))%string.

(** What holds of every state of a run. *)
Definition run_invariant (topic : string) (nx : option node)
    (state : SummaryState) (tr : list event) : Prop :=
  research_topic state = topic
  /\ 0 <= research_loop_count state
  /\ (nx = Some generate_query_node -> research_loop_count state = 0)
  /\ Z.of_nat (length (web_research_results state))
     = research_loop_count state
  /\ Z.of_nat (length (sources_gathered state)) = research_loop_count state
  /\ Z.of_nat (length (searches tr)) = research_loop_count state
  /\ (forall q b n, SearchCall q b n ∈ tr -> n = 3)
  /\ Z.of_nat (length (chats tr))
     = chats_before nx (research_loop_count state)
  /\ (running_summary state = None ->
      nx = Some generate_query_node
      \/ (nx = Some web_research_node /\ research_loop_count state = 0)
      \/ (nx = Some summarize_sources_node /\ research_loop_count state = 1))
  /\ (nx = None ->
      exists r, running_summary state = Some (report r (sources_gathered state))).

(** The number of passes a complete run makes for a configured maximum. *)
Definition passes_for (maximum : Z) : nat := Z.to_nat (Z.max 1 (maximum + 1)).

(** The request [summarize_sources] sends for a state whose latest search
    context is [recent]. *)
Definition summary_request `{Externals} (c : Groq.Configuration)
    (state : SummaryState) (recent : string) : ChatRequest :=
  {| model := Groq.groq_model c;
     req_temperature := Groq.temperature c;
     messages := [("system", summarizer_instructions);
                  ("user", human_message_content state recent)];
     json_mode := false |}.

(** The summary [summarize_sources] makes of the model's reply: the reply,
    stripped of thinking tokens when that is enabled. *)
Definition summary_text `{Externals} (c : Groq.Configuration)
    (reply : string) : string :=
  if Groq.strip_thinking_tokens c then strip_thinking_tokens reply else reply.

End Calls.

(** ** Vocabulary for lines *)

Module Lines.

(** ['\n' in s] *)
Fixpoint has_newline (s : string) : bool :=
  match s with
  | EmptyString => false
  | String c s' => Ascii.eqb c nl || has_newline s'
  end.

End Lines.

(** * Properties *)

(** ** Configuration resolution *)

Section ResolverFacts.
Import Resolver Spec.

Lemma lookup_foldl_insert {A} (g : string -> A) (fields : list string)
    (acc : gmap string A) (name : string) :
  foldl (fun raw k => <[k := g k]> raw) acc fields !! name
  = if bool_decide (name ∈ fields) then Some (g name) else acc !! name.
Proof.
  revert acc. induction fields as [|k fields IH]; intros acc; cbn [foldl].
  - rewrite bool_decide_eq_false_2; [done | apply not_elem_of_nil].
  - rewrite IH. destruct (decide (name ∈ fields)) as [Hin | Hnin].
    + rewrite !bool_decide_eq_true_2; [done | by right | done].
    + rewrite (bool_decide_eq_false_2 _ Hnin).
      destruct (decide (name = k)) as [-> | Hne].
      * rewrite lookup_insert_eq, bool_decide_eq_true_2; [done | by left].
      * rewrite lookup_insert_ne by done.
        rewrite bool_decide_eq_false_2; [done |].
        rewrite elem_of_cons. tauto.
Qed.

Lemma lookup_raw_values fields env cfg name :
  raw_values fields env cfg !! name
  = if bool_decide (name ∈ fields)
    then Some (environ_get env (upper name) (dict_get cfg name))
    else None.
Proof.
  unfold raw_values.
  rewrite (lookup_foldl_insert
             (fun k => environ_get env (upper k) (dict_get cfg k))).
  by rewrite lookup_empty.
Qed.

Lemma lookup_drop_none raw name :
  drop_none raw !! name
  = match raw !! name with
    | Some v => if is_none v then None else Some v
    | None => None
    end.
Proof.
  unfold drop_none. rewrite map_lookup_filter.
  destruct (raw !! name) as [v|]; simpl; [|done].
  by destruct (is_none v).
Qed.

Lemma lookup_openai_key_fallback env raw name :
  openai_key_fallback env raw !! name
  = if bool_decide (name = "openai_api_key") && is_none (dict_get raw name)
    then Some (environ_get env "OPENAI_API_KEY" VNone)
    else raw !! name.
Proof.
  unfold openai_key_fallback.
  destruct (decide (name = "openai_api_key")) as [-> | Hne].
  - rewrite bool_decide_eq_true_2 by done. simpl.
    destruct (is_none _); [by rewrite lookup_insert_eq | done].
  - rewrite (bool_decide_eq_false_2 _ Hne). simpl.
    destruct (is_none _); [by rewrite lookup_insert_ne | done].
Qed.

(** What the constructor receives for a declared field. *)
Lemma values_lookup_field fields env config name :
  name ∈ fields ->
  values fields env config !! name
  = match env !! upper name with
    | Some s => Some (VStr s)
    | None => override (configurable_of config) name
    end.
Proof.
  intros Hin. unfold values.
  rewrite lookup_drop_none, lookup_openai_key_fallback.
  unfold dict_get. rewrite lookup_raw_values.
  rewrite (bool_decide_eq_true_2 (name ∈ fields)) by done.
  unfold environ_get, override, dict_get.
  destruct (decide (name = "openai_api_key")) as [-> | Hne].
  - change (upper "openai_api_key") with "OPENAI_API_KEY".
    rewrite bool_decide_eq_true_2 by done. cbn [andb].
    destruct (env !! "OPENAI_API_KEY") as [s|] eqn:E; cbn; [done |].
    destruct (configurable_of config !! "openai_api_key") as [v|];
      cbn; [|done].
    destruct (is_none v) eqn:Ev; cbn; [done | by rewrite Ev].
  - rewrite (bool_decide_eq_false_2 _ Hne). cbn [andb].
    destruct (env !! upper name) as [s|]; cbn; [done |].
    by destruct (configurable_of config !! name) as [v|].
Qed.

(** What the constructor receives under any other key: nothing, except
    the provider key of the fallback. *)
Lemma values_lookup_other fields env config name :
  name ∉ fields ->
  values fields env config !! name
  = if bool_decide (name = "openai_api_key")
    then VStr <$> env !! "OPENAI_API_KEY"
    else None.
Proof.
  intros Hnin. unfold values.
  rewrite lookup_drop_none, lookup_openai_key_fallback.
  unfold dict_get. rewrite lookup_raw_values.
  rewrite (bool_decide_eq_false_2 (name ∈ fields)) by done.
  simpl. rewrite andb_true_r. unfold environ_get.
  case_bool_decide; [|done].
  by destruct (env !! "OPENAI_API_KEY").
Qed.

End ResolverFacts.

Ltac solve_elem := apply (bool_decide_unpack _); vm_compute; exact I.

Section ConfigurationFacts.
Import Resolver Spec.
Context `{V : Validation}.

Lemma field_ext {A} (validate : value -> option A) (d : A)
    (kw1 kw2 : gmap string value) (name : string) :
  kw1 !! name = kw2 !! name ->
  field validate d kw1 name = field validate d kw2 name.
Proof. unfold field. by intros ->. Qed.

(** The constructors read the declared fields and nothing else. *)
Lemma Groq_construct_ext (kw1 kw2 : gmap string value) :
  (forall name, name ∈ Groq.model_fields -> kw1 !! name = kw2 !! name) ->
  Groq.construct kw1 = Groq.construct kw2.
Proof.
  intros Hag. unfold Groq.construct.
  rewrite !(field_ext _ _ kw1 kw2) by (apply Hag; solve_elem). done.
Qed.

Lemma OpenAI_construct_ext (kw1 kw2 : gmap string value) :
  (forall name, name ∈ OpenAI.model_fields -> kw1 !! name = kw2 !! name) ->
  OpenAI.construct kw1 = OpenAI.construct kw2.
Proof.
  intros Hag. unfold OpenAI.construct.
  rewrite !(field_ext _ _ kw1 kw2) by (apply Hag; solve_elem). done.
Qed.

Lemma field_Ok_inv {A} (validate : value -> option A) (d : A)
    (kw : gmap string value) (name : string) (a : A) :
  field validate d kw name = Ok a ->
  match kw !! name with
  | Some v => validate v = Some a
  | None => a = d
  end.
Proof.
  unfold field. destruct (kw !! name) as [v|]; [|by intros [= <-]].
  destruct (validate v); [by intros [= <-] | discriminate].
Qed.

Lemma result_bind_Ok_inv {A B} (r : result A) (k : A -> result B) (b : B) :
  r ≫= k = Ok b -> exists a, r = Ok a /\ k a = Ok b.
Proof. destruct r as [a|e]; [by exists a | discriminate]. Qed.

(** A successful Groq-style construction, field by field. *)
Lemma Groq_construct_Ok_inv (kw : gmap string value) (c : Groq.Configuration) :
  Groq.construct kw = Ok c ->
  field validate_int 3 kw "max_web_research_loops"
    = Ok (Groq.max_web_research_loops c)
  /\ field validate_str "llama-3.3-70b-versatile" kw "groq_model"
    = Ok (Groq.groq_model c)
  /\ field (validate_optional validate_str) None kw "groq_api_key"
    = Ok (Groq.groq_api_key c)
  /\ field validate_float 0%float kw "temperature" = Ok (Groq.temperature c).
Proof.
  unfold Groq.construct. intros Hc.
  repeat (apply result_bind_Ok_inv in Hc as (? & ? & Hc)).
  injection Hc as <-. cbn. by repeat split.
Qed.

Lemma OpenAI_construct_Ok_inv (kw : gmap string value)
    (c : OpenAI.Configuration) :
  OpenAI.construct kw = Ok c ->
  field validate_str "gpt-4" kw "openai_model" = Ok (OpenAI.openai_model c)
  /\ field validate_float 0%float kw "temperature"
     = Ok (OpenAI.temperature c).
Proof.
  unfold OpenAI.construct. intros Hc.
  repeat (apply result_bind_Ok_inv in Hc as (? & ? & Hc)).
  injection Hc as <-. cbn. by repeat split.
Qed.

(** Both resolvers are untouched by anything the environment holds under a
    name that is not the upper-cased name of a field, the fallback key
    apart. *)
Lemma Groq_values_agree env env' config name :
  (forall k, k ≠ "OPENAI_API_KEY" -> env !! k = env' !! k) ->
  name ∈ Groq.model_fields ->
  values Groq.model_fields env config !! name
  = values Groq.model_fields env' config !! name.
Proof.
  intros Hag Hin. rewrite !values_lookup_field by done.
  rewrite Hag; [done |].
  apply list_elem_of_In in Hin. cbn in Hin.
  intuition subst; vm_compute; discriminate.
Qed.

End ConfigurationFacts.

(** Evaluate the lookups of closed maps in the goal. *)
Ltac eval_lookups :=
  repeat match goal with
         | |- context [ @lookup string ?A ?M ?L ?k ?m ] =>
             let r := eval vm_compute in (@lookup string A M L k m) in
             progress
               (replace (@lookup string A M L k m) with r
                  by (vm_compute; reflexivity))
         end.

Section ConfigurationClaims.
Import Resolver Spec.
Context `{V : Validation}.

(** C4.  Environment variables take precedence over the explicit overrides:
    for every declared field, of either variant, the constructor receives
    the value of the environment variable named by the upper-cased field
    name when that variable is set, and the explicit override only when it
    is not.  With [TEMPERATURE="0.7"] in the environment and an override
    [temperature = 0.2], both variants resolve the temperature to [0.7]
    (the settings layer reading the text ["0.7"] as that number). *)
Theorem C4_environment_precedence :
  validate_float (VStr "0.7") = Some 0.7%float ->
  (forall fields env config name,
      name ∈ fields ->
      values fields env config !! name
      = match env !! upper name with
        | Some s => Some (VStr s)
        | None => override (configurable_of config) name
        end)
  /\ (forall env config c,
         env !! "TEMPERATURE" = Some "0.7" ->
         Groq.from_runnable_config env config = Ok c ->
         Groq.temperature c = 0.7%float)
  /\ (forall env config c,
         env !! "TEMPERATURE" = Some "0.7" ->
         OpenAI.from_runnable_config env config = Ok c ->
         OpenAI.temperature c = 0.7%float)
  /\ (let env : environ := {["TEMPERATURE" := "0.7"]} in
      let config :=
        Some {| configurable := Some {["temperature" := VFloat 0.2%float]} |} in
      Groq.from_runnable_config env config
      = Ok {| Groq.max_web_research_loops := 3;
              Groq.groq_model := "llama-3.3-70b-versatile";
              Groq.groq_api_key := None;
              Groq.search_api := "tavily";
              Groq.fetch_full_page := true;
              Groq.temperature := 0.7%float;
              Groq.strip_thinking_tokens := true |}
      /\ OpenAI.from_runnable_config env config
         = Ok {| OpenAI.max_web_research_loops := 3;
                 OpenAI.openai_model := "gpt-4";
                 OpenAI.openai_api_key := None;
                 OpenAI.search_api := "tavily";
                 OpenAI.fetch_full_page := true;
                 OpenAI.temperature := 0.7%float;
                 OpenAI.strip_thinking_tokens := true |}).
Proof.
  intros Hparse. split; [| split; [| split]].
  - intros fields env config name. apply values_lookup_field.
  - intros env config c Henv Hc.
    apply Groq_construct_Ok_inv in Hc as (_ & _ & _ & Ht).
    apply field_Ok_inv in Ht.
    rewrite values_lookup_field in Ht by solve_elem.
    change (upper "temperature") with "TEMPERATURE" in Ht.
    rewrite Henv, Hparse in Ht. by injection Ht.
  - intros env config c Henv Hc.
    apply OpenAI_construct_Ok_inv in Hc as (_ & Ht).
    apply field_Ok_inv in Ht.
    rewrite values_lookup_field in Ht by solve_elem.
    change (upper "temperature") with "TEMPERATURE" in Ht.
    rewrite Henv, Hparse in Ht. by injection Ht.
  - cbv zeta. split.
    + unfold Groq.from_runnable_config, Groq.construct, field.
      eval_lookups. by rewrite Hparse.
    + unfold OpenAI.from_runnable_config, OpenAI.construct, field.
      eval_lookups. by rewrite Hparse.
Qed.

(** C10.  In the Groq-style resolver the fallback writes the key
    ["openai_api_key"], which is not a field of the Groq-style
    [Configuration]: the resolved configuration is the same whatever
    [OPENAI_API_KEY] holds, and its [groq_api_key] is the [GROQ_API_KEY]
    variable when set, else the explicit ["groq_api_key"] override, else
    [None]. *)
Theorem C10_groq_key_never_from_openai_variable :
  ("openai_api_key" ∉ Groq.model_fields)
  /\ (forall env env' config,
         (forall k, k ≠ "OPENAI_API_KEY" -> env !! k = env' !! k) ->
         Groq.from_runnable_config env config
         = Groq.from_runnable_config env' config)
  /\ (forall env config c,
         Groq.from_runnable_config env config = Ok c ->
         Groq.groq_api_key c
         = match env !! "GROQ_API_KEY" with
           | Some k => Some k
           | None =>
               override (configurable_of config) "groq_api_key"
                 ≫= validate_str
           end)
  /\ (forall k,
         Groq.from_runnable_config {["OPENAI_API_KEY" := k]} None
         = Ok {| Groq.max_web_research_loops := 3;
                 Groq.groq_model := "llama-3.3-70b-versatile";
                 Groq.groq_api_key := None;
                 Groq.search_api := "tavily";
                 Groq.fetch_full_page := true;
                 Groq.temperature := 0%float;
                 Groq.strip_thinking_tokens := true |}).
Proof.
  split; [| split; [| split]].
  - intros Hin. apply list_elem_of_In in Hin. cbn in Hin.
    intuition discriminate.
  - intros env env' config Hag. unfold Groq.from_runnable_config.
    apply Groq_construct_ext. intros name Hin.
    by apply Groq_values_agree.
  - intros env config c Hc.
    apply Groq_construct_Ok_inv in Hc as (_ & _ & Hk & _).
    apply field_Ok_inv in Hk.
    rewrite values_lookup_field in Hk by solve_elem.
    change (upper "groq_api_key") with "GROQ_API_KEY" in Hk.
    destruct (env !! "GROQ_API_KEY") as [k|].
    + unfold validate_optional in Hk. cbn in Hk.
      rewrite validate_str_str in Hk. by injection Hk.
    + unfold override in *.
      destruct (configurable_of config !! "groq_api_key") as [v|];
        [| done].
      destruct (is_none v) eqn:Ev; [done |].
      unfold validate_optional in Hk. rewrite Ev in Hk. cbn.
      destruct (validate_str v); cbn in Hk; [by injection Hk | done].
  - intros k. unfold Groq.from_runnable_config, Groq.construct, field.
    by eval_lookups.
Qed.

(** C9.  [run_research] checks the Groq-named keys and then invokes the
    OpenAI-style workflow with a configuration whose model override sits
    under ["groq_model"].  That key is not a field of the OpenAI-style
    [Configuration], so resolution drops it: the result is the same
    whatever the key holds, and without an [OPENAI_MODEL] variable the
    resolved model is the default ["gpt-4"], not
    ["llama-3.3-70b-versatile"]. *)
Theorem C9_groq_model_override_is_dropped :
  ("groq_model" ∉ OpenAI.model_fields)
  /\ configurable_of (Some App.app_config) !! "groq_model"
     = Some (VStr "llama-3.3-70b-versatile")
  /\ (forall graph_invoke dotenv env topic tr out tr' summary,
         App.getenv_missing (App.load_dotenv dotenv env) "GROQ_API_KEY" = false ->
         App.getenv_missing (App.load_dotenv dotenv env) "TAVILY_API_KEY" = false ->
         graph_invoke (App.load_dotenv dotenv env) topic (Some App.app_config) tr
         = (Ok out, tr') ->
         out !! "running_summary" = Some summary ->
         App.run_research graph_invoke dotenv env topic tr = (Ok summary, tr'))
  /\ (forall env,
         values OpenAI.model_fields env (Some App.app_config) !! "groq_model"
         = None)
  /\ (forall env cfg v,
         OpenAI.from_runnable_config env
           (Some {| configurable := Some (<["groq_model" := v]> cfg) |})
         = OpenAI.from_runnable_config env
             (Some {| configurable := Some (delete "groq_model" cfg) |}))
  /\ (forall env c,
         env !! "OPENAI_MODEL" = None ->
         OpenAI.from_runnable_config env (Some App.app_config) = Ok c ->
         OpenAI.openai_model c = "gpt-4"
         /\ OpenAI.openai_model c ≠ "llama-3.3-70b-versatile")
  /\ (forall env,
         (forall name, name ∈ OpenAI.model_fields -> env !! upper name = None) ->
         OpenAI.from_runnable_config env (Some App.app_config)
         = Ok {| OpenAI.max_web_research_loops := 3;
                 OpenAI.openai_model := "gpt-4";
                 OpenAI.openai_api_key := None;
                 OpenAI.search_api := "tavily";
                 OpenAI.fetch_full_page := true;
                 OpenAI.temperature := 0.1%float;
                 OpenAI.strip_thinking_tokens := true |}).
Proof.
  assert (Hnot : "groq_model" ∉ OpenAI.model_fields).
  { intros Hin. apply list_elem_of_In in Hin. cbn in Hin.
    intuition discriminate. }
  split; [done |]. split; [by vm_compute |]. split; [| split; [| split; [| split]]].
  - intros graph_invoke dotenv env topic tr out tr' summary Hg Ht Hrun Hout.
    unfold App.run_research. rewrite Hg, Ht.
    unfold mbind, Graph.M_bind. rewrite Hrun, Hout. done.
  - intros env. rewrite values_lookup_other by done.
    by rewrite bool_decide_eq_false_2.
  - intros env cfg v. unfold OpenAI.from_runnable_config.
    apply OpenAI_construct_ext. intros name Hin.
    rewrite !values_lookup_field by done.
    destruct (env !! upper name); [done |].
    unfold override, configurable_of. cbn.
    assert (name ≠ "groq_model") by (intros ->; done).
    by rewrite lookup_insert_ne, lookup_delete_ne.
  - intros env c Henv Hc.
    apply OpenAI_construct_Ok_inv in Hc as (Hm & _).
    apply field_Ok_inv in Hm.
    rewrite values_lookup_field in Hm by solve_elem.
    change (upper "openai_model") with "OPENAI_MODEL" in Hm.
    rewrite Henv in Hm. unfold override in Hm.
    revert Hm. eval_lookups. by intros ->.
  - intros env Henv.
    unfold OpenAI.from_runnable_config, OpenAI.construct, field.
    rewrite !values_lookup_field by solve_elem.
    rewrite !Henv by solve_elem.
    unfold override. eval_lookups. cbn.
    by rewrite validate_int_int, !validate_bool_bool, validate_float_float.
Qed.

End ConfigurationClaims.

(** ** The final report *)

Section FinalizeFacts.
Import Graph Spec.

Lemma elem_of_dedup_first (l : list string) (x : string) :
  x ∈ dedup_first l <-> x ∈ l.
Proof.
  induction l as [|a l IH]; cbn [dedup_first]; [done |].
  rewrite !elem_of_cons, list_elem_of_filter, IH.
  destruct (decide (x = a)); intuition congruence.
Qed.

Lemma NoDup_dedup_first (l : list string) : NoDup (dedup_first l).
Proof.
  induction l as [|a l IH]; cbn [dedup_first]; [constructor |].
  constructor; [| by apply NoDup_filter].
  rewrite list_elem_of_filter. intros [Hne _]. by apply Hne.
Qed.

(** Reading one more line: it is kept exactly when it is new. *)
Lemma dedup_first_snoc (l : list string) (x : string) :
  dedup_first (l ++ [x])
  = dedup_first l ++ (if decide (x ∈ l) then [] else [x]).
Proof.
  induction l as [|a l IH]; [done |].
  cbn [app dedup_first]. rewrite IH.
  rewrite filter_app. f_equal. f_equal.
  destruct (decide (x = a)) as [-> | Hne].
  - rewrite (decide_True (P := a ∈ a :: l)) by (by left).
    destruct (decide (a ∈ l)); [done |].
    by rewrite filter_cons_False by (intros Hne; by apply Hne).
  - destruct (decide (x ∈ l)) as [Hin | Hnin].
    + by rewrite (decide_True (P := x ∈ a :: l)) by (by right).
    + rewrite (decide_False (P := x ∈ a :: l))
        by (rewrite elem_of_cons; intuition congruence).
      by rewrite filter_cons_True.
Qed.

Lemma dedup_first_prefix (l l' : list string) :
  dedup_first l `prefix_of` dedup_first (l ++ l').
Proof.
  induction l' as [|x l' IH] using rev_ind.
  - by rewrite app_nil_r.
  - rewrite app_assoc, dedup_first_snoc.
    etrans; [exact IH | by apply prefix_app_r].
Qed.

(** What the two loops of [finalize_summary] maintain, once the lines [p]
    have been read. *)
Definition scanned (p : list string) (acc : gset string * list string)
  : Prop :=
  acc.2 = dedup_first (filter not_blank p)
  /\ forall x, x ∈ acc.1 <-> x ∈ acc.2.

Lemma scan_lines_scanned (lines p : list string)
    (acc : gset string * list string) :
  scanned p acc -> scanned (p ++ lines) (scan_lines acc lines).
Proof.
  revert p acc. induction lines as [|line lines IH]; intros p acc Hacc.
  - by rewrite app_nil_r.
  - replace (p ++ line :: lines) with ((p ++ [line]) ++ lines)
      by (by rewrite <- app_assoc).
    unfold scan_lines. cbn [foldl]. apply IH.
    destruct acc as [seen unique]. destruct Hacc as [Hu Hs]. cbn in Hu, Hs.
    unfold scanned. rewrite filter_app.
    destruct (nonempty (strip line)) eqn:Hb; cbn [andb].
    + rewrite filter_cons_True by done. rewrite filter_nil, dedup_first_snoc.
      case_bool_decide as Hseen.
      * assert (line ∉ filter not_blank p) as Hnew.
        { rewrite <- elem_of_dedup_first, <- Hu, <- Hs. done. }
        rewrite decide_False by done. split; cbn.
        -- by rewrite Hu.
        -- intros x. rewrite elem_of_union, elem_of_singleton, elem_of_app,
             list_elem_of_singleton, Hs. tauto.
      * assert (line ∈ filter not_blank p) as Hold.
        { rewrite <- elem_of_dedup_first, <- Hu, <- Hs.
          by destruct (decide (line ∈ seen)). }
        rewrite decide_True by done. rewrite app_nil_r. by split.
    + rewrite filter_cons_False, filter_nil, app_nil_r; [by split |].
      unfold not_blank. by rewrite Hb.
Qed.

Lemma scan_sources_scanned (sources : list string) :
  scanned (all_lines sources) (scan_sources sources).
Proof.
  unfold scan_sources.
  assert (Hgen : forall blocks p acc,
             scanned p acc ->
             scanned (p ++ all_lines blocks)
               (foldl (fun acc source => scan_lines acc (split nl source))
                  acc blocks)).
  { induction blocks as [|b blocks IH]; intros p acc Hacc.
    - unfold all_lines. cbn. by rewrite app_nil_r.
    - unfold all_lines. cbn [fmap list_fmap concat foldl].
      rewrite app_assoc. apply IH. by apply scan_lines_scanned. }
  apply (Hgen sources [] (∅, [])). split; [done |].
  intros x. cbn. rewrite elem_of_nil. set_solver.
Qed.

(** The loops compute the deduplicated source lines. *)
Lemma scan_sources_source_lines (sources : list string) :
  (scan_sources sources).2 = source_lines sources.
Proof. apply scan_sources_scanned. Qed.

(** C3.  [finalize_summary] replaces [running_summary] by
    ["## Summary\n" + summary + "\n\n ### Sources:\n" + lines], where
    [lines] joins with newlines the lines of all citation blocks that are
    not blank after stripping, deduplicated by exact text in first-seen
    order: the listed lines are pairwise distinct, they are exactly the
    non-blank lines of the blocks, and blocks gathered later only extend the
    list.  For the blocks ["* A : url1\n* B : url2"] and
    ["* B : url2\n* C : url3"] the section lists [* A : url1], [* B : url2],
    [* C : url3], once each and in that order. *)
Theorem C3_finalize_summary_report :
  (forall topic query results blocks count summary,
      let state :=
        {| research_topic := topic; search_query := query;
           web_research_results := results; sources_gathered := blocks;
           research_loop_count := count; running_summary := Some summary |} in
      let report :=
        ("## Summary" ++ NL ++ summary ++ NL ++ NL ++ " ### Sources:" ++ NL
         ++ join NL (source_lines blocks))%string in
      (finalize_summary state).2
      = {| u_search_query := None; u_web_research_results := None;
           u_sources_gathered := None; u_research_loop_count := None;
           u_running_summary := Some report |}
      /\ running_summary (finalize_summary state).1 = Some report
      /\ merge state (finalize_summary state).2
         = {| research_topic := topic; search_query := query;
              web_research_results := results; sources_gathered := blocks;
              research_loop_count := count; running_summary := Some report |})
  /\ (forall blocks,
         NoDup (source_lines blocks)
         /\ (forall line,
                line ∈ source_lines blocks
                <-> line ∈ all_lines blocks /\ not_blank line)
         /\ (forall blocks',
                source_lines blocks `prefix_of` source_lines (blocks ++ blocks')))
  /\ source_lines [("* A : url1" ++ NL ++ "* B : url2")%string;
                   ("* B : url2" ++ NL ++ "* C : url3")%string]
     = ["* A : url1"; "* B : url2"; "* C : url3"]
  /\ join NL ["* A : url1"; "* B : url2"; "* C : url3"]
     = ("* A : url1" ++ NL ++ "* B : url2" ++ NL ++ "* C : url3")%string.
Proof.
  split; [| split; [| split]].
  - intros topic query results blocks count summary state report.
    unfold finalize_summary. cbn [snd fst running_summary].
    rewrite scan_sources_source_lines. cbn [sources_gathered state format_opt].
    repeat split.
    unfold merge. cbn. by rewrite !app_nil_r.
  - intros blocks. unfold source_lines. split; [apply NoDup_dedup_first |].
    split.
    + intros line. rewrite elem_of_dedup_first, list_elem_of_filter. tauto.
    + intros blocks'. unfold all_lines.
      rewrite fmap_app, concat_app, filter_app. apply dedup_first_prefix.
  - by vm_compute.
  - by vm_compute.
Qed.

End FinalizeFacts.

(** ** The query-producing nodes *)

Section NodeFacts.
Import Graph Spec.
Context `{V : Validation} `{E : Externals}.
Variable env : environ.
Variable config : option RunnableConfig.

(** [generate_query] once the configuration is resolved and the model has
    answered: everything turns on what decoding the reply and reading its
    ['query'] field give. *)
Lemma generate_query_answered state tr c reply :
  Groq.from_runnable_config env config = Ok c ->
  chat_completions_create tr (query_writer_request c state) = Ok reply ->
  generate_query env config state tr
  = let tr' := tr ++ [ChatCall (query_writer_request c state)] in
    match json_loads reply ≫= (fun v => subscript v "query") with
    | Ok q => (Ok (set_search_query q), tr')
    | Raise e =>
        match exn_cls e with
        | JSONDecodeError | KeyError =>
            (Ok (set_search_query (VStr (fallback_text c reply))), tr')
        | _ => (Raise e, tr')
        end
    end.
Proof.
  intros Hc Hreply. unfold generate_query, mbind at 1 2 3, M_bind, lift, chat.
  rewrite Hc, Hreply. clear Hc Hreply. cbv zeta.
  destruct (json_loads reply ≫= (fun v => subscript v "query")) as [q|[cls msg]];
    [reflexivity |].
  destruct cls; reflexivity.
Qed.

(** The part of the fallback contract that holds: a reply the decoder
    reports as not being JSON, or an object without ['query'], gives the raw
    reply text, stripped of thinking tokens when that is enabled; an object
    with ['query'] gives that field. *)
Lemma generate_query_fallback state tr c reply :
  Groq.from_runnable_config env config = Ok c ->
  chat_completions_create tr (query_writer_request c state) = Ok reply ->
  no_query (json_loads reply) ->
  generate_query env config state tr
  = (Ok (set_search_query
           (VStr (if Groq.strip_thinking_tokens c
                  then strip_thinking_tokens reply else reply))),
     tr ++ [ChatCall (query_writer_request c state)]).
Proof.
  intros Hc Hreply Hno.
  rewrite (generate_query_answered _ _ c reply) by assumption.
  clear Hc Hreply. cbv zeta. destruct Hno as [[cls msg] He | d Hd].
  - cbn in He. subst cls. reflexivity.
  - cbn. rewrite Hd. reflexivity.
Qed.

Lemma generate_query_field state tr c reply d q :
  Groq.from_runnable_config env config = Ok c ->
  chat_completions_create tr (query_writer_request c state) = Ok reply ->
  json_loads reply = Ok (VDict d) ->
  assoc_get "query" d = Some q ->
  generate_query env config state tr
  = (Ok (set_search_query q),
     tr ++ [ChatCall (query_writer_request c state)]).
Proof.
  intros Hc Hreply Hj Hq.
  rewrite (generate_query_answered _ _ c reply) by assumption.
  clear Hc Hreply. cbv zeta. rewrite Hj. cbn. rewrite Hq. reflexivity.
Qed.

(** C6, at the input where the code departs from it.  When the reply decodes
    to JSON that is not an object (an array, a string, a number, [true],
    [null]), it has no ['query'] field, yet [generate_query] does not fall
    back to the reply text: subscripting raises [TypeError], which the
    handler does not catch, and the node fails. *)
Theorem C6_generate_query_fails_on_non_object state tr c reply v :
  Groq.from_runnable_config env config = Ok c ->
  chat_completions_create tr (query_writer_request c state) = Ok reply ->
  json_loads reply = Ok v ->
  is_dict v = false ->
  exists e,
    generate_query env config state tr
    = (Raise e, tr ++ [ChatCall (query_writer_request c state)])
    /\ exn_cls e = TypeError.
Proof.
  intros Hc Hreply Hj Hv.
  rewrite (generate_query_answered _ _ c reply) by assumption.
  clear Hc Hreply. cbv zeta. rewrite Hj.
  destruct v as [ | b | z | f | s | l | d]; try discriminate Hv;
    eexists; split; reflexivity.
Qed.

(** C8, at the inputs where the code departs from it.  [generate_query]
    passes on whatever stands under ['query'], and whatever the reply text
    is when there is no such field: it has no check for an empty query, as
    [reflect_on_summary] has.  A reply that decodes to an object whose
    ['query'] is empty ([None], the empty string, [0], ...) makes the node
    return that empty value as [search_query]; a reply the decoder reports
    as not being JSON and whose text is empty, once stripped when that is
    enabled, makes it return the empty string.  In neither case is the
    [search_query] update non-empty. *)
Theorem C8_generate_query_passes_on_empty_query state tr c reply :
  Groq.from_runnable_config env config = Ok c ->
  chat_completions_create tr (query_writer_request c state) = Ok reply ->
  (forall d q,
      json_loads reply = Ok (VDict d) ->
      assoc_get "query" d = Some q ->
      truthy q = false ->
      generate_query env config state tr
      = (Ok (set_search_query q),
         tr ++ [ChatCall (query_writer_request c state)])
      /\ ~ yields_nonempty_query (generate_query env config state tr))
  /\ (no_query (json_loads reply) ->
      fallback_text c reply = EmptyString ->
      generate_query env config state tr
      = (Ok (set_search_query (VStr EmptyString)),
         tr ++ [ChatCall (query_writer_request c state)])
      /\ ~ yields_nonempty_query (generate_query env config state tr)).
Proof.
  intros Hc Hreply.
  assert (Hempty : forall q tr',
             truthy q = false ->
             ~ yields_nonempty_query (Ok (set_search_query q), tr')).
  { intros q tr' Hq (u & q' & Hu & Hq' & Htruthy). cbn in Hu.
    injection Hu as <-. cbn in Hq'. injection Hq' as <-. congruence. }
  split.
  - intros d q Hj Hfield Hq.
    rewrite (generate_query_field _ _ c reply d q) by assumption.
    split; [reflexivity | by apply Hempty].
  - intros Hno Htext.
    rewrite (generate_query_fallback _ _ c reply) by assumption.
    unfold fallback_text in Htext. rewrite Htext.
    split; [reflexivity | by apply Hempty].
Qed.

(** [reflect_on_summary] once the configuration is resolved and the model
    has answered: a decoded document gives the query it stands for, a
    decoder exception the handler names gives the question about the topic,
    and any other decoder exception leaves the node. *)
Lemma reflect_on_summary_answered state tr c reply :
  Groq.from_runnable_config env config = Ok c ->
  chat_completions_create tr (reflection_request c state) = Ok reply ->
  reflect_on_summary env config state tr
  = (match json_loads reply with
     | Ok v =>
         Ok (set_search_query
               (follow_up_query (research_topic state) (Ok v)))
     | Raise e =>
         if reflection_handles (exn_cls e)
         then Ok (set_search_query (tell_me_more (research_topic state)))
         else Raise e
     end,
     tr ++ [ChatCall (reflection_request c state)]).
Proof.
  intros Hc Hreply. unfold reflect_on_summary, mbind at 1 2, M_bind, lift, chat.
  rewrite Hc, Hreply. clear Hc Hreply.
  destruct (json_loads reply) as [v|[cls msg]].
  - destruct v as [ | b | z | f | s | l | d]; try reflexivity.
    cbn. destruct (assoc_get "follow_up_query" d) as [q|]; cbn; [| reflexivity].
    destruct (truthy q); reflexivity.
  - destruct cls; reflexivity.
Qed.

(** The part of the fallback contract that holds.  When the decoder reports
    the reflection reply as not being JSON, or the decoded document is not
    an object, or its ['follow_up_query'] is absent or empty,
    [reflect_on_summary] sets [search_query] to ["Tell me more about "]
    followed by the research topic; for the topic ["Quantum Computing"] that
    is ["Tell me more about Quantum Computing"]. *)
Lemma reflect_on_summary_fallback state tr c reply :
  Groq.from_runnable_config env config = Ok c ->
  chat_completions_create tr (reflection_request c state) = Ok reply ->
  no_follow_up (json_loads reply) ->
  reflect_on_summary env config state tr
  = (Ok (set_search_query
           (VStr ("Tell me more about " ++ research_topic state)%string)),
     tr ++ [ChatCall (reflection_request c state)])
  /\ (research_topic state = "Quantum Computing" ->
      reflect_on_summary env config state tr
      = (Ok (set_search_query (VStr "Tell me more about Quantum Computing")),
         tr ++ [ChatCall (reflection_request c state)])).
Proof.
  intros Hc Hreply Hno.
  assert (Hrun : reflect_on_summary env config state tr
                 = (Ok (set_search_query
                          (tell_me_more (research_topic state))),
                    tr ++ [ChatCall (reflection_request c state)])).
  { rewrite (reflect_on_summary_answered _ _ c reply) by assumption.
    clear Hc Hreply.
    destruct Hno as [[cls msg] He | v Hv | d Hd | d q Hd Hq].
    - cbn in He. subst cls. reflexivity.
    - destruct v; try reflexivity. discriminate Hv.
    - cbn. rewrite Hd. reflexivity.
    - cbn. rewrite Hd, Hq. reflexivity. }
  clear Hc Hreply. split; [exact Hrun |].
  intros Htopic. rewrite Hrun. unfold tell_me_more. rewrite Htopic.
  reflexivity.
Qed.

(** C7, at the input where the code departs from it.  The decoder does not
    only raise [JSONDecodeError]: an integer literal of more than 4300
    digits makes it raise a plain [ValueError], and deep nesting a
    [RecursionError].  The handler of [reflect_on_summary] names
    [JSONDecodeError], [KeyError] and [AttributeError] only, so for such a
    reply the node does not fall back to the question about the topic: the
    decoder's exception leaves it, after the model call. *)
Theorem C7_reflection_decoder_error_escapes state tr c reply e :
  Groq.from_runnable_config env config = Ok c ->
  chat_completions_create tr (reflection_request c state) = Ok reply ->
  json_loads reply = Raise e ->
  reflection_handles (exn_cls e) = false ->
  reflect_on_summary env config state tr
  = (Raise e, tr ++ [ChatCall (reflection_request c state)]).
Proof.
  intros Hc Hreply Hj He.
  rewrite (reflect_on_summary_answered _ _ c reply) by assumption.
  clear Hc Hreply. rewrite Hj, He. reflexivity.
Qed.

End NodeFacts.

(** ** The workflow *)

Section EngineFacts.
Import Graph Spec.
Context `{V : Validation} `{E : Externals}.
Variable env : environ.
Variable config : option RunnableConfig.

Lemma M_bind_Ok_inv {A B} (m : M A) (k : A -> M B) tr b tr' :
  (m ≫= k) tr = (Ok b, tr') ->
  exists a tr1, m tr = (Ok a, tr1) /\ k a tr1 = (Ok b, tr').
Proof.
  unfold mbind, M_bind. destruct (m tr) as [[a|e] tr1]; [| discriminate].
  intros Hk. by exists a, tr1.
Qed.

Lemma lift_Ok_inv {A} (r : result A) tr a tr' :
  lift r tr = (Ok a, tr') -> r = Ok a /\ tr' = tr.
Proof. unfold lift. by intros [= -> ->]. Qed.

Lemma mret_Ok_inv {A} (x : A) tr a tr' :
  (mret x : M A) tr = (Ok a, tr') -> a = x /\ tr' = tr.
Proof. unfold mret, M_ret. by intros [= -> ->]. Qed.

(** What each node returns when it returns. *)
Lemma generate_query_shape state tr u tr' :
  generate_query env config state tr = (Ok u, tr') ->
  exists q, u = set_search_query q.
Proof.
  unfold generate_query. intros Hrun.
  apply M_bind_Ok_inv in Hrun as (c & tr1 & _ & Hrun).
  apply M_bind_Ok_inv in Hrun as (reply & tr2 & _ & Hrun).
  apply M_bind_Ok_inv in Hrun as (q & tr3 & _ & Hrun).
  apply mret_Ok_inv in Hrun as [-> _]. by exists q.
Qed.

Lemma web_research_shape state tr u tr' :
  web_research env config state tr = (Ok u, tr') ->
  exists context block,
    u = {| u_search_query := None;
           u_web_research_results := Some [context];
           u_sources_gathered := Some [block];
           u_research_loop_count := Some (research_loop_count state + 1);
           u_running_summary := None |}.
Proof.
  unfold web_research. intros Hrun.
  apply M_bind_Ok_inv in Hrun as (c & tr1 & _ & Hrun).
  apply M_bind_Ok_inv in Hrun as (results & tr2 & _ & Hrun).
  apply mret_Ok_inv in Hrun as [-> _]. by eexists _, _.
Qed.

Lemma summarize_sources_shape state tr u tr' :
  summarize_sources env config state tr = (Ok u, tr') ->
  exists r, u = set_running_summary r.
Proof.
  unfold summarize_sources. intros Hrun.
  apply M_bind_Ok_inv in Hrun as (recent & tr1 & _ & Hrun).
  apply M_bind_Ok_inv in Hrun as (c & tr2 & _ & Hrun).
  apply M_bind_Ok_inv in Hrun as (reply & tr3 & _ & Hrun).
  apply mret_Ok_inv in Hrun as [-> _]. by eexists.
Qed.

Lemma reflect_on_summary_shape state tr u tr' :
  reflect_on_summary env config state tr = (Ok u, tr') ->
  exists q, u = set_search_query q.
Proof.
  unfold reflect_on_summary. intros Hrun.
  apply M_bind_Ok_inv in Hrun as (c & tr1 & _ & Hrun).
  apply M_bind_Ok_inv in Hrun as (reply & tr2 & _ & Hrun).
  unfold try_except in Hrun.
  destruct (json_loads reply) as [v|e]; cbn in Hrun.
  - destruct (get_method v "follow_up_query") as [q|e]; cbn in Hrun.
    + destruct (truthy q); cbn in Hrun;
        apply mret_Ok_inv in Hrun as [-> _]; by eexists.
    + destruct (exn_cls e); try (by apply lift_Ok_inv in Hrun as [? _]);
        apply mret_Ok_inv in Hrun as [-> _]; by eexists.
  - destruct (exn_cls e); try (by apply lift_Ok_inv in Hrun as [? _]);
      apply mret_Ok_inv in Hrun as [-> _]; by eexists.
Qed.

Lemma step_inv n state tr nx state' tr' :
  step env config n state tr = (Ok (nx, state'), tr') ->
  exists u,
    run_node env config n state tr = (Ok u, tr')
    /\ state' = merge state u
    /\ next_node env config n (merge state u) = Ok nx.
Proof.
  unfold step. intros Hrun.
  apply M_bind_Ok_inv in Hrun as (u & tr1 & Hu & Hrun).
  apply M_bind_Ok_inv in Hrun as (nx' & tr2 & Hnx & Hrun).
  apply lift_Ok_inv in Hnx as [Hnx ->].
  apply mret_Ok_inv in Hrun as [[= -> ->] ->]. by exists u.
Qed.

(** [web_research] appends one citation block and adds one to the counter;
    every other node leaves both alone. *)
Lemma step_counter n state tr nx state' tr' :
  step env config n state tr = (Ok (nx, state'), tr') ->
  if decide (n = web_research_node)
  then (exists block,
           sources_gathered state' = sources_gathered state ++ [block])
       /\ research_loop_count state' = research_loop_count state + 1
  else sources_gathered state' = sources_gathered state
       /\ research_loop_count state' = research_loop_count state.
Proof.
  intros Hstep. apply step_inv in Hstep as (u & Hu & -> & _).
  destruct n; cbn [run_node] in Hu.
  - apply generate_query_shape in Hu as [q ->]. cbn. by rewrite app_nil_r.
  - apply web_research_shape in Hu as (context & block & ->). cbn.
    case_decide; [eauto | done].
  - apply summarize_sources_shape in Hu as [r ->]. cbn. by rewrite app_nil_r.
  - apply reflect_on_summary_shape in Hu as [q ->]. cbn. by rewrite app_nil_r.
  - apply mret_Ok_inv in Hu as [-> _]. cbn. by rewrite app_nil_r.
Qed.

(** C5.  The number of citation blocks gathered equals the loop counter in
    every state of a run started from a fresh state: both start empty,
    [web_research] appends exactly one block and adds exactly one to the
    counter, and no other node changes either. *)
Theorem C5_sources_gathered_length_is_loop_count :
  (forall topic,
      sources_gathered (initial_state topic) = []
      /\ research_loop_count (initial_state topic) = 0)
  /\ (forall n state tr nx state' tr',
         step env config n state tr = (Ok (nx, state'), tr') ->
         if decide (n = web_research_node)
         then (exists block,
                  sources_gathered state' = sources_gathered state ++ [block])
              /\ research_loop_count state' = research_loop_count state + 1
         else sources_gathered state' = sources_gathered state
              /\ research_loop_count state' = research_loop_count state)
  /\ (forall topic nx state tr,
         reachable env config topic nx state tr ->
         Z.of_nat (length (sources_gathered state))
         = research_loop_count state).
Proof.
  split; [done |]. split; [apply step_counter |].
  intros topic nx state tr Hreach.
  induction Hreach as [| n state tr nx state' tr' _ IH Hstep]; [done |].
  apply step_counter in Hstep. destruct (decide (n = web_research_node)).
  - destruct Hstep as [[block ->] ->]. rewrite length_app. cbn. lia.
  - destruct Hstep as [-> ->]. exact IH.
Qed.

(** *** The research loop *)

Lemma route_research_resolved c state :
  Groq.from_runnable_config env config = Ok c ->
  route_research env config state
  = Ok (if research_loop_count state <=? Groq.max_web_research_loops c
        then "web_research" else "finalize_summary").
Proof.
  intros Hc. unfold route_research. rewrite Hc. clear Hc. cbn.
  destruct (_ <=? _); reflexivity.
Qed.

Lemma next_node_reflect c state :
  Groq.from_runnable_config env config = Ok c ->
  next_node env config reflect_on_summary_node state
  = Ok (Some (if research_loop_count state <=? Groq.max_web_research_loops c
              then web_research_node else finalize_summary_node)).
Proof.
  intros Hc. unfold next_node. rewrite (route_research_resolved c) by assumption.
  clear Hc. cbn. destruct (_ <=? _); reflexivity.
Qed.

Lemma run_inv limit n state history tr final history' tr' :
  run env config limit n state history tr = (Ok (final, history'), tr') ->
  exists limit' nx state1 tr1,
    limit = S (S limit')
    /\ step env config n state tr = (Ok (nx, state1), tr1)
    /\ match nx with
       | None =>
           final = state1 /\ history' = history ++ [(n, state1)] /\ tr' = tr1
       | Some n' =>
           run env config (S limit') n' state1 (history ++ [(n, state1)]) tr1
           = (Ok (final, history'), tr')
       end.
Proof.
  destruct limit as [|limit']; cbn [run]; intros Hrun.
  - apply lift_Ok_inv in Hrun as [Hrun _]. discriminate Hrun.
  - apply M_bind_Ok_inv in Hrun as ([nx state1] & tr1 & Hstep & Hrun).
    destruct limit' as [|limit''].
    { apply lift_Ok_inv in Hrun as [Hrun _]. discriminate Hrun. }
    exists limit'', nx, state1, tr1. split; [reflexivity |].
    split; [exact Hstep |]. cbn [fst snd] in Hrun.
    destruct nx as [n'|]; [exact Hrun |].
    apply mret_Ok_inv in Hrun as [[= -> ->] ->]. auto.
Qed.

(** A step that succeeds within the limit. *)
Lemma run_unfold limit n state history tr nx state1 tr1 :
  step env config n state tr = (Ok (nx, state1), tr1) ->
  run env config (S (S limit)) n state history tr
  = match nx with
    | None => (Ok (state1, history ++ [(n, state1)]), tr1)
    | Some n' =>
        run env config (S limit) n' state1 (history ++ [(n, state1)]) tr1
    end.
Proof.
  intros Hstep. cbn [run]. unfold mbind at 1, M_bind at 1. rewrite Hstep.
  clear Hstep. cbn [fst snd]. destruct nx; reflexivity.
Qed.

Lemma web_research_counts_snoc history n state :
  web_research_counts (history ++ [(n, state)])
  = web_research_counts history
    ++ (if decide (n = web_research_node)
        then [research_loop_count state] else []).
Proof.
  unfold web_research_counts. rewrite filter_app, fmap_app. f_equal.
  destruct (decide (n = web_research_node)) as [-> | Hne].
  - by rewrite filter_cons_True.
  - by rewrite filter_cons_False.
Qed.

(** The edges out of the unconditional nodes. *)
Lemma step_next n state tr nx state' tr' :
  step env config n state tr = (Ok (nx, state'), tr') ->
  match n with
  | generate_query_node => nx = Some web_research_node
  | web_research_node => nx = Some summarize_sources_node
  | summarize_sources_node => nx = Some reflect_on_summary_node
  | reflect_on_summary_node =>
      forall c, Groq.from_runnable_config env config = Ok c ->
           nx = Some (if research_loop_count state'
                         <=? Groq.max_web_research_loops c
                      then web_research_node else finalize_summary_node)
  | finalize_summary_node => nx = None
  end.
Proof.
  intros Hstep. apply step_inv in Hstep as (u & _ & -> & Hnx).
  destruct n.
  - cbn [next_node] in Hnx. injection Hnx as <-. reflexivity.
  - cbn [next_node] in Hnx. injection Hnx as <-. reflexivity.
  - cbn [next_node] in Hnx. injection Hnx as <-. reflexivity.
  - intros c Hc. rewrite (next_node_reflect c) in Hnx by assumption.
    clear Hc. injection Hnx as <-. reflexivity.
  - cbn [next_node] in Hnx. injection Hnx as <-. reflexivity.
Qed.

(** One pass: search, summarize, reflect, and the routing decision taken on
    the counter the pass has just incremented. *)
Lemma run_pass c limit state history tr final history' tr' :
  Groq.from_runnable_config env config = Ok c ->
  run env config limit web_research_node state history tr
  = (Ok (final, history'), tr') ->
  exists limit' s1 s2 s3 tr3,
    limit = S (S (S limit'))
    /\ research_loop_count s1 = research_loop_count state + 1
    /\ research_loop_count s3 = research_loop_count state + 1
    /\ run env config limit'
         (if research_loop_count state + 1 <=? Groq.max_web_research_loops c
          then web_research_node else finalize_summary_node)
         s3
         (history ++ [(web_research_node, s1); (summarize_sources_node, s2);
                      (reflect_on_summary_node, s3)])
         tr3
       = (Ok (final, history'), tr').
Proof.
  intros Hc Hrun.
  apply run_inv in Hrun as (l1 & nx1 & s1 & tr1 & -> & Hstep1 & Hrun).
  pose proof (step_next _ _ _ _ _ _ Hstep1) as Hnx; cbn in Hnx; subst nx1.
  apply step_counter in Hstep1. cbn in Hstep1. destruct Hstep1 as [_ Hk1].
  apply run_inv in Hrun as (l2 & nx2 & s2 & tr2 & [= ->] & Hstep2 & Hrun).
  pose proof (step_next _ _ _ _ _ _ Hstep2) as Hnx; cbn in Hnx; subst nx2.
  apply step_counter in Hstep2. cbn in Hstep2. destruct Hstep2 as [_ Hk2].
  apply run_inv in Hrun as (l3 & nx3 & s3 & tr3 & [= ->] & Hstep3 & Hrun).
  pose proof (step_next _ _ _ _ _ _ Hstep3) as Hnx; cbn in Hnx.
  specialize (Hnx c Hc). subst nx3. clear Hc.
  apply step_counter in Hstep3. cbn in Hstep3. destruct Hstep3 as [_ Hk3].
  exists (S l3), s1, s2, s3, tr3.
  split; [reflexivity |]. split; [exact Hk1 |].
  split; [congruence |].
  replace (research_loop_count state + 1) with (research_loop_count s3)
    by congruence.
  rewrite <- !app_assoc in Hrun. exact Hrun.
Qed.

(** The last node. *)
Lemma run_finalize limit state history tr final history' tr' :
  run env config limit finalize_summary_node state history tr
  = (Ok (final, history'), tr') ->
  history' = history ++ [(finalize_summary_node, final)]
  /\ research_loop_count final = research_loop_count state.
Proof.
  intros Hrun.
  apply run_inv in Hrun as (l1 & nx1 & s1 & tr1 & -> & Hstep1 & Hrun).
  pose proof (step_next _ _ _ _ _ _ Hstep1) as Hnx; cbn in Hnx; subst nx1.
  apply step_counter in Hstep1. cbn in Hstep1. destruct Hstep1 as [_ Hk1].
  destruct Hrun as (-> & -> & ->). auto.
Qed.

(** A run that has reached [web_research] with budget for [passes] more
    passes makes exactly these, counting up by one each time, and then
    finalizes. *)
Lemma run_loop c (passes : nat) :
  Groq.from_runnable_config env config = Ok c ->
  forall limit state history tr final history' tr',
    Z.of_nat passes
    = Z.max 1 (Groq.max_web_research_loops c - research_loop_count state + 1) ->
    run env config limit web_research_node state history tr
    = (Ok (final, history'), tr') ->
    history'.*1
    = history.*1 ++ concat (replicate passes research_pass)
      ++ [finalize_summary_node]
    /\ web_research_counts history'
       = web_research_counts history
         ++ seqZ (research_loop_count state + 1) (Z.of_nat passes)
    /\ research_loop_count final = research_loop_count state + Z.of_nat passes
    /\ (3 * passes + 2 <= limit)%nat.
Proof.
  intros Hc. induction passes as [|passes IH];
    intros limit state history tr final history' tr' Hpasses Hrun; [lia |].
  apply (run_pass c) in Hrun
    as (limit' & s1 & s2 & s3 & tr3 & -> & Hk1 & Hk3 & Hrun); [| assumption].
  assert (Hcounts :
            web_research_counts
              (history ++ [(web_research_node, s1); (summarize_sources_node, s2);
                           (reflect_on_summary_node, s3)])
            = web_research_counts history ++ [research_loop_count state + 1]).
  { change [(web_research_node, s1); (summarize_sources_node, s2);
            (reflect_on_summary_node, s3)]
      with ([(web_research_node, s1)] ++ [(summarize_sources_node, s2)]
            ++ [(reflect_on_summary_node, s3)]).
    rewrite !app_assoc, !web_research_counts_snoc. cbn.
    rewrite !app_nil_r. by rewrite Hk1. }
  rewrite seqZ_cons by lia. cbn [replicate concat].
  destruct (research_loop_count state + 1 <=? Groq.max_web_research_loops c)
    eqn:Hroute.
  - apply Z.leb_le in Hroute.
    apply IH in Hrun as (Hnodes & Hcnt & Hfinal & Hlimit); [| lia].
    rewrite Hnodes, Hcnt, Hcounts, fmap_app. cbn [fmap list_fmap fst].
    rewrite Hk3. rewrite <- !app_assoc. cbn [app].
    replace (Z.pred (Z.of_nat (S passes))) with (Z.of_nat passes) by lia.
    replace (Z.succ (research_loop_count state + 1))
      with (research_loop_count state + 1 + 1) by lia.
    split; [reflexivity |]. split; [reflexivity |]. split; lia.
  - apply Z.leb_gt in Hroute.
    assert (passes = 0%nat) as -> by lia.
    apply run_inv in Hrun as (l1 & nx1 & s4 & tr4 & -> & Hstep & Hrun).
    pose proof (step_next _ _ _ _ _ _ Hstep) as Hnx; cbn in Hnx; subst nx1.
    apply step_counter in Hstep. cbn in Hstep. destruct Hstep as [_ Hk4].
    destruct Hrun as (-> & -> & ->).
    rewrite web_research_counts_snoc, Hcounts, !fmap_app. cbn.
    rewrite <- !app_assoc, app_nil_r. cbn.
    split; [reflexivity |]. split; [reflexivity |]. split; lia.
Qed.

(** A complete run from a fresh state. *)
Lemma invoke_passes c limit topic tr final history tr' :
  Groq.from_runnable_config env config = Ok c ->
  invoke env config limit topic tr = (Ok (final, history), tr') ->
  let passes := Z.to_nat (Z.max 1 (Groq.max_web_research_loops c + 1)) in
  history.*1 = node_sequence passes
  /\ web_research_counts history = seqZ 1 (Z.of_nat passes)
  /\ research_loop_count final = Z.of_nat passes
  /\ (3 * passes + 3 <= limit)%nat.
Proof.
  intros Hc Hrun passes. unfold invoke in Hrun.
  destruct limit as [|limit0];
    [apply lift_Ok_inv in Hrun as [Hrun _]; discriminate Hrun |].
  apply run_inv in Hrun as (l1 & nx1 & s1 & tr1 & [= ->] & Hstep & Hrun).
  pose proof (step_next _ _ _ _ _ _ Hstep) as Hnx; cbn in Hnx; subst nx1.
  apply step_counter in Hstep. cbn in Hstep. destruct Hstep as [_ Hk].
  change (research_loop_count (initial_state topic)) with 0 in Hk.
  apply (run_loop c passes) in Hrun as (Hnodes & Hcnt & Hfinal & Hlimit);
    [| assumption | subst passes; rewrite Hk; lia].
  rewrite Hnodes, Hcnt, web_research_counts_snoc, Hk. cbn.
  split; [reflexivity |]. split; [reflexivity |]. split; lia.
Qed.

(** *** Runs complete when the providers answer *)

Lemma step_generate_query_ok c state tr :
  Groq.from_runnable_config env config = Ok c ->
  providers_answer ->
  exists state' tr',
    step env config generate_query_node state tr
    = (Ok (Some web_research_node, state'), tr').
Proof.
  intros Hc (Hchat & _ & Hobj & Hdec).
  destruct (Hchat tr (query_writer_request c state)) as [reply Hreply].
  assert (Hrun : exists q,
             generate_query env config state tr
             = (Ok (set_search_query q),
                tr ++ [ChatCall (query_writer_request c state)])).
  { destruct (json_loads reply) as [v|e] eqn:Hj.
    - pose proof (Hobj _ _ _ _ Hreply Hj) as Hd.
      destruct v as [ | b | z | f | s | l | d]; try discriminate Hd.
      destruct (assoc_get "query" d) as [q|] eqn:Hq.
      + exists q. by apply (generate_query_field _ _ _ _ c reply d).
      + eexists. apply (generate_query_fallback _ _ _ _ c reply);
          [assumption | assumption |].
        rewrite Hj. by constructor.
    - pose proof (Hdec _ _ _ _ Hreply Hj) as He.
      eexists. apply (generate_query_fallback _ _ _ _ c reply);
        [assumption | assumption |].
      rewrite Hj. by constructor. }
  clear Hc Hreply. destruct Hrun as [q Hrun].
  unfold step, mbind, M_bind. cbn [run_node]. rewrite Hrun. cbn.
  eexists _, _; reflexivity.
Qed.

Lemma step_web_research_ok c state tr :
  Groq.from_runnable_config env config = Ok c ->
  providers_answer ->
  exists state' tr',
    step env config web_research_node state tr
    = (Ok (Some summarize_sources_node, state'), tr')
    /\ web_research_results state' ≠ [].
Proof.
  intros Hc (_ & Hsearch & _).
  destruct (Hsearch tr (search_query state) (Groq.fetch_full_page c) 3)
    as [results Hresults].
  unfold step, mbind, M_bind. cbn [run_node].
  unfold web_research, mbind, M_bind, lift, search.
  rewrite Hc, Hresults. clear Hc Hresults. cbn.
  eexists _, _. split; [reflexivity |].
  intros Hnil. by apply app_eq_nil in Hnil as [_ ?].
Qed.

Lemma step_summarize_sources_ok c state tr :
  Groq.from_runnable_config env config = Ok c ->
  providers_answer ->
  web_research_results state ≠ [] ->
  exists state' tr',
    step env config summarize_sources_node state tr
    = (Ok (Some reflect_on_summary_node, state'), tr').
Proof.
  intros Hc (Hchat & _ & _) Hne.
  unfold step, mbind, M_bind. cbn [run_node].
  unfold summarize_sources, mbind, M_bind, lift, chat, last_item.
  destruct (last (web_research_results state)) as [recent|] eqn:Hlast.
  - rewrite Hc. clear Hc.
    match goal with
    | |- context [chat_completions_create tr ?r] =>
        destruct (Hchat tr r) as [reply ->]
    end.
    cbn. eexists _, _; reflexivity.
  - apply last_None in Hlast. contradiction.
Qed.

Lemma step_reflect_on_summary_ok c state tr :
  Groq.from_runnable_config env config = Ok c ->
  providers_answer ->
  exists state' tr',
    step env config reflect_on_summary_node state tr
    = (Ok (Some (if research_loop_count state
                    <=? Groq.max_web_research_loops c
                 then web_research_node else finalize_summary_node), state'),
       tr').
Proof.
  intros Hc (Hchat & _ & _ & Hdec).
  destruct (Hchat tr (reflection_request c state)) as [reply Hreply].
  assert (Hrun : exists q,
             reflect_on_summary env config state tr
             = (Ok (set_search_query q),
                tr ++ [ChatCall (reflection_request c state)])).
  { rewrite (reflect_on_summary_answered env config state tr c reply)
      by assumption.
    destruct (json_loads reply) as [v|e] eqn:Hj; [by eexists |].
    rewrite (Hdec _ _ _ _ Hreply Hj). by eexists. }
  clear Hreply. destruct Hrun as [q Hrun].
  unfold step, mbind, M_bind. cbn [run_node]. rewrite Hrun. unfold lift.
  rewrite (next_node_reflect c (merge state (set_search_query q)))
    by assumption.
  clear Hc Hrun. cbn. eexists _, _; reflexivity.
Qed.

Lemma step_finalize_summary_ok state tr :
  exists state',
    step env config finalize_summary_node state tr = (Ok (None, state'), tr).
Proof. eexists. reflexivity. Qed.

Lemma run_loop_total c (passes : nat) :
  Groq.from_runnable_config env config = Ok c ->
  providers_answer ->
  forall limit state history tr,
    Z.of_nat passes
    = Z.max 1 (Groq.max_web_research_loops c - research_loop_count state + 1) ->
    (3 * passes + 2 <= limit)%nat ->
    exists final history' tr',
      run env config limit web_research_node state history tr
      = (Ok (final, history'), tr').
Proof.
  intros Hc Hext. induction passes as [|passes IH];
    intros limit state history tr Hpasses Hlimit; [lia |].
  destruct limit as [|[|[|[|limit]]]]; try lia.
  destruct (step_web_research_ok c state tr Hc Hext)
    as (s1 & tr1 & Hstep1 & Hne).
  destruct (step_summarize_sources_ok c s1 tr1 Hc Hext Hne)
    as (s2 & tr2 & Hstep2).
  destruct (step_reflect_on_summary_ok c s2 tr2 Hc Hext)
    as (s3 & tr3 & Hstep3).
  pose proof (step_counter _ _ _ _ _ _ Hstep1) as Hk1.
  pose proof (step_counter _ _ _ _ _ _ Hstep2) as Hk2.
  pose proof (step_counter _ _ _ _ _ _ Hstep3) as Hk3.
  cbn in Hk1, Hk2, Hk3.
  destruct Hk1 as [_ Hk1], Hk2 as [_ Hk2], Hk3 as [_ Hk3].
  rewrite (run_unfold _ _ _ _ _ _ _ _ Hstep1).
  rewrite (run_unfold _ _ _ _ _ _ _ _ Hstep2).
  rewrite (run_unfold _ _ _ _ _ _ _ _ Hstep3).
  clear Hstep1 Hstep2 Hstep3.
  destruct (research_loop_count s2 <=? Groq.max_web_research_loops c)
    eqn:Hroute.
  - apply Z.leb_le in Hroute. apply IH; lia.
  - destruct limit as [|limit]; [lia |].
    destruct (step_finalize_summary_ok s3 tr3) as [s4 Hstep4].
    rewrite (run_unfold _ _ _ _ _ _ _ _ Hstep4).
    eexists _, _, _. reflexivity.
Qed.

Lemma invoke_total c limit topic tr :
  Groq.from_runnable_config env config = Ok c ->
  providers_answer ->
  (3 * Z.to_nat (Z.max 1 (Groq.max_web_research_loops c + 1)) + 3 <= limit)%nat ->
  exists final history tr',
    invoke env config limit topic tr = (Ok (final, history), tr').
Proof.
  intros Hc Hext Hlimit. unfold invoke.
  destruct limit as [|[|limit]]; [lia | lia |].
  destruct (step_generate_query_ok c (initial_state topic) tr Hc Hext)
    as (s1 & tr1 & Hstep).
  pose proof (step_counter _ _ _ _ _ _ Hstep) as Hk. cbn in Hk.
  destruct Hk as [_ Hk].
  change (research_loop_count (initial_state topic)) with 0 in Hk.
  rewrite (run_unfold _ _ _ _ _ _ _ _ Hstep).
  clear Hstep.
  apply (run_loop_total c
           (Z.to_nat (Z.max 1 (Groq.max_web_research_loops c + 1))));
    [assumption | assumption | rewrite Hk; lia | lia].
Qed.

(** C1.  The routing function answers ["web_research"] while the loop
    counter is at most the configured maximum, and ["finalize_summary"]
    otherwise.  With a maximum of 3, every complete run from a fresh state
    runs [web_research] exactly four times, leaving the loop counts 1, 2, 3
    and 4, before the route goes to [finalize_summary]; and the run does
    complete whenever the providers answer and the engine's limit allows
    its 14 nodes, which a limit of 15 does and the default of 25 too. *)
Theorem C1_route_research_and_four_passes c :
  Groq.from_runnable_config env config = Ok c ->
  (forall state,
      route_research env config state
      = Ok (if research_loop_count state <=? Groq.max_web_research_loops c
            then "web_research" else "finalize_summary"))
  /\ (Groq.max_web_research_loops c = 3 ->
      (forall limit topic tr final history tr',
          invoke env config limit topic tr = (Ok (final, history), tr') ->
          history.*1
          = [generate_query_node;
             web_research_node; summarize_sources_node; reflect_on_summary_node;
             web_research_node; summarize_sources_node; reflect_on_summary_node;
             web_research_node; summarize_sources_node; reflect_on_summary_node;
             web_research_node; summarize_sources_node; reflect_on_summary_node;
             finalize_summary_node]
          /\ web_research_counts history = [1; 2; 3; 4]
          /\ research_loop_count final = 4)
      /\ (providers_answer ->
          forall limit topic tr,
            (15 <= limit)%nat ->
            exists final history tr',
              invoke env config limit topic tr = (Ok (final, history), tr'))).
Proof.
  intros Hc. split; [intros state; by apply route_research_resolved |].
  intros Hmax. split.
  - intros limit topic tr final history tr' Hrun.
    pose proof (invoke_passes c _ _ _ _ _ _ Hc Hrun) as Hp. clear Hc.
    rewrite Hmax in Hp. cbv zeta in Hp.
    change (Z.to_nat (Z.max 1 (3 + 1))) with 4%nat in Hp.
    destruct Hp as (Hnodes & Hcounts & Hfinal & _).
    split; [exact Hnodes |]. split; [exact Hcounts | exact Hfinal].
  - intros Hext limit topic tr Hlimit.
    apply (invoke_total c); [assumption | assumption |].
    rewrite Hmax. change (Z.to_nat (Z.max 1 (3 + 1))) with 4%nat. lia.
Qed.

End EngineFacts.

(** ** The entry point *)

Section AppFacts.
Import Graph App.

Lemma getenv_missing_unset (env : environ) (name : string) :
  env !! name = None -> getenv_missing env name = true.
Proof. unfold getenv_missing. by intros ->. Qed.

(** C2.  When [GROQ_API_KEY] or [TAVILY_API_KEY] is unset once the
    environment file is loaded, [run_research] raises a [ValueError] whose
    message names a missing variable ([GROQ_API_KEY] if that one is unset,
    [TAVILY_API_KEY] if only that one is missing).  It does so whatever the
    workflow would do and without any call having been added to those made
    before; the error is the [ValueError] itself, not the generic
    ["Research failed: ..."] exception. *)
Theorem C2_missing_key_raises_before_any_call
    (graph_invoke : environ -> string -> option RunnableConfig
                    -> M (gmap string value))
    (dotenv env : environ) (topic : string) (tr : list event) :
  load_dotenv dotenv env !! "GROQ_API_KEY" = None
  \/ load_dotenv dotenv env !! "TAVILY_API_KEY" = None ->
  exists name msg,
    run_research graph_invoke dotenv env topic tr
    = (Raise (Exn ValueError msg), tr)
    /\ (name = "GROQ_API_KEY" \/ name = "TAVILY_API_KEY")
    /\ getenv_missing (load_dotenv dotenv env) name = true
    /\ contains name msg = true
    /\ startswith "Research failed: " msg = false
    /\ (load_dotenv dotenv env !! "GROQ_API_KEY" = None ->
        name = "GROQ_API_KEY")
    /\ (getenv_missing (load_dotenv dotenv env) "GROQ_API_KEY" = false ->
        name = "TAVILY_API_KEY").
Proof.
  intros Hunset. unfold run_research.
  destruct (getenv_missing (load_dotenv dotenv env) "GROQ_API_KEY") eqn:Hg.
  - exists "GROQ_API_KEY". eexists. split; [reflexivity |].
    split; [by left |]. split; [exact Hg |].
    split; [by vm_compute |]. split; [by vm_compute |].
    split; [reflexivity | discriminate].
  - assert (Ht : load_dotenv dotenv env !! "TAVILY_API_KEY" = None).
    { destruct Hunset as [Hu | Hu]; [| exact Hu].
      apply getenv_missing_unset in Hu. congruence. }
    rewrite (getenv_missing_unset _ _ Ht).
    exists "TAVILY_API_KEY". eexists. split; [reflexivity |].
    split; [by right |]. split; [by apply getenv_missing_unset |].
    split; [by vm_compute |]. split; [by vm_compute |].
    split; [| reflexivity].
    intros Hu. apply getenv_missing_unset in Hu. congruence.
Qed.

End AppFacts.

(** ** The statements at concrete inputs *)

Section Instances.
Import Graph App Demo Spec.

Lemma demo_configuration_resolved :
  @Groq.from_runnable_config lax_validation ∅ (Some app_config)
  = Ok demo_configuration.
Proof. vm_compute. reflexivity. Qed.

Lemma scripted_providers_answer (reply : string) :
  (forall v, Json.loads reply = Ok v -> is_dict v = true) ->
  (forall e, Json.loads reply = Raise e -> exn_cls e = JSONDecodeError) ->
  @providers_answer (scripted (fun _ => reply)).
Proof.
  intros Hobj Hdec. split; [| split; [| split]].
  - intros tr r. by exists reply.
  - intros tr q b n. by eexists.
  - intros tr r reply' v [= <-]. apply Hobj.
  - intros tr r reply' e [= <-]. apply Hdec.
Qed.

(** A model that never answers in JSON. *)
Lemma plain_text_providers_answer :
  @providers_answer (scripted (fun _ => "not json")).
Proof.
  apply scripted_providers_answer.
  - intros v Hv. vm_compute in Hv. discriminate Hv.
  - intros e He. vm_compute in He. by injection He as <-.
Qed.

(** With [TEMPERATURE="0.7"] set and [temperature = 0.2] passed, the
    lax validators resolve the temperature to [0.7]. *)
Lemma C4_environment_precedence_witness :
  @validate_float lax_validation (VStr "0.7") = Some 0.7%float
  /\ Groq.temperature
       <$> (@Groq.from_runnable_config lax_validation
              {["TEMPERATURE" := "0.7"]}
              (Some {| configurable :=
                         Some {["temperature" := VFloat 0.2%float]} |}))
     = Ok 0.7%float.
Proof.
  split; [reflexivity |].
  destruct (@C4_environment_precedence lax_validation eq_refl)
    as (_ & _ & _ & Hgroq & _).
  cbv zeta in Hgroq. rewrite Hgroq. reflexivity.
Defined.

(** A run whose model never answers in JSON: four passes, counts 1 to 4. *)
Lemma C1_route_research_and_four_passes_witness :
  @Groq.from_runnable_config lax_validation ∅ (Some app_config)
  = Ok demo_configuration
  /\ exists final history tr',
      @invoke lax_validation (scripted (fun _ => "not json")) ∅
        (Some app_config) 25 "Quantum Computing" []
      = (Ok (final, history), tr')
      /\ web_research_counts history = [1; 2; 3; 4].
Proof.
  split; [exact demo_configuration_resolved |].
  destruct (@C1_route_research_and_four_passes lax_validation
              (scripted (fun _ => "not json")) ∅ (Some app_config)
              demo_configuration demo_configuration_resolved)
    as [_ Hruns].
  destruct (Hruns eq_refl) as [Hpartial Htotal].
  destruct (Htotal plain_text_providers_answer
              25%nat "Quantum Computing" [] ltac:(lia))
    as (final & history & tr' & Hrun).
  exists final, history, tr'. split; [exact Hrun |].
  exact (proj1 (proj2 (Hpartial _ _ _ _ _ _ Hrun))).
Defined.

(** [GROQ_API_KEY] unset, [TAVILY_API_KEY] set: the error names the former
    and the workflow is not entered. *)
Lemma C2_missing_key_raises_before_any_call_witness :
  load_dotenv ∅ {["TAVILY_API_KEY" := "tvly-key"]} !! "GROQ_API_KEY" = None
  /\ exists name msg,
      run_research demo_graph_invoke ∅ {["TAVILY_API_KEY" := "tvly-key"]}
        "Quantum Computing" []
      = (Raise (Exn ValueError msg), [])
      /\ name = "GROQ_API_KEY"
      /\ contains name msg = true.
Proof.
  assert (Hunset : load_dotenv ∅ {["TAVILY_API_KEY" := "tvly-key"]}
                   !! "GROQ_API_KEY" = None) by (vm_compute; reflexivity).
  split; [exact Hunset |].
  destruct (C2_missing_key_raises_before_any_call demo_graph_invoke ∅
              {["TAVILY_API_KEY" := "tvly-key"]} "Quantum Computing" []
              (or_introl Hunset))
    as (name & msg & Hrun & _ & _ & Hnames & _ & Hgroq & _).
  exists name, msg. split; [exact Hrun |]. split; [exact (Hgroq Hunset) |].
  exact Hnames.
Defined.

(** The reply [[]] is JSON but no object: the node raises [TypeError]. *)
Lemma C6_generate_query_fails_on_non_object_witness :
  Json.loads "[]" = Ok (VList [])
  /\ exists e,
      @generate_query lax_validation (scripted (fun _ => "[]")) ∅
        (Some app_config) (initial_state "Quantum Computing") []
      = (Raise e,
         [ChatCall (@query_writer_request (scripted (fun _ => "[]"))
                      demo_configuration (initial_state "Quantum Computing"))])
      /\ exn_cls e = TypeError.
Proof.
  split; [reflexivity |].
  exact (@C6_generate_query_fails_on_non_object lax_validation
           (scripted (fun _ => "[]")) ∅ (Some app_config)
           (initial_state "Quantum Computing") [] demo_configuration
           "[]" (VList []) demo_configuration_resolved eq_refl eq_refl eq_refl).
Defined.

(** A reflection reply with a number too long to convert: the decoder's
    [ValueError] leaves the node. *)
Lemma C7_reflection_decoder_error_escapes_witness :
  Json.loads long_number_reply = Json.too_many_digits
  /\ @reflect_on_summary lax_validation
       (scripted (fun _ => long_number_reply)) ∅ (Some app_config)
       (initial_state "Quantum Computing") []
     = (Json.too_many_digits,
        [ChatCall (@reflection_request
                     (scripted (fun _ => long_number_reply))
                     demo_configuration (initial_state "Quantum Computing"))]).
Proof.
  assert (Hj : Json.loads long_number_reply = Json.too_many_digits)
    by (vm_compute; reflexivity).
  split; [exact Hj |].
  exact (@C7_reflection_decoder_error_escapes lax_validation
           (scripted (fun _ => long_number_reply)) ∅ (Some app_config)
           (initial_state "Quantum Computing") [] demo_configuration
           long_number_reply _ demo_configuration_resolved eq_refl Hj eq_refl).
Defined.

(** A query-writer reply whose ['query'] is the empty string: the node
    returns the empty string as the query. *)
Lemma C8_generate_query_passes_on_empty_query_witness :
  Json.loads empty_query_reply = Ok (VDict [("query", VStr EmptyString)])
  /\ @generate_query lax_validation
       (scripted (fun _ => empty_query_reply)) ∅
       (Some app_config) (initial_state "Quantum Computing") []
     = (Ok (set_search_query (VStr EmptyString)),
        [ChatCall (@query_writer_request
                     (scripted (fun _ => empty_query_reply))
                     demo_configuration (initial_state "Quantum Computing"))])
  /\ ~ yields_nonempty_query
        (@generate_query lax_validation
           (scripted (fun _ => empty_query_reply)) ∅
           (Some app_config) (initial_state "Quantum Computing") []).
Proof.
  assert (Hj : Json.loads empty_query_reply
               = Ok (VDict [("query", VStr EmptyString)]))
    by (vm_compute; reflexivity).
  split; [exact Hj |].
  exact (proj1
           (@C8_generate_query_passes_on_empty_query lax_validation
              (scripted (fun _ => empty_query_reply)) ∅
              (Some app_config) (initial_state "Quantum Computing") []
              demo_configuration empty_query_reply
              demo_configuration_resolved eq_refl)
           [("query", VStr EmptyString)] (VStr EmptyString)
           Hj eq_refl eq_refl).
Defined.

End Instances.

(** * Further properties *)

(** ** Configuration resolution, continued *)

Section ResolverMore.
Import Resolver Spec Demo.
Context `{V : Validation}.

(** The constructor arguments depend on the overrides only through the
    declared fields, and there only through [override]. *)
Lemma values_override_ext fields env cfg cfg' name :
  name ∈ fields ->
  override cfg name = override cfg' name ->
  values fields env (Some {| configurable := Some cfg |}) !! name
  = values fields env (Some {| configurable := Some cfg' |}) !! name.
Proof.
  intros Hin Hov. rewrite !values_lookup_field by done. cbn.
  by rewrite Hov.
Qed.

(** Without a variable named after a field and without overrides, both
    resolvers give the class defaults, whatever else the environment
    holds. *)
Theorem defaults_without_overrides (env : environ) :
  (forall name, name ∈ Groq.model_fields -> env !! upper name = None) ->
  (forall name, name ∈ OpenAI.model_fields -> env !! upper name = None) ->
  Groq.from_runnable_config env None
  = Ok {| Groq.max_web_research_loops := 3;
          Groq.groq_model := "llama-3.3-70b-versatile";
          Groq.groq_api_key := None;
          Groq.search_api := "tavily";
          Groq.fetch_full_page := true;
          Groq.temperature := 0%float;
          Groq.strip_thinking_tokens := true |}
  /\ OpenAI.from_runnable_config env None
     = Ok {| OpenAI.max_web_research_loops := 3;
             OpenAI.openai_model := "gpt-4";
             OpenAI.openai_api_key := None;
             OpenAI.search_api := "tavily";
             OpenAI.fetch_full_page := true;
             OpenAI.temperature := 0%float;
             OpenAI.strip_thinking_tokens := true |}.
Proof.
  intros Hg Ho. split.
  - unfold Groq.from_runnable_config, Groq.construct, field.
    rewrite !values_lookup_field by solve_elem.
    rewrite !Hg by solve_elem. reflexivity.
  - unfold OpenAI.from_runnable_config, OpenAI.construct, field.
    rewrite !values_lookup_field by solve_elem.
    rewrite !Ho by solve_elem. reflexivity.
Qed.

(** Of the explicit overrides only those of declared fields are read, and an
    override of [None] is the same as none: two override maps that agree on
    the declared fields, [None] counting as absent, resolve alike. *)
Theorem overrides_read_through_declared_fields env cfg cfg' :
  (forall name,
      name ∈ Groq.model_fields ++ OpenAI.model_fields ->
      override cfg name = override cfg' name) ->
  Groq.from_runnable_config env (Some {| configurable := Some cfg |})
  = Groq.from_runnable_config env (Some {| configurable := Some cfg' |})
  /\ OpenAI.from_runnable_config env (Some {| configurable := Some cfg |})
     = OpenAI.from_runnable_config env (Some {| configurable := Some cfg' |}).
Proof.
  intros Hag. split.
  - apply Groq_construct_ext. intros name Hin.
    apply values_override_ext; [done |]. apply Hag.
    apply elem_of_app. by left.
  - apply OpenAI_construct_ext. intros name Hin.
    apply values_override_ext; [done |]. apply Hag.
    apply elem_of_app. by right.
Qed.

(** A field of the constructor call either validates or gives the one
    validation error. *)
Lemma field_cases {A} (validate : value -> option A) (d : A)
    (kw : gmap string value) (name : string) :
  (exists a, field validate d kw name = Ok a)
  \/ field validate d kw name = validation_error.
Proof.
  unfold field. destruct (kw !! name) as [v|]; [| eauto].
  destruct (validate v); eauto.
Qed.

(** In the OpenAI-style resolver the special handling of the provider key
    changes nothing: the variable it consults is the one the field loop has
    already consulted.  The constructor receives the looked-up values minus
    the [None]s, and the resolved key is [OPENAI_API_KEY] when set, else the
    explicit override. *)
Theorem openai_key_fallback_is_redundant :
  (forall env config,
      values OpenAI.model_fields env config
      = drop_none (raw_values OpenAI.model_fields env (configurable_of config)))
  /\ (forall env config c,
         OpenAI.from_runnable_config env config = Ok c ->
         OpenAI.openai_api_key c
         = match env !! "OPENAI_API_KEY" with
           | Some k => Some k
           | None =>
               override (configurable_of config) "openai_api_key"
                 ≫= validate_str
           end).
Proof.
  split.
  - intros env config. apply map_eq. intros name.
    destruct (decide (name ∈ OpenAI.model_fields)) as [Hin | Hnin].
    + rewrite values_lookup_field by done.
      rewrite lookup_drop_none, lookup_raw_values.
      rewrite (bool_decide_eq_true_2 _ Hin).
      unfold environ_get, override, dict_get.
      destruct (env !! upper name); [reflexivity |].
      by destruct (configurable_of config !! name).
    + rewrite values_lookup_other by done.
      rewrite lookup_drop_none, lookup_raw_values.
      rewrite (bool_decide_eq_false_2 _ Hnin).
      rewrite bool_decide_eq_false_2; [reflexivity |].
      intros ->. apply Hnin. solve_elem.
  - intros env config c Hc. unfold OpenAI.from_runnable_config in Hc.
    unfold OpenAI.construct in Hc.
    repeat (apply result_bind_Ok_inv in Hc as (? & ? & Hc)).
    injection Hc as <-. cbn.
    match goal with
    | Hk : field (validate_optional validate_str) _ _ _ = Ok _ |- _ =>
        apply field_Ok_inv in Hk;
        rewrite values_lookup_field in Hk by solve_elem;
        change (upper "openai_api_key") with "OPENAI_API_KEY" in Hk;
        rename Hk into Hkey
    end.
    clear - Hkey.
    destruct (env !! "OPENAI_API_KEY") as [k|].
    + unfold validate_optional in Hkey. cbn in Hkey.
      rewrite validate_str_str in Hkey. by injection Hkey.
    + unfold override in *.
      destruct (configurable_of config !! "openai_api_key") as [v|];
        [| done].
      destruct (is_none v) eqn:Ev; [done |].
      unfold validate_optional in Hkey. rewrite Ev in Hkey. cbn.
      destruct (validate_str v); cbn in Hkey; [by injection Hkey | done].
Qed.

(** [search_api] is the literal ["tavily"]: a [SEARCH_API] variable holding
    anything else makes both resolvers raise the validation error, whatever
    the overrides say. *)
Theorem search_api_variable_must_be_tavily env config s :
  env !! "SEARCH_API" = Some s ->
  s ≠ "tavily" ->
  Groq.from_runnable_config env config = validation_error
  /\ OpenAI.from_runnable_config env config = validation_error.
Proof.
  intros Henv Hs.
  assert (Hlit : validate_literal "tavily" (VStr s) = None).
  { cbn. destruct (String.eqb_spec s "tavily"); [contradiction | done]. }
  split.
  - unfold Groq.from_runnable_config, Groq.construct.
    assert (Hd : field (validate_literal "tavily") "tavily"
                   (values Groq.model_fields env config) "search_api"
                 = validation_error).
    { unfold field. rewrite values_lookup_field by solve_elem.
      change (upper "search_api") with "SEARCH_API".
      by rewrite Henv, Hlit. }
    rewrite Hd. clear. unfold mbind, result_bind.
    repeat match goal with
           | |- context [field ?v ?d ?kw ?n] =>
               destruct (field_cases v d kw n) as [[? ->] | ->];
                 [| reflexivity]
           end.
    reflexivity.
  - unfold OpenAI.from_runnable_config, OpenAI.construct.
    assert (Hd : field (validate_literal "tavily") "tavily"
                   (values OpenAI.model_fields env config) "search_api"
                 = validation_error).
    { unfold field. rewrite values_lookup_field by solve_elem.
      change (upper "search_api") with "SEARCH_API".
      by rewrite Henv, Hlit. }
    rewrite Hd. clear. unfold mbind, result_bind.
    repeat match goal with
           | |- context [field ?v ?d ?kw ?n] =>
               destruct (field_cases v d kw n) as [[? ->] | ->];
                 [| reflexivity]
           end.
    reflexivity.
Qed.

End ResolverMore.

(** ** The workflow, continued *)

Section EngineMore.
Import Graph Spec Calls.
Context `{V : Validation} `{E : Externals}.
Variable env : environ.
Variable config : option RunnableConfig.

Lemma chat_Ok_inv r tr reply tr' :
  chat r tr = (Ok reply, tr') -> tr' = tr ++ [ChatCall r].
Proof. unfold chat. by intros [= _ <-]. Qed.

Lemma search_Ok_inv q b n tr results tr' :
  search q b n tr = (Ok results, tr') -> tr' = tr ++ [SearchCall q b n].
Proof. unfold search. by intros [= _ <-]. Qed.

(** A handler that only returns leaves the calls as they are. *)
Lemma try_except_mret_trace {A} (body : result A) caught (x : A) tr a tr' :
  try_except body caught (mret x) tr = (Ok a, tr') -> tr' = tr.
Proof.
  unfold try_except. destruct body as [b|e].
  - intros Hr. by apply mret_Ok_inv in Hr as [_ ->].
  - destruct (caught (exn_cls e)); intros Hr.
    + by apply mret_Ok_inv in Hr as [_ ->].
    + by apply lift_Ok_inv in Hr as [_ ->].
Qed.

(** The calls each node makes when it returns: one model call in JSON mode
    for [generate_query] and [reflect_on_summary], one plain model call for
    [summarize_sources], one search for the current query with a cap of
    three results for [web_research], none for [finalize_summary]. *)
Lemma run_node_calls n state tr u tr' :
  run_node env config n state tr = (Ok u, tr') ->
  match n with
  | web_research_node =>
      exists b, tr' = tr ++ [SearchCall (search_query state) b 3]
  | finalize_summary_node => tr' = tr
  | summarize_sources_node =>
      exists r, tr' = tr ++ [ChatCall r] /\ json_mode r = false
  | generate_query_node | reflect_on_summary_node =>
      exists r, tr' = tr ++ [ChatCall r] /\ json_mode r = true
  end.
Proof.
  destruct n; cbn [run_node]; intros Hrun.
  - unfold generate_query in Hrun.
    apply M_bind_Ok_inv in Hrun as (c & tr1 & Hc & Hrun).
    apply lift_Ok_inv in Hc as [_ ->].
    apply M_bind_Ok_inv in Hrun as (reply & tr2 & Hchat & Hrun).
    apply chat_Ok_inv in Hchat as ->.
    apply M_bind_Ok_inv in Hrun as (q & tr3 & Htry & Hrun).
    apply try_except_mret_trace in Htry as ->.
    apply mret_Ok_inv in Hrun as [_ ->]. eexists. split; reflexivity.
  - unfold web_research in Hrun.
    apply M_bind_Ok_inv in Hrun as (c & tr1 & Hc & Hrun).
    apply lift_Ok_inv in Hc as [_ ->].
    apply M_bind_Ok_inv in Hrun as (results & tr2 & Hsearch & Hrun).
    apply search_Ok_inv in Hsearch as ->.
    apply mret_Ok_inv in Hrun as [_ ->]. by eexists.
  - unfold summarize_sources in Hrun.
    apply M_bind_Ok_inv in Hrun as (recent & tr0 & Hlast & Hrun).
    apply lift_Ok_inv in Hlast as [_ ->].
    apply M_bind_Ok_inv in Hrun as (c & tr1 & Hc & Hrun).
    apply lift_Ok_inv in Hc as [_ ->].
    apply M_bind_Ok_inv in Hrun as (reply & tr2 & Hchat & Hrun).
    apply chat_Ok_inv in Hchat as ->.
    apply mret_Ok_inv in Hrun as [_ ->]. eexists. split; reflexivity.
  - unfold reflect_on_summary in Hrun.
    apply M_bind_Ok_inv in Hrun as (c & tr1 & Hc & Hrun).
    apply lift_Ok_inv in Hc as [_ ->].
    apply M_bind_Ok_inv in Hrun as (reply & tr2 & Hchat & Hrun).
    apply chat_Ok_inv in Hchat as ->.
    apply try_except_mret_trace in Hrun as ->.
    eexists. split; reflexivity.
  - by apply mret_Ok_inv in Hrun as [_ ->].
Qed.

(** What a step does to the state, node by node. *)
Lemma step_update n state tr nx state' tr' :
  step env config n state tr = (Ok (nx, state'), tr') ->
  exists u,
    state' = merge state u
    /\ run_node env config n state tr = (Ok u, tr')
    /\ match n with
       | generate_query_node | reflect_on_summary_node =>
           exists q, u = set_search_query q
       | web_research_node =>
           exists context block,
             u = {| u_search_query := None;
                    u_web_research_results := Some [context];
                    u_sources_gathered := Some [block];
                    u_research_loop_count :=
                      Some (research_loop_count state + 1);
                    u_running_summary := None |}
       | summarize_sources_node => exists r, u = set_running_summary r
       | finalize_summary_node =>
           u = set_running_summary
                 (report (format_opt (running_summary state))
                    (sources_gathered state))
       end.
Proof.
  intros Hstep. apply step_inv in Hstep as (u & Hu & -> & _).
  exists u. split; [reflexivity |]. split; [exact Hu |].
  destruct n; cbn [run_node] in Hu.
  - by apply generate_query_shape in Hu.
  - by apply web_research_shape in Hu.
  - by apply summarize_sources_shape in Hu.
  - by apply reflect_on_summary_shape in Hu.
  - apply mret_Ok_inv in Hu as [-> _].
    unfold finalize_summary, set_running_summary, report. cbn [snd].
    by rewrite scan_sources_source_lines.
Qed.

(** Where a step leads, whether or not the configuration is known. *)
Lemma step_next_any n state tr nx state' tr' :
  step env config n state tr = (Ok (nx, state'), tr') ->
  match n with
  | generate_query_node => nx = Some web_research_node
  | web_research_node => nx = Some summarize_sources_node
  | summarize_sources_node => nx = Some reflect_on_summary_node
  | reflect_on_summary_node =>
      nx = Some web_research_node \/ nx = Some finalize_summary_node
  | finalize_summary_node => nx = None
  end.
Proof.
  intros Hstep. apply step_inv in Hstep as (u & _ & -> & Hnx).
  destruct n; cbn [next_node] in Hnx.
  - injection Hnx as <-. reflexivity.
  - injection Hnx as <-. reflexivity.
  - injection Hnx as <-. reflexivity.
  - unfold route_research in Hnx.
    destruct (Groq.from_runnable_config env config) as [c|e];
      [| discriminate Hnx].
    cbn in Hnx. destruct (_ <=? _); cbn in Hnx; injection Hnx as <-; auto.
  - injection Hnx as <-. reflexivity.
Qed.

Lemma searches_snoc tr e :
  searches (tr ++ [e]) = searches tr ++ (if is_search e then [e] else []).
Proof.
  unfold searches. rewrite filter_app. f_equal.
  destruct (is_search e) eqn:He.
  - by rewrite filter_cons_True.
  - rewrite filter_cons_False; [done |]. by rewrite He.
Qed.

Lemma chats_snoc tr e :
  chats (tr ++ [e]) = chats tr ++ (if is_chat e then [e] else []).
Proof.
  unfold chats. rewrite filter_app. f_equal.
  destruct (is_chat e) eqn:He.
  - by rewrite filter_cons_True.
  - rewrite filter_cons_False; [done |]. by rewrite He.
Qed.

Lemma reachable_run_invariant topic nx state tr :
  reachable env config topic nx state tr -> run_invariant topic nx state tr.
Proof.
  intros Hreach.
  induction Hreach as [| n state tr nx state' tr' _ IH Hstep].
  { unfold run_invariant. cbn. repeat split; try done.
    - intros q b n Hin. by apply elem_of_nil in Hin.
    - auto. }
  pose proof (step_next_any _ _ _ _ _ _ Hstep) as Hnx.
  apply step_update in Hstep as (u & -> & Hrun & Hu).
  apply run_node_calls in Hrun as Hcalls.
  clear Hrun.
  destruct IH as (Htopic & Hpos & Hfirst & Hweb & Hsrc & Hsearch & Hcap
                  & Hchat & Hsum & _).
  unfold run_invariant.
  destruct n.
  - (* generate_query *)
    destruct Hu as [q ->]. destruct Hcalls as (r & -> & _). subst nx.
    specialize (Hfirst eq_refl). cbn in *.
    rewrite searches_snoc, chats_snoc. cbn [is_search is_chat].
    rewrite ?app_nil_r, ?length_app. cbn [length]. repeat split; try done; try lia.
    + intros q' b n Hin. apply elem_of_app in Hin as [Hin | Hin]; [eauto |].
      apply list_elem_of_singleton in Hin. discriminate Hin.
    + intros _. right. left. split; [done | lia].
  - (* web_research *)
    destruct Hu as (context & block & ->). destruct Hcalls as (b & ->).
    subst nx. cbn in *.
    rewrite searches_snoc, chats_snoc. cbn [is_search is_chat].
    rewrite ?app_nil_r, ?length_app. cbn [length]. repeat split; try done; try lia.
    + intros q' b' n Hin. apply elem_of_app in Hin as [Hin | Hin]; [eauto |].
      apply list_elem_of_singleton in Hin. by injection Hin as _ _ ->.
    + intros Hnone. specialize (Hsum Hnone).
      destruct Hsum as [Hs | [[_ Hs] | [Hs _]]];
        [discriminate Hs | | discriminate Hs].
      right. right. split; [done | lia].
  - (* summarize_sources *)
    destruct Hu as [r ->]. destruct Hcalls as (req & -> & _). subst nx.
    cbn in *.
    rewrite searches_snoc, chats_snoc. cbn [is_search is_chat].
    rewrite ?app_nil_r, ?length_app. cbn [length]. repeat split; try done; try lia.
    intros q' b n Hin. apply elem_of_app in Hin as [Hin | Hin]; [eauto |].
    apply list_elem_of_singleton in Hin. discriminate Hin.
  - (* reflect_on_summary *)
    destruct Hu as [q ->]. destruct Hcalls as (req & -> & _). cbn in *.
    rewrite searches_snoc, chats_snoc. cbn [is_search is_chat].
    rewrite ?app_nil_r, ?length_app. cbn [length].
    assert (Hpresent : running_summary state ≠ None).
    { intros Hnone. specialize (Hsum Hnone).
      destruct Hsum as [Hs | [[Hs _] | [Hs _]]]; discriminate Hs. }
    repeat split; try done; try lia.
    + destruct Hnx as [-> | ->]; discriminate.
    + intros q' b n Hin. apply elem_of_app in Hin as [Hin | Hin]; [eauto |].
      apply list_elem_of_singleton in Hin. discriminate Hin.
    + destruct Hnx as [-> | ->]; cbn; lia.
    + destruct Hnx as [-> | ->]; discriminate.
  - (* finalize_summary *)
    subst nx u tr'. cbn in *. rewrite !app_nil_r.
    repeat split; try done; try lia.
    destruct (running_summary state) as [r|] eqn:Hr.
    + intros _. by exists r.
    + destruct (Hsum eq_refl) as [Hs | [[Hs _] | [Hs _]]]; discriminate Hs.
Qed.

(** A completed run has passed through reachable states only. *)
Lemma run_reachable topic limit :
  forall n state history tr final history' tr',
    reachable env config topic (Some n) state tr ->
    run env config limit n state history tr = (Ok (final, history'), tr') ->
    reachable env config topic None final tr'.
Proof.
  induction limit as [|limit IH];
    intros n state history tr final history' tr' Hreach Hrun.
  - apply run_inv in Hrun as (l & _ & _ & _ & Hl & _). discriminate Hl.
  - apply run_inv in Hrun as (l & nx & s1 & tr1 & [= ->] & Hstep & Hrun).
    pose proof (reachable_step _ _ _ _ _ _ _ _ _ Hreach Hstep) as Hreach1.
    clear Hstep Hreach.
    destruct nx as [n'|].
    + exact (IH n' s1 _ tr1 final history' tr' Hreach1 Hrun).
    + by destruct Hrun as (-> & _ & ->).
Qed.

(** A completed invocation ends in a reachable state. *)
Lemma invoke_reachable limit topic final history tr' :
  invoke env config limit topic [] = (Ok (final, history), tr') ->
  reachable env config topic None final tr'.
Proof.
  unfold invoke. destruct limit as [|limit]; intros Hrun.
  - apply lift_Ok_inv in Hrun as [Hrun _]. discriminate Hrun.
  - apply (run_reachable topic) in Hrun; [exact Hrun | constructor].
Qed.

(** Where a state of a run comes from. *)
Lemma reachable_inv topic nx state' tr' :
  reachable env config topic nx state' tr' ->
  (nx = Some generate_query_node /\ state' = initial_state topic /\ tr' = [])
  \/ exists n state tr,
       reachable env config topic (Some n) state tr
       /\ step env config n state tr = (Ok (nx, state'), tr').
Proof.
  intros Hreach. destruct Hreach as [| n state tr nx state' tr' Hreach Hstep].
  - by left.
  - right. by exists n, state, tr.
Qed.

(** The node a step came from, read off where it leads. *)
Lemma step_source n state tr nx state' tr' :
  step env config n state tr = (Ok (nx, state'), tr') ->
  match nx with
  | None => n = finalize_summary_node
  | Some finalize_summary_node => n = reflect_on_summary_node
  | Some reflect_on_summary_node => n = summarize_sources_node
  | Some summarize_sources_node => n = web_research_node
  | Some web_research_node =>
      n = generate_query_node \/ n = reflect_on_summary_node
  | Some generate_query_node => False
  end.
Proof.
  intros Hstep. apply step_next_any in Hstep.
  destruct n; try destruct Hstep as [Hstep | Hstep]; subst nx; auto.
Qed.

(** [summarize_sources] when it returns: the request it sent and the
    summary it made of the reply. *)
Lemma summarize_sources_Ok_inv c state tr u tr' :
  Groq.from_runnable_config env config = Ok c ->
  summarize_sources env config state tr = (Ok u, tr') ->
  exists recent reply,
    last (web_research_results state) = Some recent
    /\ chat_completions_create tr (summary_request c state recent) = Ok reply
    /\ u = set_running_summary (summary_text c reply)
    /\ tr' = tr ++ [ChatCall (summary_request c state recent)].
Proof.
  intros Hc. unfold summarize_sources, mbind, M_bind, lift, chat, last_item.
  destruct (last (web_research_results state)) as [recent|];
    [| intros Hrun; discriminate Hrun].
  rewrite Hc. clear Hc. fold (summary_request c state recent).
  destruct (chat_completions_create tr (summary_request c state recent))
    as [reply|e] eqn:Hreply; intros Hrun; [| discriminate Hrun].
  injection Hrun as <- <-. by exists recent, reply.
Qed.

End EngineMore.

Section EngineExtras.
Import Graph Spec Calls.
Context `{V : Validation} `{E : Externals}.
Variable env : environ.
Variable config : option RunnableConfig.

Lemma length_searches_chats tr :
  length tr = (length (searches tr) + length (chats tr))%nat.
Proof.
  induction tr as [|e tr IH]; [done |].
  unfold searches, chats in *. destruct e; cbn [length].
  - rewrite filter_cons_False by done. rewrite filter_cons_True by done.
    cbn [length]. lia.
  - rewrite filter_cons_True by done. rewrite filter_cons_False by done.
    cbn [length]. lia.
Qed.

(** Every node that returns has made exactly one call, except
    [finalize_summary], which makes none: [generate_query] and
    [reflect_on_summary] one model call in JSON mode, [summarize_sources]
    one model call in plain mode, [web_research] one search for the current
    [search_query] capped at three results. *)
Theorem each_step_makes_one_call n state tr nx state' tr' :
  step env config n state tr = (Ok (nx, state'), tr') ->
  match n with
  | web_research_node =>
      exists b, tr' = tr ++ [SearchCall (search_query state) b 3]
  | finalize_summary_node => tr' = tr
  | summarize_sources_node =>
      exists r, tr' = tr ++ [ChatCall r] /\ json_mode r = false
  | generate_query_node | reflect_on_summary_node =>
      exists r, tr' = tr ++ [ChatCall r] /\ json_mode r = true
  end.
Proof.
  intros Hstep. apply step_update in Hstep as (u & _ & Hrun & _).
  by apply run_node_calls in Hrun.
Qed.

(** Throughout a run from a fresh state the topic is the one given, both
    result sequences have as many entries as the loop counter says, and a
    summary is present from the first summarization on: it is absent only
    before [generate_query], before the first [web_research] and before
    the first [summarize_sources]. *)
Theorem run_keeps_topic_and_sequences topic nx state tr :
  reachable env config topic nx state tr ->
  research_topic state = topic
  /\ 0 <= research_loop_count state
  /\ Z.of_nat (length (web_research_results state))
     = research_loop_count state
  /\ Z.of_nat (length (sources_gathered state)) = research_loop_count state
  /\ (running_summary state = None ->
      nx = Some generate_query_node
      \/ (nx = Some web_research_node /\ research_loop_count state = 0)
      \/ (nx = Some summarize_sources_node /\ research_loop_count state = 1)).
Proof.
  intros Hreach. apply reachable_run_invariant in Hreach.
  destruct Hreach as (Ht & Hp & _ & Hw & Hs & _ & _ & _ & Hsum & _).
  auto.
Qed.

(** The calls of a run add up: at every point the searches made number the
    loop counter, none asks for more than three results, and the model
    calls made are one for the first query plus two per completed pass, the
    summary call coming before the reflection call. *)
Theorem run_call_accounting topic nx state tr :
  reachable env config topic nx state tr ->
  Z.of_nat (length (searches tr)) = research_loop_count state
  /\ (forall q b n, SearchCall q b n ∈ tr -> n = 3)
  /\ Z.of_nat (length (chats tr))
     = chats_before nx (research_loop_count state)
  /\ Z.of_nat (length tr)
     = research_loop_count state
       + chats_before nx (research_loop_count state).
Proof.
  intros Hreach. apply reachable_run_invariant in Hreach.
  destruct Hreach as (_ & _ & _ & _ & _ & Hs & Hcap & Hc & _).
  split; [exact Hs |]. split; [exact Hcap |]. split; [exact Hc |].
  rewrite length_searches_chats. lia.
Qed.

(** For any configured maximum [m] a complete run from a fresh state makes
    [max 1 (m + 1)] passes, one more than the name of the setting says, and
    at least one even when [m] is zero or negative; it runs [3 p + 2] nodes
    for [p] passes, which takes a recursion limit of [3 p + 3] at least, and
    with such a limit it completes whenever the providers answer. *)
Theorem passes_for_any_maximum c :
  Groq.from_runnable_config env config = Ok c ->
  let p := passes_for (Groq.max_web_research_loops c) in
  (forall limit topic tr final history tr',
      invoke env config limit topic tr = (Ok (final, history), tr') ->
      history.*1 = node_sequence p
      /\ length history = (3 * p + 2)%nat
      /\ web_research_counts history = seqZ 1 (Z.of_nat p)
      /\ research_loop_count final = Z.of_nat p
      /\ (3 * p + 3 <= limit)%nat)
  /\ (providers_answer ->
      forall limit topic tr,
        (3 * p + 3 <= limit)%nat ->
        exists final history tr',
          invoke env config limit topic tr = (Ok (final, history), tr'))
  /\ (Groq.max_web_research_loops c <= 0 -> p = 1%nat)
  /\ (0 <= Groq.max_web_research_loops c ->
      Z.of_nat p = Groq.max_web_research_loops c + 1).
Proof.
  intros Hc p. split; [| split; [| split]].
  - intros limit topic tr final history tr' Hrun.
    pose proof (invoke_passes env config c _ _ _ _ _ _ Hc Hrun)
      as (Hnodes & Hcounts & Hfinal & Hlimit).
    clear Hc. fold (passes_for (Groq.max_web_research_loops c)) in *.
    fold p in Hnodes, Hcounts, Hfinal, Hlimit.
    split; [exact Hnodes |]. split; [| by split].
    rewrite <- (length_fmap fst), Hnodes. clearbody p. clear.
    unfold node_sequence. cbn [length]. rewrite length_app. cbn [length].
    induction p as [|p IH]; [reflexivity |].
    cbn [replicate concat]. rewrite length_app. cbn [research_pass length].
    lia.
  - intros Hext limit topic tr Hlimit.
    by apply (invoke_total env config c).
  - clear Hc. subst p. unfold passes_for. lia.
  - clear Hc. subst p. unfold passes_for. lia.
Qed.

(** A complete run from a fresh state and no earlier calls, with [p] passes:
    it has made [p] searches and [2 p + 1] model calls and nothing else, and
    the final state holds [p] citation blocks and [p] context blocks and
    the topic it was given.  Its last two calls are the summary request of
    pass [p] and the reflection request after it, and the final summary is
    the report built from the model's reply to that summary request,
    stripped of thinking tokens when that is enabled, and from the
    deduplicated lines of the citation blocks: the summary is always
    present when the report is written. *)
Theorem complete_run_report_and_calls c limit topic final history tr' :
  Groq.from_runnable_config env config = Ok c ->
  invoke env config limit topic [] = (Ok (final, history), tr') ->
  let p := passes_for (Groq.max_web_research_loops c) in
  length (searches tr') = p
  /\ length (chats tr') = (2 * p + 1)%nat
  /\ length tr' = (3 * p + 1)%nat
  /\ length (sources_gathered final) = p
  /\ length (web_research_results final) = p
  /\ research_topic final = topic
  /\ exists state tr recent reply reflection,
      reachable env config topic (Some summarize_sources_node) state tr
      /\ research_loop_count state = Z.of_nat p
      /\ last (web_research_results state) = Some recent
      /\ chat_completions_create tr (summary_request c state recent)
         = Ok reply
      /\ tr' = tr ++ [ChatCall (summary_request c state recent);
                      ChatCall reflection]
      /\ running_summary final
         = Some (report (summary_text c reply) (sources_gathered final)).
Proof.
  intros Hc Hrun p.
  pose proof (invoke_passes env config c _ _ _ _ _ _ Hc Hrun)
    as (_ & _ & Hcount & _).
  change (research_loop_count final = Z.of_nat p) in Hcount.
  clearbody p. apply invoke_reachable in Hrun.
  pose proof (reachable_run_invariant _ _ _ _ _ _ Hrun) as Hinv.
  destruct Hinv as (Ht & _ & _ & Hw & Hs & Hsearch & _ & Hchat & _ & _).
  cbn [chats_before] in Hchat.
  split; [lia |]. split; [lia |].
  split; [rewrite length_searches_chats; lia |].
  split; [lia |]. split; [lia |]. split; [exact Ht |].
  clear Ht Hw Hs Hsearch Hchat.
  (* the last step: finalize_summary *)
  apply reachable_inv in Hrun as [(Hnx & _) | (n3 & s3 & tr3 & Hreach3 & Hstep3)];
    [discriminate Hnx |].
  pose proof (step_source _ _ _ _ _ _ _ _ Hstep3) as Hn. cbn in Hn. subst n3.
  pose proof (step_counter _ _ _ _ _ _ _ _ Hstep3) as [Hsrc3 Hk3].
  apply step_update in Hstep3 as (u3 & -> & Hcalls3 & ->).
  apply run_node_calls in Hcalls3. cbn in Hcalls3. subst tr'.
  (* before it: reflect_on_summary *)
  apply reachable_inv in Hreach3
    as [(Hnx & _) | (n2 & s2 & tr2 & Hreach2 & Hstep2)]; [discriminate Hnx |].
  pose proof (step_source _ _ _ _ _ _ _ _ Hstep2) as Hn. cbn in Hn. subst n2.
  pose proof (step_counter _ _ _ _ _ _ _ _ Hstep2) as [Hsrc2 Hk2].
  apply step_update in Hstep2 as (u2 & -> & Hcalls2 & [q ->]).
  apply run_node_calls in Hcalls2 as (reflection & -> & _).
  (* before it: summarize_sources *)
  apply reachable_inv in Hreach2
    as [(Hnx & _) | (n1 & s1 & tr1 & Hreach1 & Hstep1)]; [discriminate Hnx |].
  pose proof (step_source _ _ _ _ _ _ _ _ Hstep1) as Hn. cbn in Hn. subst n1.
  pose proof (step_counter _ _ _ _ _ _ _ _ Hstep1) as [Hsrc1 Hk1].
  apply step_update in Hstep1 as (u1 & -> & Hcalls1 & _).
  cbn [run_node] in Hcalls1.
  apply (summarize_sources_Ok_inv env config c) in Hcalls1
    as (recent & reply & Hlast & Hreply & -> & ->); [| assumption].
  clear Hc.
  exists s1, tr1, recent, reply, reflection.
  split; [exact Hreach1 |]. split; [congruence |].
  split; [exact Hlast |]. split; [exact Hreply |].
  split; [by rewrite <- app_assoc |].
  cbn. by rewrite !app_nil_r.
Qed.

End EngineExtras.

(** ** The nodes, continued *)

Section NodeExtras.
Import Graph Spec Calls.
Context `{V : Validation} `{E : Externals}.
Variable env : environ.
Variable config : option RunnableConfig.

(** After [reflect_on_summary] the search query is never empty.  Whenever
    decoding the reply returns a document, or raises an exception the
    handler names, the node returns and sets [search_query] to the query the
    reply stands for: the value under ['follow_up_query'] when the reply is
    an object holding a non-empty one, the question about the topic in
    every other case.  Either way the query set is non-empty. *)
Theorem reflect_on_summary_always_yields_query state tr c reply :
  Groq.from_runnable_config env config = Ok c ->
  chat_completions_create tr (reflection_request c state) = Ok reply ->
  (forall e, json_loads reply = Raise e ->
        reflection_handles (exn_cls e) = true) ->
  let q := follow_up_query (research_topic state) (json_loads reply) in
  reflect_on_summary env config state tr
  = (Ok (set_search_query q), tr ++ [ChatCall (reflection_request c state)])
  /\ search_query (merge state (set_search_query q)) = q
  /\ truthy q = true
  /\ (q = tell_me_more (research_topic state)
      \/ exists d,
           json_loads reply = Ok (VDict d)
           /\ assoc_get "follow_up_query" d = Some q).
Proof.
  intros Hc Hreply Hdec q.
  rewrite (reflect_on_summary_answered env config _ _ c reply) by assumption.
  clear Hc Hreply. subst q.
  destruct (json_loads reply) as [v|e] eqn:Hj.
  - split; [reflexivity |]. split; [reflexivity |].
    destruct v as [ | b | z | f | s | l | d]; try (split; [reflexivity | by left]).
    cbn. destruct (assoc_get "follow_up_query" d) as [q|] eqn:Hq;
      [| split; [reflexivity | by left]].
    destruct (truthy q) eqn:Htruthy; [| split; [reflexivity | by left]].
    split; [exact Htruthy |]. right. by exists d.
  - rewrite (Hdec e eq_refl). split; [reflexivity |].
    split; [reflexivity |]. split; [reflexivity | by left].
Qed.

(** [summarize_sources] reads the last search context first: with none
    gathered it raises [IndexError] before the configuration is resolved
    and before any call. *)
Theorem summarize_sources_needs_a_result state tr :
  web_research_results state = [] ->
  summarize_sources env config state tr
  = (Raise (Exn IndexError "list index out of range"), tr).
Proof.
  intros Hnil. unfold summarize_sources, mbind, M_bind, lift, last_item.
  by rewrite Hnil.
Qed.

(** When the configuration does not resolve, no node calls a provider: the
    resolution error comes out with the calls as they were, and routing
    raises it too. *)
Theorem no_call_when_resolution_fails state tr e :
  Groq.from_runnable_config env config = Raise e ->
  generate_query env config state tr = (Raise e, tr)
  /\ web_research env config state tr = (Raise e, tr)
  /\ reflect_on_summary env config state tr = (Raise e, tr)
  /\ (web_research_results state ≠ [] ->
      summarize_sources env config state tr = (Raise e, tr))
  /\ route_research env config state = Raise e.
Proof.
  intros Hc.
  split; [by unfold generate_query, mbind, M_bind, lift; rewrite Hc |].
  split; [by unfold web_research, mbind, M_bind, lift; rewrite Hc |].
  split; [by unfold reflect_on_summary, mbind, M_bind, lift; rewrite Hc |].
  split; [| by unfold route_research; rewrite Hc].
  intros Hne. unfold summarize_sources, mbind, M_bind, lift, last_item.
  destruct (last (web_research_results state)) eqn:Hlast.
  - by rewrite Hc.
  - apply last_None in Hlast. contradiction.
Qed.

(** A provider's failure is never taken for a parsing failure.  The calls
    stand outside the [try] blocks: an exception raised by the model call
    leaves [generate_query] and [reflect_on_summary] as it is, even when its
    class is one the handlers name, and an exception raised by the search
    leaves [web_research]; the failed call is on record. *)
Theorem provider_errors_propagate state tr c e :
  Groq.from_runnable_config env config = Ok c ->
  (chat_completions_create tr (query_writer_request c state) = Raise e ->
   generate_query env config state tr
   = (Raise e, tr ++ [ChatCall (query_writer_request c state)]))
  /\ (chat_completions_create tr (reflection_request c state) = Raise e ->
      reflect_on_summary env config state tr
      = (Raise e, tr ++ [ChatCall (reflection_request c state)]))
  /\ (tavily_search tr (search_query state) (Groq.fetch_full_page c) 3
      = Raise e ->
      web_research env config state tr
      = (Raise e,
         tr ++ [SearchCall (search_query state) (Groq.fetch_full_page c) 3])).
Proof.
  intros Hc. split; [| split]; intros Hfail.
  - unfold generate_query, mbind, M_bind, lift, chat. by rewrite Hc, Hfail.
  - unfold reflect_on_summary, mbind, M_bind, lift, chat.
    by rewrite Hc, Hfail.
  - unfold web_research, mbind, M_bind, lift, search. by rewrite Hc, Hfail.
Qed.

End NodeExtras.

(** ** The final report, continued *)

Section FinalizeExtras.
Import Graph Spec Calls Lines.

Lemma split_not_nil sep s : split sep s ≠ [].
Proof. destruct s as [|c s]; cbn; [done |]. by repeat case_match. Qed.

(** Joining what was split gives the text back. *)
Lemma join_split s : join NL (split nl s) = s.
Proof.
  induction s as [|c s IH]; [done |]. cbn [split].
  destruct (Ascii.eqb_spec c nl) as [-> | Hne].
  - pose proof (split_not_nil nl s) as Hnn.
    destruct (split nl s) as [|w ws] eqn:Hs; [done |].
    cbn [join]. by rewrite <- IH.
  - destruct (split nl s) as [|w ws] eqn:Hs; [by destruct (split_not_nil nl s) |].
    rewrite <- IH. destruct ws; reflexivity.
Qed.

Lemma split_no_newline s line :
  line ∈ split nl s -> has_newline line = false.
Proof.
  revert line. induction s as [|c s IH]; intros line; cbn [split].
  - intros Hin. apply list_elem_of_singleton in Hin as ->. reflexivity.
  - destruct (Ascii.eqb_spec c nl) as [-> | Hne].
    + intros Hin. apply elem_of_cons in Hin as [-> | Hin]; [reflexivity |].
      by apply IH.
    + destruct (split nl s) as [|w ws] eqn:Hs.
      * by destruct (split_not_nil nl s).
      * intros Hin. apply elem_of_cons in Hin as [-> | Hin].
        -- cbn [has_newline]. rewrite (proj2 (Ascii.eqb_neq c nl) Hne).
           cbn [orb]. apply IH. by left.
        -- apply IH. by right.
Qed.

Lemma split_line s : has_newline s = false -> split nl s = [s].
Proof.
  induction s as [|c s IH]; [done |]. cbn [has_newline split]. intros Hno.
  apply orb_false_iff in Hno as [Hc Hs]. rewrite Hc, (IH Hs). reflexivity.
Qed.

Lemma split_line_more line rest :
  has_newline line = false ->
  split nl (line ++ NL ++ rest) = line :: split nl rest.
Proof.
  induction line as [|c line IH]; intros Hno.
  - cbn. reflexivity.
  - cbn [has_newline] in Hno. apply orb_false_iff in Hno as [Hc Hs].
    change (split nl (String c line ++ NL ++ rest))
      with (if Ascii.eqb c nl
            then EmptyString :: split nl (line ++ NL ++ rest)
            else match split nl (line ++ NL ++ rest) with
                 | [] => [String c EmptyString]
                 | w :: ws => String c w :: ws
                 end).
    rewrite Hc. by rewrite (IH Hs).
Qed.

(** Splitting what was joined gives the lines back, when there is at least
    one and none holds a newline. *)
Lemma split_join lines :
  lines ≠ [] ->
  (forall line, line ∈ lines -> has_newline line = false) ->
  split nl (join NL lines) = lines.
Proof.
  induction lines as [|x lines IH]; [done |]. intros _ Hno.
  destruct lines as [|y lines].
  - cbn. apply split_line. apply Hno. by left.
  - change (join NL (x :: y :: lines))
      with (x ++ NL ++ join NL (y :: lines))%string.
    rewrite split_line_more by (apply Hno; by left).
    f_equal. apply IH; [done |]. intros line Hin. apply Hno. by right.
Qed.

Lemma filter_all {A} (P : A -> Prop) `{!forall x, Decision (P x)} (l : list A) :
  (forall x, x ∈ l -> P x) -> filter P l = l.
Proof.
  induction l as [|x l IH]; intros Hall; [done |].
  rewrite filter_cons_True by (apply Hall; by left).
  f_equal. apply IH. intros y Hy. apply Hall. by right.
Qed.

Lemma filter_none {A} (P : A -> Prop) `{!forall x, Decision (P x)} (l : list A) :
  (forall x, x ∈ l -> ~ P x) -> filter P l = [].
Proof.
  induction l as [|x l IH]; intros Hall; [done |].
  rewrite filter_cons_False by (apply Hall; by left).
  apply IH. intros y Hy. apply Hall. by right.
Qed.

Lemma dedup_first_NoDup l : NoDup l -> dedup_first l = l.
Proof.
  induction 1 as [|x l Hx Hnd IH]; [done |]. cbn [dedup_first].
  rewrite IH. f_equal. apply filter_all. intros y Hy ->. contradiction.
Qed.

(** Lines seen before add nothing. *)
Lemma dedup_first_app_seen l l' :
  (forall x, x ∈ l' -> x ∈ l) -> dedup_first (l ++ l') = dedup_first l.
Proof.
  induction l' as [|x l' IH] using rev_ind; intros Hseen.
  - by rewrite app_nil_r.
  - rewrite app_assoc, dedup_first_snoc.
    rewrite decide_True.
    + rewrite app_nil_r. apply IH. intros y Hy. apply Hseen.
      apply elem_of_app. by left.
    + apply elem_of_app. left. apply Hseen. apply elem_of_app. right.
      by left.
Qed.

Lemma elem_of_concat {A} (x : A) (ls : list (list A)) :
  x ∈ concat ls -> exists l, x ∈ l /\ l ∈ ls.
Proof.
  induction ls as [|l ls IH]; cbn [concat]; intros Hin.
  - by apply elem_of_nil in Hin.
  - apply elem_of_app in Hin as [Hin | Hin].
    + exists l. split; [exact Hin | by left].
    + destruct (IH Hin) as (l' & Hx & Hl). exists l'. split; [exact Hx |].
      by right.
Qed.

Lemma source_lines_facts blocks line :
  line ∈ source_lines blocks -> not_blank line /\ has_newline line = false.
Proof.
  unfold source_lines. rewrite elem_of_dedup_first, list_elem_of_filter.
  intros [Hnb Hin]. split; [exact Hnb |].
  unfold all_lines in Hin. apply elem_of_concat in Hin as (ls & Hin & Hls).
  apply list_elem_of_fmap in Hls as (b & -> & _).
  by apply split_no_newline in Hin.
Qed.

(** When no citation block holds a line that is not blank, and so when no
    block was gathered at all, the sources section is empty: the report ends
    with the sources header and a newline. *)
Theorem finalize_summary_without_sources topic query results blocks count
    summary :
  (forall line, line ∈ all_lines blocks -> ~ not_blank line) ->
  (finalize_summary
     {| research_topic := topic; search_query := query;
        web_research_results := results; sources_gathered := blocks;
        research_loop_count := count; running_summary := Some summary |}).2
  = set_running_summary
      ("## Summary" ++ NL ++ summary ++ NL ++ NL ++ " ### Sources:" ++ NL).
Proof.
  intros Hblank. unfold finalize_summary. cbn [snd sources_gathered].
  rewrite scan_sources_source_lines. unfold source_lines.
  rewrite (filter_none _ _ Hblank). reflexivity.
Qed.

Lemma elem_of_all_lines line blocks :
  line ∈ all_lines blocks <-> exists b, b ∈ blocks /\ line ∈ split nl b.
Proof.
  unfold all_lines. split.
  - intros Hin. apply elem_of_concat in Hin as (ls & Hin & Hls).
    apply list_elem_of_fmap in Hls as (b & -> & Hb). by exists b.
  - intros (b & Hb & Hin). induction blocks as [|b' blocks IH].
    + by apply elem_of_nil in Hb.
    + cbn [fmap list_fmap concat]. apply elem_of_app.
      apply elem_of_cons in Hb as [<- | Hb]; [by left | right; by apply IH].
Qed.

Lemma source_lines_round_trip blocks :
  (source_lines blocks ≠ [] ->
   split nl (join NL (source_lines blocks)) = source_lines blocks)
  /\ source_lines [join NL (source_lines blocks)] = source_lines blocks.
Proof.
  assert (Hsplit : source_lines blocks ≠ [] ->
                   split nl (join NL (source_lines blocks))
                   = source_lines blocks).
  { intros Hne. apply split_join; [exact Hne |].
    intros line Hin. by apply source_lines_facts in Hin as [_ ?]. }
  split; [exact Hsplit |].
  destruct (source_lines blocks) as [|x l] eqn:Hsl; [by vm_compute |].
  unfold source_lines at 1, all_lines. cbn [fmap list_fmap concat].
  rewrite app_nil_r, Hsplit by done.
  rewrite filter_all.
  - rewrite <- Hsl. apply dedup_first_NoDup. unfold source_lines.
    apply NoDup_dedup_first.
  - intros y Hy. rewrite <- Hsl in Hy.
    by apply source_lines_facts in Hy as [? _].
Qed.

Lemma source_lines_clean_block block :
  NoDup (split nl block) ->
  (forall line, line ∈ split nl block -> not_blank line) ->
  source_lines [block] = split nl block.
Proof.
  intros Hnd Hnb. unfold source_lines, all_lines. cbn [fmap list_fmap concat].
  rewrite app_nil_r, filter_all by done. by apply dedup_first_NoDup.
Qed.

Lemma source_lines_repeated_block blocks block :
  (forall line,
      line ∈ split nl block -> not_blank line -> line ∈ all_lines blocks) ->
  source_lines (blocks ++ [block]) = source_lines blocks.
Proof.
  intros Hseen. unfold source_lines, all_lines.
  rewrite fmap_app, concat_app, filter_app. cbn [fmap list_fmap concat].
  rewrite app_nil_r. apply dedup_first_app_seen.
  intros x Hx. apply list_elem_of_filter in Hx as [Hnb Hin].
  apply list_elem_of_filter. split; [exact Hnb |]. by apply Hseen.
Qed.

(** The report depends on the state through the lines kept and the summary
    only. *)
Lemma finalize_summary_ext state state' :
  (scan_sources (sources_gathered state')).2
  = (scan_sources (sources_gathered state)).2 ->
  running_summary state' = running_summary state ->
  (finalize_summary state').2 = (finalize_summary state).2.
Proof.
  unfold finalize_summary. cbn [snd]. by intros -> ->.
Qed.

(** The sources section that [finalize_summary] writes splits at newlines
    back into exactly the lines its scan kept, and it is a fixed point of
    the scan: a state whose only citation block is that section keeps the
    same lines, and [finalize_summary] returns the same report for it. *)
Theorem sources_section_round_trip state state' :
  let unique_sources := (scan_sources (sources_gathered state)).2 in
  let all_sources := join NL unique_sources in
  (unique_sources ≠ [] -> split nl all_sources = unique_sources)
  /\ (scan_sources [all_sources]).2 = unique_sources
  /\ (sources_gathered state' = [all_sources] ->
      running_summary state' = running_summary state ->
      (finalize_summary state').2 = (finalize_summary state).2).
Proof.
  intros unique_sources all_sources. subst all_sources unique_sources.
  rewrite !scan_sources_source_lines.
  destruct (source_lines_round_trip (sources_gathered state)) as [Hsplit Hfix].
  split; [exact Hsplit |]. split; [exact Hfix |].
  intros Hsrc Hsum. apply finalize_summary_ext; [| exact Hsum].
  by rewrite Hsrc, !scan_sources_source_lines.
Qed.

(** A single citation block whose lines are pairwise distinct and none
    blank comes out of [finalize_summary] as it went in: the scan keeps its
    lines, all of them and in order, and the sources section of the report
    is the block itself. *)
Theorem clean_block_is_kept state block :
  sources_gathered state = [block] ->
  NoDup (split nl block) ->
  (forall line, line ∈ split nl block -> not_blank line) ->
  (scan_sources (sources_gathered state)).2 = split nl block
  /\ (finalize_summary state).2
     = set_running_summary
         ("## Summary" ++ NL ++ format_opt (running_summary state) ++ NL ++ NL
          ++ " ### Sources:" ++ NL ++ block).
Proof.
  intros Hsrc Hnd Hnb.
  assert (Hscan : (scan_sources (sources_gathered state)).2 = split nl block).
  { rewrite Hsrc, scan_sources_source_lines.
    by apply source_lines_clean_block. }
  split; [exact Hscan |].
  unfold finalize_summary. cbn [snd]. rewrite Hscan, join_split.
  reflexivity.
Qed.

(** A citation block adds nothing to the report when each of its lines is
    blank or stands in a block gathered before it: with or without that
    block at the end, the scan keeps the same lines and [finalize_summary]
    returns the same report. *)
Theorem repeated_block_adds_nothing state state' block :
  sources_gathered state' = sources_gathered state ++ [block] ->
  running_summary state' = running_summary state ->
  (forall line,
      line ∈ split nl block -> not_blank line ->
      exists earlier,
        earlier ∈ sources_gathered state /\ line ∈ split nl earlier) ->
  (scan_sources (sources_gathered state')).2
  = (scan_sources (sources_gathered state)).2
  /\ (finalize_summary state').2 = (finalize_summary state).2.
Proof.
  intros Hsrc Hsum Hseen.
  assert (Hscan : (scan_sources (sources_gathered state')).2
                  = (scan_sources (sources_gathered state)).2).
  { rewrite Hsrc, !scan_sources_source_lines.
    apply source_lines_repeated_block. intros line Hin Hnb.
    apply elem_of_all_lines. by apply Hseen. }
  split; [exact Hscan |]. by apply finalize_summary_ext.
Qed.

End FinalizeExtras.

(** ** The entry points, continued *)

Section AppExtras.
Import Graph App.

Lemma startswith_app p s : startswith p (p ++ s) = true.
Proof.
  induction p as [|a p IH]; [by destruct s |].
  change (startswith (String a p) (String a p ++ s))
    with (Ascii.eqb a a && startswith p (p ++ s)).
  by rewrite Ascii.eqb_refl, IH.
Qed.

(** The ways [run_research] can end. *)
Lemma run_research_cases graph_invoke dotenv env topic tr :
  let env' := load_dotenv dotenv env in
  (exists name msg,
      getenv_missing env' name = true
      /\ (name = "GROQ_API_KEY" \/ name = "TAVILY_API_KEY")
      /\ contains name msg = true
      /\ run_research graph_invoke dotenv env topic tr
         = (Raise (Exn ValueError msg), tr))
  \/ (getenv_missing env' "GROQ_API_KEY" = false
      /\ getenv_missing env' "TAVILY_API_KEY" = false
      /\ ((exists v tr',
              run_research graph_invoke dotenv env topic tr = (Ok v, tr'))
          \/ (exists msg tr',
                 run_research graph_invoke dotenv env topic tr
                 = (Raise (Exn Exception ("Research failed: " ++ msg)), tr'))
          \/ (exists e tr',
                 is_Exception (exn_cls e) = false
                 /\ graph_invoke env' topic (Some app_config) tr
                    = (Raise e, tr')
                 /\ run_research graph_invoke dotenv env topic tr
                    = (Raise e, tr')))).
Proof.
  intros env'. unfold run_research. fold env'.
  destruct (getenv_missing env' "GROQ_API_KEY") eqn:Hg.
  { left. exists "GROQ_API_KEY". eexists. split; [exact Hg |].
    split; [by left |]. split; [| reflexivity]. by vm_compute. }
  destruct (getenv_missing env' "TAVILY_API_KEY") eqn:Ht.
  { left. exists "TAVILY_API_KEY". eexists. split; [exact Ht |].
    split; [by right |]. split; [| reflexivity]. by vm_compute. }
  right. split; [reflexivity |]. split; [reflexivity |].
  unfold mbind, M_bind.
  destruct (graph_invoke env' topic (Some app_config) tr) as [[out|e] tr'].
  - destruct (out !! "running_summary") as [v|]; cbn.
    + left. by eexists _, _.
    + right. left. by eexists _, _.
  - destruct (is_Exception (exn_cls e)) eqn:He.
    + right. left. by eexists _, _.
    + right. right. by exists e, tr'.
Qed.

(** What a caller of [run_research] can catch.  The exception is a
    [ValueError], the generic [Exception], or one that is no [Exception] at
    all (an interrupt), passed on as the workflow raised it.  A [ValueError]
    always means that a key was missing and that nothing was called, even
    if the workflow itself would raise a [ValueError]; an [Exception] always
    carries a message that begins with ["Research failed: "]. *)
Theorem run_research_raises_only graph_invoke dotenv env topic tr e tr' :
  run_research graph_invoke dotenv env topic tr = (Raise e, tr') ->
  (exn_cls e = ValueError
   \/ exn_cls e = Exception
   \/ is_Exception (exn_cls e) = false)
  /\ (exn_cls e = ValueError ->
      tr' = tr
      /\ (getenv_missing (load_dotenv dotenv env) "GROQ_API_KEY" = true
          \/ getenv_missing (load_dotenv dotenv env) "TAVILY_API_KEY" = true))
  /\ (exn_cls e = Exception ->
      startswith "Research failed: " (exn_str e) = true).
Proof.
  intros Hrun.
  destruct (run_research_cases graph_invoke dotenv env topic tr)
    as [(name & msg & Hmiss & Hname & _ & Hr)
       | (Hg & Ht & [(v & tr1 & Hr) | [(msg & tr1 & Hr) | (e1 & tr1 & He & _ & Hr)]])];
    rewrite Hr in Hrun; clear Hr.
  - injection Hrun as <- <-. cbn. split; [by left |]. split.
    + intros _. split; [reflexivity |].
      destruct Hname as [-> | ->]; auto.
    + discriminate.
  - discriminate Hrun.
  - injection Hrun as <- <-. cbn [exn_cls exn_str].
    split; [by right; left |]. split.
    + discriminate.
    + intros _. apply startswith_app.
  - injection Hrun as <- <-. split; [by right; right |]. split.
    + intros Hcls. rewrite Hcls in He. discriminate He.
    + intros Hcls. rewrite Hcls in He. discriminate He.
Qed.

(** A key that is set but empty counts as missing: [run_research] raises
    the same error as for an unset key, before any call. *)
Theorem empty_key_counts_as_missing graph_invoke dotenv env topic tr name :
  name = "GROQ_API_KEY"
  \/ (name = "TAVILY_API_KEY"
      /\ getenv_missing (load_dotenv dotenv env) "GROQ_API_KEY" = false) ->
  load_dotenv dotenv env !! name = Some "" ->
  exists msg,
    run_research graph_invoke dotenv env topic tr
    = (Raise (Exn ValueError msg), tr)
    /\ contains name msg = true.
Proof.
  intros Hname Hempty.
  assert (Hmiss : getenv_missing (load_dotenv dotenv env) name = true)
    by (unfold getenv_missing; by rewrite Hempty).
  unfold run_research. destruct Hname as [-> | [-> Hg]].
  - rewrite Hmiss. eexists. split; [reflexivity | by vm_compute].
  - rewrite Hg, Hmiss. eexists. split; [reflexivity | by vm_compute].
Qed.

End AppExtras.

(** ** The scripts *)

Section CliExtras.
Import Graph App PyInt Cli Spec Calls.
Context `{V : Validation} `{E : Externals} `{B : Builtins}.
Variable stdin : nat -> result string.
Variable dotenv env : environ.

(** *** [app.py] *)

Section AppMainFacts.
Variable graph_invoke :
  environ -> string -> option RunnableConfig -> M (gmap string value).
Variable console : list app_line -> app_line -> result unit.

Local Abbreviation print := (print console).
Local Abbreviation app_body := (app_body stdin dotenv env graph_invoke console).
Local Abbreviation app_handlers := (app_handlers console).
Local Abbreviation app_main := (app_main stdin dotenv env graph_invoke console).
Local Abbreviation from_console := (from_console console).

(** The two ways a [print] ends. *)
Lemma print_cases l (st : list app_line * list event) :
  (console st.1 l = Ok tt /\ print l st = (Ok tt, (st.1 ++ [l], st.2)))
  \/ exists e, console st.1 l = Raise e /\ print l st = (Raise e, st).
Proof.
  unfold Cli.print. destruct (console st.1 l) as [[]|e]; eauto.
Qed.

Lemma print_accepted l out tr :
  console out l = Ok tt -> print l (out, tr) = (Ok tt, (out ++ [l], tr)).
Proof. unfold Cli.print. cbn. by intros ->. Qed.

Lemma print_refused l out tr e :
  console out l = Raise e -> print l (out, tr) = (Raise e, (out, tr)).
Proof. unfold Cli.print. cbn. by intros ->. Qed.

Lemma script_bind_Ok {X Y} (m : script X) (k : X -> script Y) st a st1 :
  m st = (Ok a, st1) -> (m ≫= k) st = k a st1.
Proof. unfold mbind, script_bind. by intros ->. Qed.

Lemma script_bind_Raise {X Y} (m : script X) (k : X -> script Y) st e st1 :
  m st = (Raise e, st1) -> (m ≫= k) st = (Raise e, st1).
Proof. unfold mbind, script_bind. by intros ->. Qed.

Lemma script_bind_Raise_inv {X Y} (m : script X) (k : X -> script Y)
    st e st' :
  (m ≫= k) st = (Raise e, st') ->
  m st = (Raise e, st') \/ exists a st1, m st = (Ok a, st1)
                                          /\ k a st1 = (Raise e, st').
Proof.
  unfold mbind, script_bind. destruct (m st) as [[a|e1] st1]; intros Hr.
  - right. by exists a, st1.
  - left. by injection Hr as -> ->.
Qed.

Lemma print_Raise_inv l st e st' :
  print l st = (Raise e, st') -> from_console e.
Proof.
  destruct (print_cases l st) as [[_ ->] | (e1 & He & ->)];
    [discriminate |].
  intros [= <- _]. by exists st.1, l.
Qed.

(** What the [try] block can raise: what a [print] raised, what the prompt
    raised, or what [run_research] raised. *)
Lemma app_body_Raise_inv st e st' :
  app_body st = (Raise e, st') ->
  from_console e
  \/ stdin 0%nat = Raise e
  \/ exists topic tr tr',
       run_research graph_invoke dotenv env topic tr = (Raise e, tr').
Proof.
  unfold Cli.app_body. intros Hr.
  apply script_bind_Raise_inv in Hr as [Hr | (line & st1 & Hin & Hr)].
  { unfold input in Hr. right. left. by injection Hr as -> _. }
  destruct (negb (nonempty (strip line))).
  { left. by apply print_Raise_inv in Hr. }
  do 3 (apply script_bind_Raise_inv in Hr as [Hr | (? & ? & _ & Hr)];
        [left; by apply print_Raise_inv in Hr |]).
  apply script_bind_Raise_inv in Hr as [Hr | (summary & st2 & _ & Hr)].
  { right. right. unfold call in Hr.
    destruct (run_research _ _ _ _ _) as [r tr'] eqn:Hrun.
    injection Hr as -> _. by eexists _, _, _. }
  do 2 (apply script_bind_Raise_inv in Hr as [Hr | (? & ? & _ & Hr)];
        [left; by apply print_Raise_inv in Hr |]).
  left. by apply print_Raise_inv in Hr.
Qed.

(** What the handlers let out: what a [print] of theirs raised, or the
    exception they were given when no clause names its class. *)
Lemma app_handlers_Raise_inv e0 st e st' :
  app_handlers e0 st = (Raise e, st') ->
  from_console e
  \/ (e = e0 /\ is_Exception (exn_cls e) = false
      /\ exn_cls e ≠ KeyboardInterrupt).
Proof.
  unfold Cli.app_handlers. intros Hr.
  destruct (is_ValueError (exn_cls e0)).
  { left. apply script_bind_Raise_inv in Hr as [Hr | (? & ? & _ & Hr)];
      by apply print_Raise_inv in Hr. }
  destruct (is_Exception (exn_cls e0)) eqn:Hexc.
  { left. apply script_bind_Raise_inv in Hr as [Hr | (? & ? & _ & Hr)];
      by apply print_Raise_inv in Hr. }
  destruct e0 as [cls msg]. cbn in *.
  destruct cls; try discriminate Hexc.
  - left. by apply print_Raise_inv in Hr.
  - right. injection Hr as <- _. by split.
Qed.

(** What [main] of [app.py] lets out.  An exception leaves it only when a
    [print] raised it, in the banner before the [try], in the [try] block
    with a class no clause names, or in a clause, or when the prompt or the
    research raised one that is neither an [Exception] nor a
    [KeyboardInterrupt], such as [SystemExit].  In particular a banner that
    the console cannot show ends the script with that exception, whatever
    its class.  On a console that takes every line nothing that is an
    [Exception] or an interrupt leaves [main]; a topic that is blank once
    stripped ends the script before anything is called, and an interrupt at
    the prompt is reported as a cancellation. *)
Theorem app_main_catches_everything :
  (forall st e st',
      app_main st = (Raise e, st') ->
      from_console e
      \/ (is_Exception (exn_cls e) = false
          /\ exn_cls e ≠ KeyboardInterrupt
          /\ (stdin 0%nat = Raise e
              \/ exists topic tr tr',
                   graph_invoke (load_dotenv dotenv env) topic
                     (Some app_config) tr
                   = (Raise e, tr'))))
  /\ (forall out tr e,
         console out Title = Raise e ->
         app_main (out, tr) = (Raise e, (out, tr)))
  /\ ((forall out l, console out l = Ok tt) ->
      (forall tr line,
          stdin 0%nat = Ok line -> nonempty (strip line) = false ->
          app_main ([], tr) = (Ok tt, ([Title; DoubleRule; NoTopic], tr)))
      /\ (forall tr msg,
             stdin 0%nat = Raise (Exn KeyboardInterrupt msg) ->
             app_main ([], tr)
             = (Ok tt, ([Title; DoubleRule; Cancelled], tr)))).
Proof.
  split; [| split].
  - intros st e st' Hr. unfold Cli.app_main in Hr.
    do 2 (apply script_bind_Raise_inv in Hr as [Hr | (? & ? & _ & Hr)];
          [left; by apply print_Raise_inv in Hr |]).
    unfold try_script in Hr.
    match type of Hr with
    | context [Cli.app_body ?a ?b ?c ?d ?f ?st] =>
        destruct (Cli.app_body a b c d f st) as [[[]|e0] st1] eqn:Hbody
    end; [discriminate Hr |].
    apply app_handlers_Raise_inv in Hr as [Hr | (-> & Hexc & Hint)];
      [by left |].
    apply app_body_Raise_inv in Hbody
      as [Hc | [Hin | (topic & tr & tr' & Hrun)]]; [by left | |].
    + right. by repeat split; [..| left].
    + right. split; [exact Hexc |]. split; [exact Hint |]. right.
      destruct (run_research_cases graph_invoke dotenv env topic tr)
        as [(name & msg & _ & _ & _ & Hr)
           | (_ & _ & [(v & tr1 & Hr) | [(msg & tr1 & Hr)
                                        | (e1 & tr1 & _ & Hg & Hr)]])];
        rewrite Hr in Hrun; clear Hr.
      * injection Hrun as <- _. discriminate Hexc.
      * discriminate Hrun.
      * injection Hrun as <- _. discriminate Hexc.
      * injection Hrun as -> ->. by exists topic, tr, tr'.
  - intros out tr e Hrefused. unfold Cli.app_main.
    apply script_bind_Raise. by apply print_refused.
  - intros Hok. split.
    + intros tr line Hline Hblank. unfold Cli.app_main.
      rewrite (script_bind_Ok _ _ _ tt ([Title], tr))
        by (apply (print_accepted _ []); apply Hok).
      rewrite (script_bind_Ok _ _ _ tt ([Title; DoubleRule], tr))
        by (apply (print_accepted _ [Title]); apply Hok).
      unfold try_script, Cli.app_body.
      rewrite (script_bind_Ok _ _ _ line ([Title; DoubleRule], tr))
        by (unfold input; by rewrite Hline).
      rewrite Hblank. cbn [negb].
      by rewrite (print_accepted _ [Title; DoubleRule]) by apply Hok.
    + intros tr msg Hint. unfold Cli.app_main.
      rewrite (script_bind_Ok _ _ _ tt ([Title], tr))
        by (apply (print_accepted _ []); apply Hok).
      rewrite (script_bind_Ok _ _ _ tt ([Title; DoubleRule], tr))
        by (apply (print_accepted _ [Title]); apply Hok).
      unfold try_script, Cli.app_body.
      rewrite (script_bind_Raise _ _ _ (Exn KeyboardInterrupt msg)
                 ([Title; DoubleRule], tr))
        by (unfold input; by rewrite Hint).
      unfold Cli.app_handlers. cbn.
      by rewrite (print_accepted _ [Title; DoubleRule]) by apply Hok.
Qed.

(** The handlers on a console that takes every line. *)
Lemma app_handlers_accepting e out tr :
  (forall out l, console out l = Ok tt) ->
  app_handlers e (out, tr)
  = if is_ValueError (exn_cls e)
    then (Ok tt,
          (out ++ [ConfigurationErrorLine (exn_str e); CheckVariables], tr))
    else if is_Exception (exn_cls e)
    then (Ok tt, (out ++ [ResearchErrorLine (exn_str e); CheckKeys], tr))
    else match exn_cls e with
         | KeyboardInterrupt => (Ok tt, (out ++ [Cancelled], tr))
         | _ => (Raise e, (out, tr))
         end.
Proof.
  intros Hok. unfold Cli.app_handlers, Cli.print, mbind, script_bind.
  destruct e as [cls msg].
  destruct cls; cbn; rewrite ?Hok; cbn; rewrite ?Hok; cbn;
    rewrite <- ?app_assoc; reflexivity.
Qed.

(** [main] on a console that takes every line, once a topic is entered. *)
Lemma app_main_accepting tr line :
  (forall out l, console out l = Ok tt) ->
  stdin 0%nat = Ok line ->
  nonempty (strip line) = true ->
  let started :=
    [Title; DoubleRule; StartingOn (strip line); MayTakeMinutes; SingleRule] in
  app_main ([], tr)
  = match run_research graph_invoke dotenv env (strip line) tr with
    | (Ok summary, tr') =>
        (Ok tt, (started ++ [Complete; DoubleRule; Summary summary], tr'))
    | (Raise e, tr') => app_handlers e (started, tr')
    end.
Proof.
  intros Hok Hline Htopic started. subst started.
  unfold Cli.app_main, Cli.app_body, try_script, call, input, mbind,
    script_bind, Cli.print.
  cbn [fst snd app]. rewrite !Hok. cbn [fst snd app].
  rewrite Hline, Htopic. cbn [negb fst snd app].
  rewrite !Hok. cbn [fst snd app].
  destruct (run_research graph_invoke dotenv env (strip line) tr)
    as [[summary|e] tr']; [| reflexivity].
  repeat (rewrite Hok; cbn [fst snd app]). reflexivity.
Qed.

(** When [main] of [app.py] reports a configuration error.  With a topic
    entered and a console that takes every line, it does so exactly when
    one of the two keys is missing: it has then shown the banner, the start
    notice and the two lines of the report, and nothing was called.  But a
    [ValueError] that a [print] raises inside the [try] block is reported
    in the same words: when both keys are set, the research returns, and
    the console refuses the summary with an exception that is a
    [ValueError], as [UnicodeEncodeError] is, [main] reports a configuration
    error after the research was done. *)
Theorem app_main_configuration_error tr line :
  stdin 0%nat = Ok line ->
  nonempty (strip line) = true ->
  let topic := strip line in
  let env' := load_dotenv dotenv env in
  let missing :=
    getenv_missing env' "GROQ_API_KEY" || getenv_missing env' "TAVILY_API_KEY" in
  let started :=
    [Title; DoubleRule; StartingOn topic; MayTakeMinutes; SingleRule] in
  ((forall out l, console out l = Ok tt) ->
   (missing = true ->
    exists msg,
      app_main ([], tr)
      = (Ok tt,
         (started ++ [ConfigurationErrorLine msg; CheckVariables], tr)))
   /\ (missing = false ->
       forall msg, ConfigurationErrorLine msg ∉ (app_main ([], tr)).2.1))
  /\ (forall summary tr' e,
         (forall out l, (forall v, l ≠ Summary v) -> console out l = Ok tt) ->
         run_research graph_invoke dotenv env topic tr = (Ok summary, tr') ->
         console (started ++ [Complete; DoubleRule]) (Summary summary)
         = Raise e ->
         is_ValueError (exn_cls e) = true ->
         missing = false
         /\ app_main ([], tr)
            = (Ok tt,
               (started ++ [Complete; DoubleRule;
                            ConfigurationErrorLine (exn_str e);
                            CheckVariables],
                tr'))).
Proof.
  intros Hline Htopic topic env' missing started. split.
  - intros Hok.
    pose proof (app_main_accepting tr line Hok Hline Htopic) as Hmain.
    cbv zeta in Hmain. fold topic in Hmain. fold started in Hmain.
    destruct (run_research_cases graph_invoke dotenv env topic tr)
      as [(name & msg & Hmiss & Hname & _ & Hr)
         | (Hg & Ht & [(v & tr1 & Hr) | [(msg & tr1 & Hr)
                                        | (e1 & tr1 & He & _ & Hr)]])];
      rewrite Hr in Hmain; clear Hr;
      rewrite ?app_handlers_accepting in Hmain by assumption;
      cbn [exn_cls exn_str is_ValueError is_Exception] in Hmain.
    + split.
      * intros _. by exists msg.
      * intros Hfalse. exfalso. subst missing env'.
        apply orb_false_iff in Hfalse as [Hg Ht].
        destruct Hname as [-> | ->]; congruence.
    + split; [subst missing env'; rewrite Hg, Ht; discriminate |].
      intros _ msg Hin. rewrite Hmain in Hin. cbn in Hin.
      repeat (apply elem_of_cons in Hin as [Hin | Hin]; [discriminate Hin |]).
      by apply elem_of_nil in Hin.
    + split; [subst missing env'; rewrite Hg, Ht; discriminate |].
      intros _ msg' Hin. rewrite Hmain in Hin. cbn in Hin.
      repeat (apply elem_of_cons in Hin as [Hin | Hin]; [discriminate Hin |]).
      by apply elem_of_nil in Hin.
    + split; [subst missing env'; rewrite Hg, Ht; discriminate |].
      intros _ msg' Hin. rewrite Hmain in Hin. clear Hmain.
      destruct e1 as [cls msg1]. cbn in He.
      destruct cls; try discriminate He; cbn in Hin;
        repeat (apply elem_of_cons in Hin as [Hin | Hin];
                [discriminate Hin |]);
        by apply elem_of_nil in Hin.
  - intros summary tr' e Hok Hrun Hrefused Hcls. split.
    + destruct (run_research_cases graph_invoke dotenv env topic tr)
        as [(name & msg & _ & _ & _ & Hr) | (Hg & Ht & _)].
      * rewrite Hr in Hrun. discriminate Hrun.
      * subst missing env'. by rewrite Hg, Ht.
    + subst started topic.
      unfold Cli.app_main, Cli.app_body, try_script, call, input, mbind,
        script_bind, Cli.print.
      cbn [fst snd app].
      rewrite !Hok by (intros; discriminate). cbn [fst snd app].
      rewrite Hline, Htopic. cbn [negb fst snd app].
      rewrite !Hok by (intros; discriminate). cbn [fst snd app].
      rewrite Hrun. cbn [fst snd app].
      repeat (rewrite Hok by (intros; discriminate); cbn [fst snd app]).
      cbn [app] in Hrefused. rewrite Hrefused.
      unfold Cli.app_handlers, Cli.print, mbind, script_bind.
      rewrite Hcls. cbn [fst snd app].
      repeat (rewrite Hok by (intros; discriminate); cbn [fst snd app]).
      by rewrite <- ?app_assoc.
Qed.

End AppMainFacts.

(** *** [example_usage.py] *)

Lemma all_chars_impl (p q : ascii -> bool) s :
  (forall c, p c = true -> q c = true) ->
  all_chars p s = true -> all_chars q s = true.
Proof.
  intros Hpq. induction s as [|c s IH]; [done |]. cbn.
  intros Hall. apply andb_true_iff in Hall as [Hc Hs].
  by rewrite (Hpq c Hc), (IH Hs).
Qed.

Lemma ascii_digits_isdigit s : ascii_digits s = true -> isdigit s = true.
Proof.
  unfold ascii_digits, isdigit. intros Hd.
  apply andb_true_iff in Hd as [Hne Hall]. rewrite Hne. cbn.
  apply (all_chars_impl ascii_digit); [| exact Hall].
  intros c Hc. unfold isdigit_char. unfold ascii_digit in Hc.
  by rewrite Hc.
Qed.

(** A choice written in ASCII digits. *)
Lemma select_topic_digits line :
  stdin 0%nat = Ok line ->
  ascii_digits (strip line) = true ->
  (String.length (strip line) <= 4300)%nat ->
  select_topic stdin
  = if (1 <=? decimal (strip line)) && (decimal (strip line) <=? 4)
    then match research_topics !! Z.to_nat (decimal (strip line) - 1) with
         | Some topic => Ok (Chosen topic)
         | None => Raise (Exn IndexError "list index out of range")
         end
    else select_other stdin (strip line).
Proof.
  intros Hline Hd Hlen. unfold select_topic. rewrite Hline. cbn.
  by rewrite (ascii_digits_isdigit _ Hd), (py_int_decimal _ Hd Hlen).
Qed.

Lemma select_topic_listed line :
  stdin 0%nat = Ok line ->
  ascii_digits (strip line) = true ->
  (String.length (strip line) <= 4300)%nat ->
  1 <= decimal (strip line) <= 4 ->
  exists topic,
    research_topics !! Z.to_nat (decimal (strip line) - 1) = Some topic
    /\ select_topic stdin = Ok (Chosen topic).
Proof.
  intros Hline Hd Hlen Hrange.
  rewrite (select_topic_digits line) by assumption.
  destruct (1 <=? decimal (strip line)) eqn:H1; [| lia].
  destruct (decimal (strip line) <=? 4) eqn:H4; [| lia]. cbn [andb].
  assert (Hidx : (Z.to_nat (decimal (strip line) - 1) < 4)%nat) by lia.
  destruct (Z.to_nat (decimal (strip line) - 1)) as [|[|[|[|n]]]];
    try lia; eexists; split; reflexivity.
Qed.

(** The menu of [example_usage.py].  A choice written in ASCII digits picks
    the topic of that number when the number is 1 to 4, leading zeros and
    surrounding blanks notwithstanding; any other number is an invalid
    choice unless the text is exactly ["5"], so ["05"] is refused where
    ["03"] is accepted; and a choice that is not a digit string, the empty
    one included, is invalid. *)
Theorem menu_selection line :
  stdin 0%nat = Ok line ->
  let choice := strip line in
  (ascii_digits choice = true -> (String.length choice <= 4300)%nat ->
   1 <= decimal choice <= 4 ->
   exists topic,
     research_topics !! Z.to_nat (decimal choice - 1) = Some topic
     /\ select_topic stdin = Ok (Chosen topic))
  /\ (ascii_digits choice = true -> (String.length choice <= 4300)%nat ->
      ~ 1 <= decimal choice <= 4 ->
      choice ≠ "5" ->
      select_topic stdin = Ok (Stopped InvalidChoice))
  /\ (isdigit choice = false ->
      select_topic stdin = Ok (Stopped InvalidChoice)).
Proof.
  intros Hline choice. split; [| split].
  - intros Hd Hlen Hrange. by apply select_topic_listed.
  - intros Hd Hlen Hrange Hfive.
    rewrite (select_topic_digits line) by assumption. fold choice.
    assert ((1 <=? decimal choice) && (decimal choice <=? 4) = false) as ->.
    { apply andb_false_iff. rewrite Z.leb_gt, Z.leb_gt. lia. }
    unfold select_other.
    destruct (String.eqb_spec choice "5"); [contradiction | reflexivity].
  - intros Hnd. unfold select_topic. rewrite Hline. cbn. fold choice.
    rewrite Hnd. unfold select_other.
    destruct (String.eqb_spec choice "5") as [Heq | _]; [| reflexivity].
    rewrite Heq in Hnd. discriminate Hnd.
Qed.


(** The key that [example_usage.py] insists on reaches the Groq-style
    configuration: with [GROQ_API_KEY] set and no other variable named after
    a field, its [config] resolves to the Llama model, temperature 0.1, a
    maximum of 3, and the key as [groq_api_key]. *)
Theorem example_configuration_resolves (env' : environ) key :
  env' !! "GROQ_API_KEY" = Some key ->
  (forall name,
      name ∈ Groq.model_fields -> name ≠ "groq_api_key" ->
      env' !! upper name = None) ->
  Groq.from_runnable_config env' (Some example_config)
  = Ok {| Groq.max_web_research_loops := 3;
          Groq.groq_model := "llama-3.3-70b-versatile";
          Groq.groq_api_key := Some key;
          Groq.search_api := "tavily";
          Groq.fetch_full_page := true;
          Groq.temperature := 0.1%float;
          Groq.strip_thinking_tokens := true |}.
Proof.
  intros Hkey Hnone.
  unfold Groq.from_runnable_config, Groq.construct, Resolver.field.
  rewrite !values_lookup_field by solve_elem.
  change (upper "groq_api_key") with "GROQ_API_KEY". rewrite Hkey.
  rewrite !Hnone by (solve_elem || discriminate).
  unfold override. eval_lookups. cbn.
  rewrite validate_int_int, !validate_bool_bool, validate_float_float.
  unfold Resolver.validate_optional. cbn.
  by rewrite !validate_str_str.
Qed.


End CliExtras.

(** ** The further statements at concrete inputs *)

Section MoreInstances.
Import Graph App Demo Spec Calls Lines PyInt Cli Fixtures.

Ltac no_field_variable :=
  let name := fresh "name" in
  let Hin := fresh "Hin" in
  intros name Hin; apply list_elem_of_In in Hin; cbn in Hin;
  intuition (subst; vm_compute; try reflexivity; try discriminate).

Lemma home_only_no_groq_variable :
  forall name,
    name ∈ Groq.model_fields ->
    ({["HOME" := "/root"]} : environ) !! upper name = None.
Proof. no_field_variable. Qed.

Lemma home_only_no_openai_variable :
  forall name,
    name ∈ OpenAI.model_fields ->
    ({["HOME" := "/root"]} : environ) !! upper name = None.
Proof. no_field_variable. Qed.

Lemma defaults_without_overrides_witness :
  @Groq.from_runnable_config lax_validation {["HOME" := "/root"]} None
  = Ok {| Groq.max_web_research_loops := 3;
          Groq.groq_model := "llama-3.3-70b-versatile";
          Groq.groq_api_key := None;
          Groq.search_api := "tavily";
          Groq.fetch_full_page := true;
          Groq.temperature := 0%float;
          Groq.strip_thinking_tokens := true |}.
Proof.
  exact (proj1 (@defaults_without_overrides lax_validation
                  {["HOME" := "/root"]}
                  home_only_no_groq_variable home_only_no_openai_variable)).
Defined.

(** An override of [None] and an undeclared key against no override. *)
Lemma overrides_read_through_declared_fields_witness :
  @Groq.from_runnable_config lax_validation ∅
    (Some {| configurable :=
               Some {["groq_model" := VNone; "verbose" := VBool true]} |})
  = @Groq.from_runnable_config lax_validation ∅
      (Some {| configurable := Some ∅ |}).
Proof.
  refine (proj1 (@overrides_read_through_declared_fields lax_validation ∅
                   {["groq_model" := VNone; "verbose" := VBool true]} ∅ _)).
  intros name Hin. apply list_elem_of_In in Hin. cbn in Hin.
  intuition (subst; vm_compute; reflexivity).
Defined.

Lemma search_api_variable_must_be_tavily_witness :
  ({["SEARCH_API" := "duckduckgo"]} : environ) !! "SEARCH_API"
  = Some "duckduckgo"
  /\ @Groq.from_runnable_config lax_validation
       {["SEARCH_API" := "duckduckgo"]} (Some app_config)
     = Resolver.validation_error.
Proof.
  split; [reflexivity |].
  refine (proj1 (@search_api_variable_must_be_tavily lax_validation
                   {["SEARCH_API" := "duckduckgo"]} (Some app_config)
                   "duckduckgo" eq_refl _)).
  discriminate.
Defined.

(** The first search of a run. *)
Lemma each_step_makes_one_call_witness :
  exists nx state' tr' b,
    @step lax_validation (scripted (fun _ => "not json")) ∅ (Some app_config)
      web_research_node (initial_state "Quantum Computing") []
    = (Ok (nx, state'), tr')
    /\ tr' = [] ++ [SearchCall VNone b 3].
Proof.
  destruct (@step lax_validation (scripted (fun _ => "not json")) ∅
              (Some app_config) web_research_node
              (initial_state "Quantum Computing") [])
    as [[[nx state']|e] tr'] eqn:Hstep.
  - exists nx, state', tr'.
    destruct (@each_step_makes_one_call lax_validation _ _ _ _ _ _ _ _ _ Hstep)
      as [b ->].
    exists b. split; reflexivity.
  - exfalso. vm_compute in Hstep. discriminate Hstep.
Defined.

(** A complete run of the scripted workflow: four passes. *)
Lemma demo_complete_run :
  exists final history tr',
    @invoke lax_validation (scripted (fun _ => "not json")) ∅
      (Some app_config) 25 "Quantum Computing" []
    = (Ok (final, history), tr')
    /\ research_loop_count final = 4.
Proof.
  destruct (@invoke lax_validation (scripted (fun _ => "not json")) ∅
              (Some app_config) 25 "Quantum Computing" [])
    as [[[final history]|e] tr'] eqn:Hrun.
  - exists final, history, tr'. split; [reflexivity |].
    exact (proj1 (proj2 (proj2
             (@invoke_passes lax_validation _ _ _ demo_configuration _ _ _ _
                _ _ demo_configuration_resolved Hrun)))).
  - exfalso. vm_compute in Hrun. discriminate Hrun.
Qed.

(** The final state of that run: four blocks of each kind. *)
Lemma run_keeps_topic_and_sequences_witness :
  exists final tr',
    @reachable lax_validation (scripted (fun _ => "not json")) ∅
      (Some app_config) "Quantum Computing" None final tr'
    /\ research_loop_count final = 4
    /\ research_topic final = "Quantum Computing"
    /\ length (web_research_results final) = 4%nat
    /\ length (sources_gathered final) = 4%nat.
Proof.
  destruct demo_complete_run as (final & history & tr' & Hrun & Hcount).
  apply invoke_reachable in Hrun.
  exists final, tr'. split; [exact Hrun |]. split; [exact Hcount |].
  destruct (@run_keeps_topic_and_sequences lax_validation _ _ _ _ _ _ _ Hrun)
    as (Ht & _ & Hw & Hs & _).
  rewrite Hcount in Hw, Hs. split; [exact Ht |]. split; lia.
Defined.

(** The calls of that run: four searches and nine model calls. *)
Lemma run_call_accounting_witness :
  exists final tr',
    @reachable lax_validation (scripted (fun _ => "not json")) ∅
      (Some app_config) "Quantum Computing" None final tr'
    /\ research_loop_count final = 4
    /\ length (searches tr') = 4%nat
    /\ length (chats tr') = 9%nat
    /\ length tr' = 13%nat.
Proof.
  destruct demo_complete_run as (final & history & tr' & Hrun & Hcount).
  apply invoke_reachable in Hrun.
  exists final, tr'. split; [exact Hrun |]. split; [exact Hcount |].
  destruct (@run_call_accounting lax_validation _ _ _ _ _ _ _ Hrun)
    as (Hs & _ & Hc & Hall).
  rewrite Hcount in Hs, Hc, Hall. cbn [chats_before] in Hc, Hall.
  split; [lia |]. split; lia.
Defined.

(** A maximum of zero: one pass, five nodes, and a run that completes
    within a limit of six. *)
Lemma passes_for_any_maximum_witness :
  exists c final history tr',
    @Groq.from_runnable_config lax_validation
      {["MAX_WEB_RESEARCH_LOOPS" := "0"]} (Some app_config) = Ok c
    /\ Groq.max_web_research_loops c = 0
    /\ @invoke lax_validation (scripted (fun _ => "not json"))
         {["MAX_WEB_RESEARCH_LOOPS" := "0"]} (Some app_config) 6
         "Quantum Computing" []
       = (Ok (final, history), tr')
    /\ history.*1
       = [generate_query_node; web_research_node; summarize_sources_node;
          reflect_on_summary_node; finalize_summary_node]
    /\ web_research_counts history = [1].
Proof.
  destruct (@Groq.from_runnable_config lax_validation
              {["MAX_WEB_RESEARCH_LOOPS" := "0"]} (Some app_config))
    as [c|e] eqn:Hc.
  - assert (Hmax : Groq.max_web_research_loops c = 0).
    { vm_compute in Hc. by injection Hc as <-. }
    pose proof (@passes_for_any_maximum lax_validation
                  (scripted (fun _ => "not json"))
                  {["MAX_WEB_RESEARCH_LOOPS" := "0"]} (Some app_config) c Hc)
      as Hp.
    cbv zeta in Hp. destruct Hp as (Hpartial & Htotal & Hone & _).
    assert (Hpasses : passes_for (Groq.max_web_research_loops c) = 1%nat)
      by (apply Hone; rewrite Hmax; reflexivity).
    rewrite Hpasses in Hpartial, Htotal.
    destruct (Htotal plain_text_providers_answer 6%nat "Quantum Computing" []
                ltac:(lia))
      as (final & history & tr' & Hrun).
    destruct (Hpartial _ _ _ _ _ _ Hrun) as (Hnodes & _ & Hcounts & _).
    exists c, final, history, tr'. split; [reflexivity |].
    split; [exact Hmax |]. split; [exact Hrun |].
    split; [exact Hnodes | exact Hcounts].
  - exfalso. vm_compute in Hc. discriminate Hc.
Defined.

(** The report of the scripted run is built from the model's reply. *)
Lemma complete_run_report_and_calls_witness :
  exists final history tr',
    @invoke lax_validation (scripted (fun _ => "not json")) ∅
      (Some app_config) 25 "Quantum Computing" []
    = (Ok (final, history), tr')
    /\ length tr' = 13%nat
    /\ running_summary final
       = Some (@report "not json" (sources_gathered final)).
Proof.
  destruct demo_complete_run as (final & history & tr' & Hrun & _).
  exists final, history, tr'. split; [exact Hrun |].
  destruct (@complete_run_report_and_calls lax_validation _ _ _ _ _ _ _ _ _
              demo_configuration_resolved Hrun)
    as (_ & _ & Hlen & _ & _ & _ & Hrep).
  split; [exact Hlen |].
  destruct Hrep as (state & tr & recent & reply & reflection
                    & _ & _ & _ & Hreply & _ & Hsum).
  change (Ok "not json" = Ok reply) in Hreply. injection Hreply as <-.
  exact Hsum.
Defined.

(** A reply that is an object with a follow-up query: that query is set. *)
Lemma reflect_on_summary_always_yields_query_witness :
  @reflect_on_summary lax_validation (scripted (fun _ => follow_up_reply)) ∅
    (Some app_config) (initial_state "Quantum Computing") []
  = (Ok (set_search_query (VStr "qubit error rates")),
     [ChatCall (@reflection_request (scripted (fun _ => follow_up_reply))
                  demo_configuration (initial_state "Quantum Computing"))])
  /\ truthy (VStr "qubit error rates") = true.
Proof.
  destruct (@reflect_on_summary_always_yields_query lax_validation
              (scripted (fun _ => follow_up_reply)) ∅ (Some app_config)
              (initial_state "Quantum Computing") [] demo_configuration
              follow_up_reply demo_configuration_resolved eq_refl
              ltac:(intros e He; vm_compute in He; discriminate He))
    as (Hrun & _ & Hq & _).
  split; [exact Hrun | exact Hq].
Defined.

Lemma summarize_sources_needs_a_result_witness :
  @summarize_sources lax_validation (scripted (fun _ => "not json")) ∅
    (Some app_config) (initial_state "Quantum Computing") []
  = (Raise (Exn IndexError "list index out of range"), []).
Proof.
  exact (@summarize_sources_needs_a_result lax_validation _ ∅
           (Some app_config) (initial_state "Quantum Computing") [] eq_refl).
Defined.

Lemma no_call_when_resolution_fails_witness :
  @Groq.from_runnable_config lax_validation
    {["SEARCH_API" := "duckduckgo"]} (Some app_config)
  = Resolver.validation_error
  /\ @generate_query lax_validation (scripted (fun _ => "not json"))
       {["SEARCH_API" := "duckduckgo"]} (Some app_config)
       (initial_state "Quantum Computing") []
     = (Resolver.validation_error, []).
Proof.
  assert (Hfail : @Groq.from_runnable_config lax_validation
                    {["SEARCH_API" := "duckduckgo"]} (Some app_config)
                  = Resolver.validation_error) by (vm_compute; reflexivity).
  split; [exact Hfail |].
  exact (proj1 (@no_call_when_resolution_fails lax_validation
                  (scripted (fun _ => "not json")) _ _
                  (initial_state "Quantum Computing") [] _ Hfail)).
Defined.

Lemma provider_errors_propagate_witness :
  @generate_query lax_validation (failing rate_limited) ∅ (Some app_config)
    (initial_state "Quantum Computing") []
  = (Raise rate_limited,
     [ChatCall (@query_writer_request (failing rate_limited)
                  demo_configuration (initial_state "Quantum Computing"))]).
Proof.
  exact (proj1 (@provider_errors_propagate lax_validation
                  (failing rate_limited) ∅ (Some app_config)
                  (initial_state "Quantum Computing") [] demo_configuration
                  rate_limited demo_configuration_resolved)
           eq_refl).
Defined.

(** Two blocks of blanks. *)
Lemma finalize_summary_without_sources_witness :
  (finalize_summary
     {| research_topic := "Quantum Computing"; search_query := VNone;
        web_research_results := []; sources_gathered := ["  "; ""];
        research_loop_count := 2; running_summary := Some "Nothing found." |}).2
  = set_running_summary
      ("## Summary" ++ NL ++ "Nothing found." ++ NL ++ NL ++ " ### Sources:"
       ++ NL).
Proof.
  refine (finalize_summary_without_sources "Quantum Computing" VNone []
            ["  "; ""] 2 "Nothing found." _).
  intros line Hin. apply list_elem_of_In in Hin. vm_compute in Hin.
  intuition (subst; vm_compute; discriminate).
Defined.

(** The two blocks of the example: the section lists three lines, and
    scanning the section again keeps the same three. *)
Lemma sources_section_round_trip_witness :
  (scan_sources
     [join NL (scan_sources
                 [("* A : url1" ++ NL ++ "* B : url2")%string;
                  ("* B : url2" ++ NL ++ "* C : url3")%string]).2]).2
  = ["* A : url1"; "* B : url2"; "* C : url3"].
Proof.
  exact (proj1 (proj2
           (sources_section_round_trip
              {| research_topic := "Quantum Computing"; search_query := VNone;
                 web_research_results := [];
                 sources_gathered :=
                   [("* A : url1" ++ NL ++ "* B : url2")%string;
                    ("* B : url2" ++ NL ++ "* C : url3")%string];
                 research_loop_count := 2;
                 running_summary := Some "Two pages." |}
              (initial_state "Quantum Computing")))).
Defined.

Lemma clean_block_is_kept_witness :
  (finalize_summary
     {| research_topic := "Quantum Computing"; search_query := VNone;
        web_research_results := [];
        sources_gathered := [("* A : url1" ++ NL ++ "* B : url2")%string];
        research_loop_count := 1; running_summary := Some "Two pages." |}).2
  = set_running_summary
      ("## Summary" ++ NL ++ "Two pages." ++ NL ++ NL ++ " ### Sources:" ++ NL
       ++ "* A : url1" ++ NL ++ "* B : url2").
Proof.
  refine (proj2 (clean_block_is_kept
                   {| research_topic := "Quantum Computing";
                      search_query := VNone; web_research_results := [];
                      sources_gathered :=
                        [("* A : url1" ++ NL ++ "* B : url2")%string];
                      research_loop_count := 1;
                      running_summary := Some "Two pages." |}
                   ("* A : url1" ++ NL ++ "* B : url2")%string eq_refl _ _)).
  - apply (bool_decide_unpack _). vm_compute. exact I.
  - intros line Hin. apply list_elem_of_In in Hin. vm_compute in Hin.
    intuition (subst; vm_compute; reflexivity).
Defined.

(** A second block that repeats the first and adds a blank line. *)
Lemma repeated_block_adds_nothing_witness :
  (finalize_summary
     {| research_topic := "Quantum Computing"; search_query := VNone;
        web_research_results := [];
        sources_gathered := ["* A : url1"; ("* A : url1" ++ NL ++ "  ")%string];
        research_loop_count := 2; running_summary := Some "One page." |}).2
  = (finalize_summary
       {| research_topic := "Quantum Computing"; search_query := VNone;
          web_research_results := []; sources_gathered := ["* A : url1"];
          research_loop_count := 1; running_summary := Some "One page." |}).2.
Proof.
  refine (proj2 (repeated_block_adds_nothing
                   {| research_topic := "Quantum Computing";
                      search_query := VNone; web_research_results := [];
                      sources_gathered := ["* A : url1"];
                      research_loop_count := 1;
                      running_summary := Some "One page." |}
                   {| research_topic := "Quantum Computing";
                      search_query := VNone; web_research_results := [];
                      sources_gathered :=
                        ["* A : url1"; ("* A : url1" ++ NL ++ "  ")%string];
                      research_loop_count := 2;
                      running_summary := Some "One page." |}
                   ("* A : url1" ++ NL ++ "  ")%string eq_refl eq_refl _)).
  intros line Hin Hnb. apply list_elem_of_In in Hin. vm_compute in Hin.
  destruct Hin as [<- | [<- | []]].
  - exists "* A : url1". split; [by left |].
    apply (bool_decide_unpack _). vm_compute. exact I.
  - exfalso. vm_compute in Hnb. discriminate Hnb.
Defined.

Lemma run_research_raises_only_witness :
  exists e,
    run_research demo_graph_invoke ∅ {["TAVILY_API_KEY" := "tvly-key"]}
      "Quantum Computing" []
    = (Raise e, [])
    /\ exn_cls e = ValueError
    /\ getenv_missing (load_dotenv ∅ {["TAVILY_API_KEY" := "tvly-key"]})
         "GROQ_API_KEY" = true.
Proof.
  exists (Exn ValueError
            "GROQ_API_KEY environment variable is not set. Please set your Groq API key.").
  assert (Hrun : run_research demo_graph_invoke ∅
                   {["TAVILY_API_KEY" := "tvly-key"]} "Quantum Computing" []
                 = (Raise (Exn ValueError
                             "GROQ_API_KEY environment variable is not set. Please set your Groq API key."),
                    [])) by reflexivity.
  split; [exact Hrun |]. split; [reflexivity |].
  destruct (run_research_raises_only demo_graph_invoke ∅
              {["TAVILY_API_KEY" := "tvly-key"]} "Quantum Computing" [] _ _
              Hrun)
    as (_ & Hmissing & _).
  destruct (Hmissing eq_refl) as [_ [Hg | Ht]]; [exact Hg |].
  exfalso. vm_compute in Ht. discriminate Ht.
Defined.

Lemma empty_key_counts_as_missing_witness :
  exists msg,
    run_research demo_graph_invoke ∅
      {["GROQ_API_KEY" := ""; "TAVILY_API_KEY" := "tvly-key"]}
      "Quantum Computing" []
    = (Raise (Exn ValueError msg), [])
    /\ contains "GROQ_API_KEY" msg = true.
Proof.
  exact (empty_key_counts_as_missing demo_graph_invoke ∅
           {["GROQ_API_KEY" := ""; "TAVILY_API_KEY" := "tvly-key"]}
           "Quantum Computing" [] "GROQ_API_KEY" (or_introl eq_refl) eq_refl).
Defined.

(** An exit requested at the prompt leaves [main]; so does the refusal of
    the banner by a console that cannot show it. *)
Lemma app_main_catches_everything_witness :
  app_main exits ∅ both_keys demo_graph_invoke utf8_console ([], [])
  = (Raise (Exn SystemExit EmptyString), ([Title; DoubleRule], []))
  /\ is_Exception SystemExit = false
  /\ app_main (types "Quantum Computing") ∅ both_keys demo_graph_invoke
       ascii_console ([], [])
     = (Raise emoji_refused, ([], [])).
Proof.
  assert (Hrun : app_main exits ∅ both_keys demo_graph_invoke utf8_console
                   ([], [])
                 = (Raise (Exn SystemExit EmptyString),
                    ([Title; DoubleRule], []))) by reflexivity.
  split; [exact Hrun |].
  destruct (app_main_catches_everything exits ∅ both_keys demo_graph_invoke
              utf8_console)
    as (Hout & _).
  destruct (app_main_catches_everything (types "Quantum Computing") ∅
              both_keys demo_graph_invoke ascii_console)
    as (_ & Hbanner & _).
  split; [| exact (Hbanner [] [] emoji_refused eq_refl)].
  destruct (Hout _ _ _ Hrun) as [(out & l & Hraised) | (Hexc & _)];
    [discriminate Hraised | exact Hexc].
Defined.

(** Without keys the configuration error is the missing key's; with both
    keys and a console that refuses the summary it is the console's. *)
Lemma app_main_configuration_error_witness :
  (exists msg,
      app_main (types "  Quantum Computing ") ∅ ∅ demo_graph_invoke
        utf8_console ([], [])
      = (Ok tt,
         ([Title; DoubleRule; StartingOn "Quantum Computing"; MayTakeMinutes;
           SingleRule; ConfigurationErrorLine msg; CheckVariables], [])))
  /\ app_main (types "  Quantum Computing ") ∅ both_keys demo_graph_invoke
       summary_refusing_console ([], [])
     = (Ok tt,
        ([Title; DoubleRule; StartingOn "Quantum Computing"; MayTakeMinutes;
          SingleRule; Complete; DoubleRule;
          ConfigurationErrorLine (exn_str surrogates_refused);
          CheckVariables],
         [SearchCall (VStr "Quantum Computing") true 3])).
Proof.
  split.
  - exact (proj1 (proj1 (app_main_configuration_error
                          (types "  Quantum Computing ") ∅ ∅
                          demo_graph_invoke utf8_console []
                          "  Quantum Computing " eq_refl eq_refl)
                   (fun _ _ => eq_refl))
             eq_refl).
  - assert (Hrun : run_research demo_graph_invoke ∅ both_keys
                     "Quantum Computing" []
                   = (Ok (VStr "About Quantum Computing"),
                      [SearchCall (VStr "Quantum Computing") true 3]))
      by (vm_compute; reflexivity).
    refine (proj2 (proj2 (app_main_configuration_error
                            (types "  Quantum Computing ") ∅ both_keys
                            demo_graph_invoke summary_refusing_console []
                            "  Quantum Computing " eq_refl eq_refl)
                     (VStr "About Quantum Computing")
                     [SearchCall (VStr "Quantum Computing") true 3]
                     surrogates_refused _ Hrun eq_refl eq_refl)).
    intros out l Hl. destruct l; try reflexivity. by destruct (Hl summary).
Defined.

(** ["03"], with blanks around it, is the third topic. *)
Lemma menu_selection_witness :
  @select_topic decimal_builtins (types " 03 ")
  = Ok (Chosen
          "Current state of quantum computing technology and its applications").
Proof.
  destruct (proj1 (@menu_selection decimal_builtins (types " 03 ") " 03 "
                     eq_refl)
              eq_refl ltac:(vm_compute; lia) ltac:(vm_compute; split; discriminate))
    as (topic & Htopic & Hsel).
  vm_compute in Htopic. injection Htopic as <-. exact Hsel.
Defined.




Lemma example_configuration_resolves_witness :
  @Groq.from_runnable_config lax_validation both_keys (Some example_config)
  = Ok example_configuration.
Proof.
  refine (@example_configuration_resolves lax_validation both_keys "gsk-key"
            eq_refl _).
  intros name Hin Hne. apply list_elem_of_In in Hin. cbn in Hin.
  intuition (subst; try contradiction; vm_compute; reflexivity).
Defined.


End MoreInstances.
